(** * xlsx-to-moodle: the markup translator, the field coercers, the column
      normalizer, the question mapper and the document assembler of
      [src/xlsx-to-moodle.py].

    Python [str] values are modelled as [string]; one [ascii] is one code
    point below 256.  Python [float] values are modelled by the IEEE 754
    binary64 instance of the Standard Library's [spec_float]. *)

From Stdlib Require Import ZArith NArith List Bool Lia String Ascii.
From Stdlib Require Import DecimalString DecimalPos DecimalN DecimalZ.
From Stdlib Require Import QArith Qround Qpower Qabs SpecFloat.
From Stdlib Require Import Permutation.
Import ListNotations.

Close Scope Q_scope.
Open Scope string_scope.

(** ** Built-ins of Python's [str] that the program calls *)
Module PyStr.

Definition code (c : ascii) : N := N_of_ascii c.

Definition nl : ascii := "010"%char.
Definition cr : ascii := "013"%char.
Definition star : ascii := "*"%char.

(** [str.isspace] on one code point; also the class [\s] of [re]. *)
Definition isspace (c : ascii) : bool :=
  let n := code c in
  ((9 <=? n) && (n <=? 13) || (28 <=? n) && (n <=? 32)
   || (n =? 133) || (n =? 160))%N.

(** The class [\d] of [re], below code point 256. *)
Definition isdigit (c : ascii) : bool :=
  let n := code c in ((48 <=? n) && (n <=? 57))%N.

Fixpoint lstrip (s : string) : string :=
  match s with
  | String c r => if isspace c then lstrip r else s
  | EmptyString => EmptyString
  end.

Fixpoint rstrip (s : string) : string :=
  match s with
  | String c r =>
      match rstrip r with
      | EmptyString => if isspace c then EmptyString else String c EmptyString
      | r' => String c r'
      end
  | EmptyString => EmptyString
  end.

(** [s.strip()] *)
Definition strip (s : string) : string := rstrip (lstrip s).

(** [s[len(p):]] when [s.startswith(p)] *)
Fixpoint strip_prefix (p s : string) : option string :=
  match p with
  | EmptyString => Some s
  | String a p' =>
      match s with
      | String b s' => if Ascii.eqb a b then strip_prefix p' s' else None
      | EmptyString => None
      end
  end.

Definition startswith (p s : string) : bool :=
  match strip_prefix p s with Some _ => true | None => false end.

(** [s.replace(old, new)] for a non-empty [old]: leftmost occurrences, not
    overlapping.  [skip] counts the characters of the current occurrence
    that are still to be passed over. *)
Fixpoint replace_from (skip : nat) (old new s : string) : string :=
  match s with
  | EmptyString => EmptyString
  | String c r =>
      match skip with
      | S k => replace_from k old new r
      | O =>
          if startswith old s
          then new ++ replace_from (length old - 1) old new r
          else String c (replace_from 0 old new r)
      end
  end.

Definition replace (old new s : string) : string := replace_from 0 old new s.

(** [s.split] on the newline character *)
Fixpoint split_nl (s : string) : list string :=
  match s with
  | EmptyString => [EmptyString]
  | String c r =>
      if Ascii.eqb c nl then EmptyString :: split_nl r
      else match split_nl r with
           | h :: t => String c h :: t
           | [] => [String c EmptyString]
           end
  end.

(** [sep.join(parts)] *)
Fixpoint join (sep : string) (parts : list string) : string :=
  match parts with
  | [] => EmptyString
  | [p] => p
  | p :: rest => p ++ sep ++ join sep rest
  end.

(** [join] with the empty separator *)
Fixpoint concat (parts : list string) : string :=
  match parts with
  | [] => EmptyString
  | p :: rest => p ++ concat rest
  end.

(** [c in s] for one character. *)
Fixpoint contains (c : ascii) (s : string) : bool :=
  match s with
  | EmptyString => false
  | String a r => Ascii.eqb a c || contains c r
  end.

(** [p in s] for a substring. *)
Fixpoint has_substring (p s : string) : bool :=
  startswith p s ||
  match s with
  | EmptyString => false
  | String _ r => has_substring p r
  end.

(** [s.count(p)] for a non-empty [p]: occurrences that do not overlap. *)
Fixpoint count_from (skip : nat) (p s : string) : nat :=
  match s with
  | EmptyString => 0
  | String _ r =>
      match skip with
      | S k => count_from k p r
      | O => if startswith p s then S (count_from (length p - 1) p r)
             else count_from 0 p r
      end
  end.

Definition count (p s : string) : nat := count_from 0 p s.

(** [s[:n]] and [s[n:]] *)
Fixpoint take (n : nat) (s : string) : string :=
  match n, s with
  | S n', String c r => String c (take n' r)
  | _, _ => EmptyString
  end.

Fixpoint drop (n : nat) (s : string) : string :=
  match n, s with
  | S n', String _ r => drop n' r
  | _, _ => s
  end.

(** [s * k] *)
Fixpoint times (s : string) (k : nat) : string :=
  match k with
  | O => EmptyString
  | S k' => s ++ times s k'
  end.

(** Every character of [s] satisfies [p]. *)
Fixpoint all (p : ascii -> bool) (s : string) : bool :=
  match s with
  | EmptyString => true
  | String c r => p c && all p r
  end.

End PyStr.

(** ** html.escape (with its default [quote=True]) *)
Definition escape_char (c : ascii) : string :=
  if Ascii.eqb c "&" then "&amp;"
  else if Ascii.eqb c "<" then "&lt;"
  else if Ascii.eqb c ">" then "&gt;"
  else if Ascii.eqb c "034" then "&quot;"
  else if Ascii.eqb c "'" then "&#x27;"
  else String c EmptyString.

Fixpoint escape (s : string) : string :=
  match s with
  | EmptyString => EmptyString
  | String c r => escape_char c ++ escape r
  end.

(** ** Formatting helpers *)

(** The class of [_ctrl_re]: [[\x00-\x08\x0B\x0C\x0E-\x1F]]. *)
Definition is_ctrl (c : ascii) : bool :=
  let n := PyStr.code c in
  ((n <=? 8) || (n =? 11) || (n =? 12) || (14 <=? n) && (n <=? 31))%N.

(** [_ctrl_re.sub] with the empty replacement *)
Fixpoint ctrl_sub (s : string) : string :=
  match s with
  | EmptyString => EmptyString
  | String c r => if is_ctrl c then ctrl_sub r else String c (ctrl_sub r)
  end.

(** *** The bold pass

    The pattern is: two stars, a lazy run of one or more characters other
    than newline (group 1), two stars.  A match is replaced by group 1 inside
    a strong tag. *)

(** The lazy run and the closing pair at the start of [s]: the dot takes one
    character that is not a newline, then the closing pair is tried before
    the dot takes more.  The result is group 1. *)
Fixpoint lazy_dots_bold (s : string) : option string :=
  match s with
  | EmptyString => None
  | String c r =>
      if Ascii.eqb c PyStr.nl then None
      else if PyStr.startswith "**" r then Some (String c EmptyString)
      else option_map (String c) (lazy_dots_bold r)
  end.

(** The whole pattern at the start of [s]; the result is group 1. *)
Definition match_bold (s : string) : option string :=
  match PyStr.strip_prefix "**" s with
  | Some r => lazy_dots_bold r
  | None => None
  end.

(** The scan of [re.sub]: after a match the search resumes at its end; [skip]
    counts the characters of the last match still to be passed over. *)
Fixpoint sub_bold_from (skip : nat) (s : string) : string :=
  match s with
  | EmptyString => EmptyString
  | String c r =>
      match skip with
      | S k => sub_bold_from k r
      | O =>
          match match_bold s with
          | Some inner =>
              "<strong>" ++ inner ++ "</strong>"
                ++ sub_bold_from (length inner + 3) r
          | None => String c (sub_bold_from 0 r)
          end
      end
  end.

Definition sub_bold (s : string) : string := sub_bold_from 0 s.

(** *** The italic pass

    The pattern is: a star that no star precedes and no star follows, a lazy
    run of one or more characters other than newline (group 1), and again a
    star that no star precedes and no star follows.  A match is replaced by
    group 1 inside an em tag. *)

Definition starts_with_star (s : string) : bool :=
  match s with
  | String c _ => Ascii.eqb c PyStr.star
  | EmptyString => false
  end.

(** The lazy run and the closing star at the start of [s]; the result is
    group 1. *)
Fixpoint lazy_dots_em (s : string) : option string :=
  match s with
  | EmptyString => None
  | String c r =>
      if Ascii.eqb c PyStr.nl then None
      else
        match r with
        | String d r' =>
            if negb (Ascii.eqb c PyStr.star) && Ascii.eqb d PyStr.star
               && negb (starts_with_star r')
            then Some (String c EmptyString)
            else option_map (String c) (lazy_dots_em r)
        | EmptyString => None
        end
  end.

(** The whole pattern at the start of [s], [prev] being the character before
    it in the searched text. *)
Definition match_em (prev : option ascii) (s : string) : option string :=
  match s with
  | String c r =>
      if Ascii.eqb c PyStr.star
         && negb (match prev with
                  | Some p => Ascii.eqb p PyStr.star
                  | None => false
                  end)
         && negb (starts_with_star r)
      then lazy_dots_em r
      else None
  | EmptyString => None
  end.

Fixpoint sub_em_from (skip : nat) (prev : option ascii) (s : string) : string :=
  match s with
  | EmptyString => EmptyString
  | String c r =>
      match skip with
      | S k => sub_em_from k (Some c) r
      | O =>
          match match_em prev s with
          | Some inner =>
              "<em>" ++ inner ++ "</em>"
                ++ sub_em_from (length inner + 1) (Some c) r
          | None => String c (sub_em_from 0 (Some c) r)
          end
      end
  end.

Definition sub_em (s : string) : string := sub_em_from 0 None s.

(** ** Python's [float]: IEEE 754 binary64 *)
Module PyFloat.

Local Open Scope Z_scope.

Definition prec : Z := 53.
Definition emax : Z := 1024.

Definition is_nan (f : spec_float) : bool :=
  match f with S754_nan => true | _ => false end.

Definition is_inf (f : spec_float) : bool :=
  match f with S754_infinity _ => true | _ => false end.

(** The comparison operators [<], [<=], [==], [>], [>=]. *)
Definition lt (x y : spec_float) : bool := SFltb x y.
Definition le (x y : spec_float) : bool := SFleb x y.
Definition eq (x y : spec_float) : bool := SFeqb x y.
Definition gt (x y : spec_float) : bool := SFltb y x.
Definition ge (x y : spec_float) : bool := SFleb y x.

Definition sub (x y : spec_float) : spec_float := SFsub prec emax x y.

(** The nearest float of an integer (infinite when out of range). *)
Definition of_Z (z : Z) : spec_float := binary_normalize prec emax z 0 false.

(** The nearest float of [m * 10^e10], for [0 <= m]: what Python reads a
    decimal literal or a decimal string as. *)
Definition of_decimal (neg : bool) (m e10 : Z) : spec_float :=
  match m with
  | Zpos p =>
      if 0 <=? e10
      then binary_round prec emax neg (Z.to_pos (Zpos p * 10 ^ e10)) 0
      else
        let '(q, e, l) :=
          SFdiv_core_binary prec emax (Zpos p) 0 (10 ^ (- e10)) 0 in
        binary_round_aux prec emax neg q e l
  | _ => S754_zero neg
  end.

(** The exact value of a float, as a rational; 0 for the values that are
    not finite. *)
Definition magnitude (m : positive) (e : Z) : Q :=
  (inject_Z (Zpos m) * 2 ^ e)%Q.

Definition value (f : spec_float) : Q :=
  match f with
  | S754_finite s m e => if s then (- magnitude m e)%Q else magnitude m e
  | _ => 0%Q
  end.

(** *** [repr]: the shortest decimal string that reads back as the float *)

Definition Qlt_bool (a b : Q) : bool := negb (Qle_bool b a).

(** Does the positive decimal [d] round to the float [m * 2^e]?  The
    interval ends at the midpoints to the neighbouring floats, which belong
    to it when [m] is even. *)
Definition rounds_to (m : positive) (e : Z) (d : Q) : bool :=
  let lo :=
    if (Zpos m =? 2 ^ (prec - 1)) && (emin prec emax <? e)
    then (inject_Z (4 * Zpos m - 1) * 2 ^ (e - 2))%Q
    else (inject_Z (2 * Zpos m - 1) * 2 ^ (e - 1))%Q in
  let hi := (inject_Z (2 * Zpos m + 1) * 2 ^ (e - 1))%Q in
  if Z.even (Zpos m)
  then Qle_bool lo d && Qle_bool d hi
  else Qlt_bool lo d && Qlt_bool d hi.

(** The decimal exponent [k] of [x > 0]: the least [k], from [k0] on, with
    [x < 10^k]. *)
Fixpoint decimal_exponent (fuel : nat) (k0 : Z) (x : Q) : Z :=
  match fuel with
  | O => k0
  | S n => if Qlt_bool x (10 ^ k0)%Q then k0
           else decimal_exponent n (k0 + 1) x
  end.

(** The shortest digit count [n], from [n] on, for which one of the two
    [n]-digit decimals around [x = m * 2^e] rounds to it; of two that do,
    the nearer.  The result is the integer [c] with [c * 10^(k-n)] the
    decimal, and [n]. *)
Fixpoint shortest_from (fuel : nat) (n : Z) (m : positive) (e k : Z)
  : Z * Z :=
  let x := magnitude m e in
  let scaled := (x * 10 ^ (n - k))%Q in
  let lo := Qfloor scaled in
  let hi := lo + 1 in
  match fuel with
  | O => (lo, n)
  | S f =>
      let ok_lo := rounds_to m e (inject_Z lo * 10 ^ (k - n))%Q in
      let ok_hi := rounds_to m e (inject_Z hi * 10 ^ (k - n))%Q in
      let twice := (scaled + scaled)%Q in
      let mid := inject_Z (lo + hi) in
      if ok_lo && ok_hi then
        if Qlt_bool twice mid then (lo, n)
        else if Qlt_bool mid twice then (hi, n)
        else if Z.even lo then (lo, n) else (hi, n)
      else if ok_lo then (lo, n)
      else if ok_hi then (hi, n)
      else shortest_from f (n + 1) m e k
  end.

Definition digits_of (c : Z) : string :=
  NilZero.string_of_uint (N.to_uint (Z.to_N c)).

Fixpoint rstrip_zeros (s : string) : string :=
  match s with
  | String c r =>
      match rstrip_zeros r with
      | EmptyString =>
          if Ascii.eqb c "0" then EmptyString else String c EmptyString
      | r' => String c r'
      end
  | EmptyString => EmptyString
  end.

(** The significant digits of [m * 2^e] and the position [decpt] of the
    decimal point: the value reads [0.digits * 10^decpt]. *)
Definition shortest_digits (m : positive) (e : Z) : string * Z :=
  let k := decimal_exponent 640 (-324) (magnitude m e) in
  let '(c, n) := shortest_from 17 1 m e k in
  (rstrip_zeros (digits_of c), if c =? 10 ^ n then k + 1 else k).

Fixpoint zeros (n : nat) : string :=
  match n with
  | O => EmptyString
  | S n' => String "0" (zeros n')
  end.

(** The exponent part: a sign and at least two digits. *)
Definition exponent_text (ex : Z) : string :=
  let d := digits_of (Z.abs ex) in
  "e" ++ (if ex <? 0 then "-" else "+")
      ++ (if (String.length d <? 2)%nat then "0" ++ d else d).

(** The layout of [repr]: scientific when [decpt <= -4] or [16 < decpt],
    positional with a digit after the point otherwise. *)
Definition format_repr (digits : string) (decpt : Z) : string :=
  if (decpt <=? -4) || (16 <? decpt) then
    match digits with
    | String d EmptyString => String d EmptyString ++ exponent_text (decpt - 1)
    | String d rest => String d ("." ++ rest) ++ exponent_text (decpt - 1)
    | EmptyString => EmptyString
    end
  else if decpt <=? 0 then
    "0." ++ zeros (Z.to_nat (- decpt)) ++ digits
  else
    let nd := Z.of_nat (String.length digits) in
    if nd <=? decpt
    then digits ++ zeros (Z.to_nat (decpt - nd)) ++ ".0"
    else PyStr.take (Z.to_nat decpt) digits ++ "."
           ++ PyStr.drop (Z.to_nat decpt) digits.

Definition sign_text (s : bool) : string := if s then "-" else "".

(** [repr(f)], which is also [str(f)]. *)
Definition repr (f : spec_float) : string :=
  match f with
  | S754_nan => "nan"
  | S754_infinity s => sign_text s ++ "inf"
  | S754_zero s => sign_text s ++ "0.0"
  | S754_finite s m e =>
      let '(digits, decpt) := shortest_digits m e in
      sign_text s ++ format_repr digits decpt
  end.

(** *** The format [.2f]: two decimals, the exact value rounded half to
    even *)
Definition round_half_even (x : Q) : Z :=
  let q := Qfloor x in
  let twice := (x + x)%Q in
  let mid := inject_Z (q + q + 1) in
  if Qlt_bool twice mid then q
  else if Qlt_bool mid twice then q + 1
  else if Z.even q then q else q + 1.

Definition fixed2 (n : Z) : string :=
  let d := digits_of n in
  let d := zeros (3 - String.length d) ++ d in
  let len := String.length d in
  PyStr.take (len - 2) d ++ "." ++ PyStr.drop (len - 2) d.

Definition format_2f (f : spec_float) : string :=
  match f with
  | S754_nan => "nan"
  | S754_infinity s => sign_text s ++ "inf"
  | S754_zero s => sign_text s ++ "0.00"
  | S754_finite s m e =>
      sign_text s ++ fixed2 (round_half_even (magnitude m e * 100)%Q)
  end.

(** *** [float(s)] for a string *)

Definition is_underscore (c : ascii) : bool := Ascii.eqb c "_".

(** After a digit: more digits, each optionally preceded by one
    underscore. *)
Fixpoint digits_tail (s : string) : string * string :=
  match s with
  | String c r =>
      if PyStr.isdigit c then
        let '(ds, rest) := digits_tail r in (String c ds, rest)
      else if is_underscore c then
        match r with
        | String d r' =>
            if PyStr.isdigit d then
              let '(ds, rest) := digits_tail r' in (String d ds, rest)
            else (EmptyString, s)
        | EmptyString => (EmptyString, s)
        end
      else (EmptyString, s)
  | EmptyString => (EmptyString, EmptyString)
  end.

Definition digitpart (s : string) : string * string :=
  match s with
  | String c r =>
      if PyStr.isdigit c then
        let '(ds, rest) := digits_tail r in (String c ds, rest)
      else (EmptyString, s)
  | EmptyString => (EmptyString, EmptyString)
  end.

Definition digit_value (c : ascii) : Z := Z.of_N (PyStr.code c) - 48.

Fixpoint Z_of_digits (acc : Z) (s : string) : Z :=
  match s with
  | String c r => Z_of_digits (10 * acc + digit_value c) r
  | EmptyString => acc
  end.

Definition lower (c : ascii) : ascii :=
  let n := PyStr.code c in
  if ((65 <=? n) && (n <=? 90))%N then ascii_of_N (n + 32) else c.

Fixpoint lowercase (s : string) : string :=
  match s with
  | String c r => String (lower c) (lowercase r)
  | EmptyString => EmptyString
  end.

Definition take_sign (s : string) : bool * string :=
  match s with
  | String c r =>
      if Ascii.eqb c "-" then (true, r)
      else if Ascii.eqb c "+" then (false, r)
      else (false, s)
  | EmptyString => (false, s)
  end.

(** The exponent part, when there is one; [None] when it is malformed. *)
Definition take_exponent (s : string) : option Z :=
  match s with
  | EmptyString => Some 0
  | String c r =>
      if Ascii.eqb (lower c) "e" then
        let '(neg, r1) := take_sign r in
        match digitpart r1 with
        | (String d ds, EmptyString) =>
            let v := Z_of_digits 0 (String d ds) in
            Some (if neg then - v else v)
        | _ => None
        end
      else None
  end.

(** The whitespace [float] skips at both ends: the whitespace of C, and the
    whitespace of [str.isspace] beyond the ASCII characters (which is turned
    into spaces first). *)
Definition float_space (c : ascii) : bool :=
  let n := PyStr.code c in
  (((9 <=? n) && (n <=? 13)) || (n =? 32) || (n =? 133) || (n =? 160))%N.

Fixpoint lstrip_by (p : ascii -> bool) (s : string) : string :=
  match s with
  | String c r => if p c then lstrip_by p r else s
  | EmptyString => EmptyString
  end.

Fixpoint rstrip_by (p : ascii -> bool) (s : string) : string :=
  match s with
  | String c r =>
      match rstrip_by p r with
      | EmptyString => if p c then EmptyString else String c EmptyString
      | r' => String c r'
      end
  | EmptyString => EmptyString
  end.

Definition float_strip (s : string) : string :=
  rstrip_by float_space (lstrip_by float_space s).

(** [float(s)]; [None] stands for the [ValueError]. *)
Definition of_string (s : string) : option spec_float :=
  let '(neg, body) := take_sign (float_strip s) in
  let low := lowercase body in
  if String.eqb low "inf" || String.eqb low "infinity"
  then Some (S754_infinity neg)
  else if String.eqb low "nan" then Some S754_nan
  else
    let '(ip, r1) := digitpart body in
    let '(fp, r2) :=
      match r1 with
      | String c r => if Ascii.eqb c "." then digitpart r else (EmptyString, r1)
      | EmptyString => (EmptyString, r1)
      end in
    match (ip ++ fp)%string with
    | EmptyString => None
    | ds =>
        match take_exponent r2 with
        | Some ex =>
            Some (of_decimal neg (Z_of_digits 0 ds)
                             (ex - Z.of_nat (String.length fp)))
        | None => None
        end
    end.

End PyFloat.

(** ** The values a cell of the row table holds *)
Inductive value : Type :=
| VNone
| VBool (b : bool)
| VInt (z : Z)
| VFloat (f : spec_float)
| VStr (s : string).

(** [str(v)] *)
Definition py_str (v : value) : string :=
  match v with
  | VNone => "None"
  | VBool true => "True"
  | VBool false => "False"
  | VInt z => NilZero.string_of_int (Z.to_int z)
  | VFloat f => PyFloat.repr f
  | VStr s => s
  end.

(** The truth value of [v], as [not v] and [if v] test it. *)
Definition truthy (v : value) : bool :=
  match v with
  | VNone => false
  | VBool b => b
  | VInt z => negb (z =? 0)%Z
  | VFloat f => negb (PyFloat.eq f (S754_zero false))
  | VStr s => negb (String.eqb s "")
  end.

(** [isinstance(v, float) and pd.isna(v)] *)
Definition is_float_nan (v : value) : bool :=
  match v with
  | VFloat f => PyFloat.is_nan f
  | _ => false
  end.

Definition strip_control (s : value) : string :=
  match s with
  | VNone => ""
  | _ => ctrl_sub (py_str s)
  end.

(** *** The list blocks of the line scan *)

(** The text after a match of the bullet pattern (start of line, any
    whitespace, a dash, one or more whitespace) at the start of [line]. *)
Definition ul_marker (line : string) : option string :=
  match PyStr.lstrip line with
  | String "-" (String w r) =>
      if PyStr.isspace w then Some (PyStr.lstrip r) else None
  | _ => None
  end.

Fixpoint skip_digits (s : string) : string :=
  match s with
  | String c r => if PyStr.isdigit c then skip_digits r else s
  | EmptyString => EmptyString
  end.

(** The same for the numbered pattern (start of line, any whitespace, one or
    more digits, a dot or a closing parenthesis, one or more whitespace). *)
Definition ol_marker (line : string) : option string :=
  match PyStr.lstrip line with
  | String d r =>
      if PyStr.isdigit d then
        match skip_digits r with
        | String p (String w r') =>
            if (Ascii.eqb p "." || Ascii.eqb p ")") && PyStr.isspace w
            then Some (PyStr.lstrip r') else None
        | _ => None
        end
      else None
  | EmptyString => None
  end.

Definition is_some {A : Type} (o : option A) : bool :=
  match o with Some _ => true | None => false end.

(** The inner [while]: the items of the lines that match, up to the first
    line that does not, and the lines left. *)
Fixpoint list_run (marker : string -> option string) (lines : list string)
  : list string * list string :=
  match lines with
  | line :: rest =>
      match marker line with
      | Some body =>
          let '(items, rest') := list_run marker rest in
          (PyStr.strip body :: items, rest')
      | None => ([], lines)
      end
  | [] => ([], [])
  end.

Definition li (itm : string) : string := "<li>" ++ itm ++ "</li>".

Definition list_block (tag : string) (items : list string) : string :=
  "<" ++ tag ++ ">" ++ PyStr.concat (map li items) ++ "</" ++ tag ++ ">".

(** The outer [while] over [lines[i:]]; every turn consumes a line, so
    [length lines] turns are enough. *)
Fixpoint scan_lines (fuel : nat) (lines : list string) : list string :=
  match fuel with
  | O => []
  | S n =>
      match lines with
      | [] => []
      | line :: rest =>
          if is_some (ul_marker line) then
            let '(items, rest') := list_run ul_marker lines in
            list_block "ul" items :: scan_lines n rest'
          else if is_some (ol_marker line) then
            let '(items, rest') := list_run ol_marker lines in
            list_block "ol" items :: scan_lines n rest'
          else line :: scan_lines n rest
      end
  end.

Definition html_lines (lines : list string) : list string :=
  scan_lines (List.length lines) lines.

(** *** The collapse of break runs

    The pattern is: three or more times, greedily, a break marker followed
    by any whitespace. *)

Definition br : string := "<br/>".

(** The greedy repetition at the start of [s]: how many times the group
    matches, and the text after the last match.  Every match consumes a
    marker, so [length s] turns are enough. *)
Fixpoint br_run (fuel : nat) (s : string) : nat * string :=
  match fuel with
  | O => (0%nat, s)
  | S n =>
      match PyStr.strip_prefix br s with
      | Some r =>
          let '(k, rest) := br_run n (PyStr.lstrip r) in (S k, rest)
      | None => (0%nat, s)
      end
  end.

Fixpoint collapse_from (skip : nat) (s : string) : string :=
  match s with
  | EmptyString => EmptyString
  | String c r =>
      match skip with
      | S k => collapse_from k r
      | O =>
          let '(k, rest) := br_run (length s) s in
          if (3 <=? k)%nat
          then br ++ br ++ collapse_from (length s - length rest - 1) r
          else String c (collapse_from 0 r)
      end
  end.

Definition collapse_breaks (html : string) : string := collapse_from 0 html.

(** *** The translator *)
Definition convert_markup_to_html (text : value) : string :=
  match text with
  | VNone => ""
  | _ =>
      let t := strip_control text in
      let t := PyStr.replace (String PyStr.cr (String PyStr.nl "")) (String PyStr.nl "") t in
      let t := PyStr.replace (String PyStr.cr "") (String PyStr.nl "") t in
      let t := PyStr.replace "[br]" (String PyStr.nl "") t in
      let t := escape t in
      let t := sub_bold t in
      let t := sub_em t in
      let lines := PyStr.split_nl t in
      let html := PyStr.join br (html_lines lines) in
      collapse_breaks html
  end.

Definition translate (s : string) : string := convert_markup_to_html (VStr s).

(** ** Field coercers *)

(** [clean_float(x, default)].  [float(x)] raises for a string that is not a
    number and for an integer too large for a float; both are caught. *)
Definition clean_float (x : value) (default : spec_float) : spec_float :=
  match x with
  | VNone => default
  | VFloat f => if PyFloat.is_nan f then default else f
  | VStr s =>
      if String.eqb (PyStr.strip s) "" then default
      else match PyFloat.of_string s with
           | Some f => f
           | None => default
           end
  | VBool b => PyFloat.of_Z (if b then 1 else 0)
  | VInt z =>
      let f := PyFloat.of_Z z in
      if PyFloat.is_inf f then default else f
  end.

Definition true_words : list string := ["true"; "t"; "1"; "yes"; "y"].
Definition false_words : list string := ["false"; "f"; "0"; "no"; "n"].

Definition mem (s : string) (l : list string) : bool :=
  existsb (String.eqb s) l.

(** [clean_bool(x, default)].  The words are ASCII, so lowering the ASCII
    letters decides the membership as [str.lower] does. *)
Definition clean_bool (x : value) (default : bool) : bool :=
  match x with
  | VBool b => b
  | VNone => default
  | _ =>
      if is_float_nan x then default
      else
        let s := PyFloat.lowercase (PyStr.strip (py_str x)) in
        if mem s true_words then true
        else if mem s false_words then false
        else default
  end.

(** ** XML helpers *)

(** An [xml.etree.ElementTree.Element]: tag, attributes, text, children. *)
#[warning="-register-all"]
Inductive element : Type :=
| Element (tag : string) (attrib : list (string * string))
          (text : option string) (children : list element).

Definition tag_of (e : element) : string :=
  match e with Element t _ _ _ => t end.
Definition attrib_of (e : element) : list (string * string) :=
  match e with Element _ a _ _ => a end.
Definition text_of (e : element) : option string :=
  match e with Element _ _ t _ => t end.
Definition children_of (e : element) : list element :=
  match e with Element _ _ _ c => c end.

(** [e.get(key)] *)
Fixpoint attrib_get (key : string) (a : list (string * string))
  : option string :=
  match a with
  | (k, v) :: rest => if String.eqb k key then Some v else attrib_get key rest
  | [] => None
  end.

(** [e.findall(tag)]: the children with that tag, in document order. *)
Definition findall (tag : string) (e : element) : list element :=
  filter (fun c => String.eqb (tag_of c) tag) (children_of e).

(** [e.findtext(tag)]: the text of the first child with that tag. *)
Definition findtext (tag : string) (e : element) : option string :=
  match findall tag e with
  | c :: _ => text_of c
  | [] => None
  end.

(** [e.findtext(tag + "/text")] *)
Definition find_inner_text (tag : string) (e : element) : option string :=
  match findall tag e with
  | c :: _ => findtext "text" c
  | [] => None
  end.

(** A leaf [<tag>text</tag>]. *)
Definition leaf (tag text : string) : element :=
  Element tag [] (Some text) [].

(** ** The rows of the normalized table *)
Definition row : Type := list (string * value).

(** [qrow.get(key, default)] *)
Fixpoint row_get_or (qrow : row) (key : string) (default : value) : value :=
  match qrow with
  | (k, v) :: rest =>
      if String.eqb k key then v else row_get_or rest key default
  | [] => default
  end.

(** [qrow.get(key)] *)
Definition row_get (qrow : row) (key : string) : value :=
  row_get_or qrow key VNone.

(** The column name [f"{stem}{i}"]. *)
Definition column (stem : string) (i : Z) : string :=
  stem ++ py_str (VInt i).

(** ** The question mapper *)

(** [max(l)]: the first of the greatest, comparing with [>]. *)
Definition py_max (l : list spec_float) : spec_float :=
  match l with
  | [] => S754_zero false
  | x :: rest =>
      fold_left (fun acc y => if PyFloat.gt y acc then y else acc) rest x
  end.

(** [l.count(m)] for [m = max(l)].  [count] takes an item that is the very
    object [m] or equals it; a maximum that is not a number is the first
    item of [l], an object of its own, so it is counted once. *)
Definition count_max (l : list spec_float) (m : spec_float) : nat :=
  if PyFloat.is_nan m then 1%nat
  else List.length (filter (fun x => PyFloat.eq x m) l).

Definition hundred : spec_float := PyFloat.of_Z 100.
Definition minus_hundred : spec_float := PyFloat.of_Z (-100).
Definition zero : spec_float := S754_zero false.
(** The literal [1e-6]. *)
Definition tiny : spec_float := PyFloat.of_decimal false 1 (-6).
(** [100.0 - 1e-6] *)
Definition full_credit : spec_float := PyFloat.sub hundred tiny.

Definition choice_indices : list Z := [1; 2; 3; 4; 5]%Z.

(** [[clean_float(qrow.get(f"Fraction{i}"), default=0.0) for i in range(1, 6)]] *)
Definition fractions (qrow : row) : list spec_float :=
  map (fun i => clean_float (row_get qrow (column "Fraction" i)) zero)
      choice_indices.

Definition is_single (fracs : list spec_float) : bool :=
  let max_frac := py_max fracs in
  (count_max fracs max_frac =? 1)%nat && PyFloat.ge max_frac full_credit.

(** [min(a, b)] and [max(a, b)] of two floats: the second argument replaces
    the first only when it compares strictly beyond it. *)
Definition py_min2 (a b : spec_float) : spec_float :=
  if PyFloat.lt b a then b else a.
Definition py_max2 (a b : spec_float) : spec_float :=
  if PyFloat.gt b a then b else a.

(** [max(-100.0, min(100.0, float(frac)))] *)
Definition clamp (frac : spec_float) : spec_float :=
  py_max2 minus_hundred (py_min2 hundred frac).

Definition bool_text (b : bool) : string := if b then "true" else "false".

(** The name given to the question of [qrow] at [index]. *)
Definition question_name (qrow : row) (index : Z) : string :=
  let name_val := row_get qrow "Name" in
  let name_val :=
    if negb (truthy name_val) || is_float_nan name_val
    then VStr ("Q" ++ py_str (VInt (index + 1)))
    else name_val in
  strip_control name_val.

(** The clamped fraction of choice [i]; the coercer is given the default
    0.0, so it never returns [None]. *)
Definition answer_fraction (qrow : row) (i : Z) : spec_float :=
  clamp (clean_float (row_get qrow (column "Fraction" i)) zero).

(** One turn of the loop over the five choices. *)
Definition answer_node (qrow : row) (i : Z) : element :=
  let choice_html :=
    convert_markup_to_html (VStr (strip_control (row_get qrow (column "Choice" i)))) in
  let frac := answer_fraction qrow i in
  let cfb_html :=
    convert_markup_to_html
      (VStr (strip_control (row_get qrow (column "ChoiceFeedback" i)))) in
  Element "answer" [("fraction", PyFloat.repr frac); ("format", "html")] None
    [ leaf "text" choice_html;
      Element "feedback" [("format", "html")] None [leaf "text" cfb_html] ].

Definition question_multichoice_xml (qrow : row) (index : Z)
           (category_name : string) : element :=
  let qtext_html :=
    convert_markup_to_html
      (VStr (PyStr.strip (py_str (row_get_or qrow "Question" (VStr ""))))) in
  let defaultgrade :=
    clean_float (row_get qrow "DefaultGrade") (PyFloat.of_Z 5) in
  let single := is_single (fractions qrow) in
  let shuffle := clean_bool (row_get qrow "Shuffle") true in
  let gf_html :=
    convert_markup_to_html (VStr (strip_control (row_get qrow "GeneralFeedback"))) in
  Element "question" [("type", "multichoice")] None
    ([ Element "name" [] None [leaf "text" (question_name qrow index)];
       Element "questiontext" [("format", "html")] None [leaf "text" qtext_html];
       leaf "defaultgrade" (PyFloat.format_2f defaultgrade);
       leaf "penalty" "0.0";
       leaf "single" (bool_text single);
       leaf "shuffleanswers" (bool_text shuffle);
       leaf "answernumbering" "ABCD";
       Element "generalfeedback" [("format", "html")] None [leaf "text" gf_html] ]
       ++ map (answer_node qrow) choice_indices).

(** ** The column normalizer *)

(** [str.lower] on a text whose code points are all below 256: there it
    lowers character by character, and this is the lowering of one
    character.  (On a longer alphabet [str.lower] is not character-wise:
    the capital sigma is lowered by its place in the word.) *)
Definition lower_char (c : ascii) : ascii :=
  let n := PyStr.code c in
  if ((65 <=? n) && (n <=? 90) || (192 <=? n) && (n <=? 214)
      || (216 <=? n) && (n <=? 222))%N
  then ascii_of_N (n + 32) else c.

Fixpoint str_lower (s : string) : string :=
  match s with
  | String c r => String (lower_char c) (str_lower r)
  | EmptyString => EmptyString
  end.

(** The class of the key pattern: whitespace, dash, underscore. *)
Definition is_separator (c : ascii) : bool :=
  PyStr.isspace c || Ascii.eqb c "-" || Ascii.eqb c "_".

(** [re.sub] of every run of separators by the empty string. *)
Fixpoint sub_separators (s : string) : string :=
  match s with
  | String c r =>
      if is_separator c then sub_separators r else String c (sub_separators r)
  | EmptyString => EmptyString
  end.

(** The key of a column label [c]: its text stripped and lowered, without
    its separators. *)
Definition normalize_key (c : value) : string :=
  sub_separators (str_lower (PyStr.strip (py_str c))).

(** The dict [canonical], in insertion order: key, then pretty name. *)
Definition canonical : list (string * string) :=
  [("name", "Name"); ("question", "Question");
   ("generalfeedback", "GeneralFeedback"); ("defaultgrade", "DefaultGrade");
   ("shuffle", "Shuffle")]
  ++ flat_map (fun i => [(column "choice" i, column "Choice" i);
                         (column "fraction" i, column "Fraction" i);
                         (column "choicefeedback" i, column "ChoiceFeedback" i)])
              choice_indices.

(** The list [required]. *)
Definition required : list string :=
  ["Question"] ++ map (column "Choice") choice_indices
               ++ map (column "Fraction") choice_indices.

(** A table whose labels are texts, as the header cells of a sheet are: the
    labels in column order, each with its column.  The normalizer never
    looks into a column, so the type [S] of the columns is left open. *)
Definition frame (S : Type) : Type := list (string * S).

(** [df.rename(columns=mapping)]: [mapping] holds the key of every label,
    so every label is replaced by its key. *)
Definition rename_columns {S : Type} (df : frame S) : frame S :=
  map (fun lc => (normalize_key (VStr (fst lc)), snd lc)) df.

(** An entry of [out]: [None] when no column has the key, the column when
    one has, and a frame when two or more have, which is what [df2[key]] is
    then. *)
Inductive picked (S : Type) : Type :=
| Absent
| Column (col : S)
| Frame.

Arguments Absent {S}.
Arguments Column {S} col.
Arguments Frame {S}.

(** [df2[key] if key in df2.columns else None] *)
Definition select {S : Type} (key : string) (df2 : frame S) : picked S :=
  match filter (fun kc => String.eqb (fst kc) key) df2 with
  | [] => Absent
  | [kc] => Column (snd kc)
  | _ => Frame
  end.

(** What a call gives: a value, the [ValueError] the function raises, or the
    error pandas raises when a column of [new_df] is to be built from a
    frame. *)
Inductive outcome (A : Type) : Type :=
| Returned (a : A)
| ValueError (message : string)
| FrameError.

Arguments Returned {A} a.
Arguments ValueError {A} message.
Arguments FrameError {A}.

(** The constructor of [new_df]: the entries that are not [None], in the
    order of [canonical]. *)
Fixpoint build_frame {S : Type} (out : list (string * picked S))
  : option (frame S) :=
  match out with
  | [] => Some []
  | (pretty, p) :: rest =>
      match p with
      | Absent => build_frame rest
      | Column col =>
          match build_frame rest with
          | Some f => Some ((pretty, col) :: f)
          | None => None
          end
      | Frame => None
      end
  end.

(** [normalize_columns(df)] *)
Definition normalize_columns {S : Type} (df : frame S) : outcome (frame S) :=
  let df2 := rename_columns df in
  let out := map (fun kp => (snd kp, select (fst kp) df2)) canonical in
  match build_frame out with
  | None => FrameError
  | Some new_df =>
      let missing :=
        filter (fun c => negb (mem c (map fst new_df))) required in
      match missing with
      | [] => Returned new_df
      | _ => ValueError ("Your Excel is missing required columns: "
                           ++ PyStr.join ", " missing)
      end
  end.

(** ** The document assembler *)

Definition build_quiz_root : element := Element "quiz" [] None [].

(** [SubElement(parent, ...)] and [parent.append(child)]: the child is added
    after the children [parent] has. *)
Definition append_child (parent child : element) : element :=
  match parent with
  | Element t a x cs => Element t a x (cs ++ [child])
  end.

Definition category_text (category_name : string) : string :=
  if negb (String.eqb category_name "")
  then "$course$/" ++ category_name
  else "$course$/Default".

Definition add_category (root : element) (category_name : string) : element :=
  append_child root
    (Element "question" [("type", "category")] None
       [Element "category" [] None [leaf "text" (category_text category_name)]]).

(** [df.iterrows()] on the table as it is read: the labels are the positions
    [0, 1, ...]. *)
Fixpoint iterrows_from (idx : Z) (df : list row) : list (Z * row) :=
  match df with
  | [] => []
  | r :: rest => (idx, r) :: iterrows_from (idx + 1) rest
  end.

Definition iterrows (df : list row) : list (Z * row) := iterrows_from 0 df.

(** The document [excel_to_moodle_xml] builds from the normalized table [df],
    before it is written out. *)
Definition excel_to_moodle_xml (df : list row) (category : string) : element :=
  let root := add_category build_quiz_root category in
  fold_left
    (fun root '(idx, qrow) =>
       append_child root (question_multichoice_xml qrow idx category))
    (iterrows df) root.

(** ** The helper [add_text_node] *)

(** The tags that are given a format attribute. *)
Definition formatted_tags : list string :=
  ["questiontext"; "generalfeedback"; "feedback"].

(** [add_text_node(parent, tag, text, format)]: the parent with its new
    child, and the child, which is what the call returns. *)
Definition add_text_node (parent : element) (tag : string) (text : value)
           (format : string) : element * element :=
  let attrib := if mem tag formatted_tags then [("format", format)] else [] in
  let text_el :=
    leaf "text" (match text with VNone => "" | _ => py_str text end) in
  let node := Element tag attrib None [text_el] in
  (append_child parent node, node).

(** ** Vocabulary of the statements *)

(** The five answer nodes of a question node, in document order. *)
Definition answers (q : element) : list element := findall "answer" q.

Definition fraction_attr (a : element) : option string :=
  attrib_get "fraction" (attrib_of a).

(** The text of an answer's nested feedback node. *)
Definition feedback_text (a : element) : option string :=
  find_inner_text "feedback" a.

(** [s] without its longest prefix of characters that satisfy [p]. *)
Fixpoint skip_while (p : ascii -> bool) (s : string) : string :=
  match s with
  | String c r => if p c then skip_while p r else s
  | EmptyString => EmptyString
  end.

(** A plain decimal: an optional minus sign, digits, a point, digits. *)
Definition unsigned_decimal (s : string) : bool :=
  match s with
  | String d _ =>
      PyStr.isdigit d &&
      match skip_while PyStr.isdigit s with
      | String p (String d' r) =>
          Ascii.eqb p "." && PyStr.isdigit d' && PyStr.all PyStr.isdigit r
      | _ => false
      end
  | EmptyString => false
  end.

Definition plain_decimal (s : string) : bool :=
  match s with
  | String "-" r => unsigned_decimal r
  | _ => unsigned_decimal s
  end.

(** Scientific notation shows by its exponent marker. *)
Definition scientific (s : string) : bool := PyStr.contains "e" s.

(** Characters the translator gives a meaning to: the star of the emphasis
    markers, the line breaks, and what [html.escape] rewrites. *)
Definition is_quote (c : ascii) : bool :=
  Ascii.eqb c "034" || Ascii.eqb c "'".

Definition is_html_special (c : ascii) : bool :=
  Ascii.eqb c "&" || Ascii.eqb c "<" || Ascii.eqb c ">".

Definition is_line_break (c : ascii) : bool :=
  Ascii.eqb c PyStr.nl || Ascii.eqb c PyStr.cr.

(** A text with no markup token: no star, no line break in either spelling,
    and no list marker at its start. *)
Definition no_markup (s : string) : bool :=
  PyStr.all (fun c => negb (Ascii.eqb c PyStr.star) && negb (is_line_break c)) s
  && negb (PyStr.has_substring "[br]" s)
  && negb (is_some (ul_marker s))
  && negb (is_some (ol_marker s)).

Definition no_html_special (s : string) : bool :=
  PyStr.all (fun c => negb (is_html_special c)) s.

Definition no_quote (s : string) : bool :=
  PyStr.all (fun c => negb (is_quote c)) s.

Definition newline : string := String PyStr.nl EmptyString.

(** The text ends with a break marker that only whitespace follows. *)
Fixpoint ends_with_break (s : string) : bool :=
  match s with
  | EmptyString => false
  | String _ r =>
      match PyStr.strip_prefix br s with
      | Some t => PyStr.all PyStr.isspace t
      | None => false
      end || ends_with_break r
  end.

(** A line the translator leaves as it is: no control character, no markup
    token, nothing for [html.escape] to rewrite. *)
Definition inert_char (c : ascii) : bool :=
  negb (is_ctrl c) && negb (Ascii.eqb c PyStr.star) && negb (is_line_break c)
  && negb (is_html_special c) && negb (is_quote c).

Definition inert_line (s : string) : bool :=
  PyStr.all inert_char s
  && negb (PyStr.has_substring "[br]" s)
  && negb (is_some (ul_marker s))
  && negb (is_some (ol_marker s)).






(** Inert characters and newlines only, and no break token. *)
Definition calm (t : string) : bool :=
  PyStr.all (fun c => inert_char c || Ascii.eqb c PyStr.nl) t
  && negb (PyStr.has_substring "[br]" t).

(** A line that is no list line. *)
Definition plain_line (l : string) : bool :=
  negb (is_some (ul_marker l)) && negb (is_some (ol_marker l)).

(** The five characters [html.escape] rewrites. *)
Definition specials : string :=
  String "&" (String "<" (String ">" (String "034" (String "'" "")))).

(** A break token that a control character (SOH) hides. *)
Definition hidden_break : string :=
  String "[" (String "b" (String "001" (String "r" (String "]" "")))).

(** The magnitude of a finite float; 0 for the other values. *)
Definition abs_value (f : spec_float) : Q :=
  match f with
  | S754_finite _ m e => PyFloat.magnitude m e
  | _ => 0%Q
  end.



Definition is_zero_digit (c : ascii) : bool := Ascii.eqb c "0".

(** Case analysis on the comparisons of exponents and mantissas. *)
Ltac split_compare :=
  repeat match goal with
         | H : context [Pos.compare_cont Eq ?a ?b] |- _ =>
             change (Pos.compare_cont Eq a b) with (Pos.compare a b) in H
         | |- context [Pos.compare_cont Eq ?a ?b] =>
             change (Pos.compare_cont Eq a b) with (Pos.compare a b)
         end;
  repeat match goal with
         | H : context [Z.compare ?a ?b] |- _ =>
             destruct (Z.compare_spec a b)
         | |- context [Z.compare ?a ?b] => destruct (Z.compare_spec a b)
         | H : context [Pos.compare ?a ?b] |- _ =>
             destruct (Pos.compare_spec a b)
         | |- context [Pos.compare ?a ?b] => destruct (Pos.compare_spec a b)
         end;
  simpl in *; try reflexivity; try discriminate; try (exfalso; lia).

Ltac float_cases x :=
  destruct x as [[|]|[|]| |[|] ? ?]; simpl in *;
  try reflexivity; try discriminate.

(** A row that holds the five fraction cells only. *)
Definition fraction_row (a b c d e : value) : row :=
  [("Fraction1", a); ("Fraction2", b); ("Fraction3", c); ("Fraction4", d);
   ("Fraction5", e)].

(** A name with a control character (BEL) between two letters. *)
Definition bell_name : string := String "A" (String "007" "B").

(** The question node of one item of [iterrows]. *)
Definition question_of (category : string) (p : Z * row) : element :=
  let '(idx, qrow) := p in question_multichoice_xml qrow idx category.

(** The category declaration node, its text spelled out. *)
Definition category_node (category : string) : element :=
  Element "question" [("type", "category")] None
    [Element "category" [] None
       [leaf "text"
             (if String.eqb category "" then "$course$/Default"
              else "$course$/" ++ category)]].

(** The key without the call of [strip]. *)
Definition bare_key (s : string) : string := sub_separators (str_lower s).

(** The columns of [df] whose label has the key [k]. *)
Definition columns_of_key {S : Type} (k : string) (df : frame S) : frame S :=
  filter (fun lc => String.eqb (normalize_key (VStr (fst lc))) k) df.

Definition has_key {S : Type} (k : string) (df : frame S) : bool :=
  existsb (fun lc => String.eqb (normalize_key (VStr (fst lc))) k) df.

(** A column whose key is one of the keys of [canonical]. *)
Definition known {S : Type} (lc : string * S) : bool :=
  mem (normalize_key (VStr (fst lc))) (map fst canonical).

(** The entries of [out] for a part [canon] of [canonical]. *)
Definition out_of {S : Type} (df : frame S) (canon : list (string * string))
  : list (string * picked S) :=
  map (fun kp => (snd kp, select (fst kp) (rename_columns df))) canon.

(** The columns of [df] under their pretty names, in the order of [canon]. *)
Definition pretty_of {S : Type} (df : frame S) (canon : list (string * string))
  : frame S :=
  flat_map (fun kp => map (fun lc => (snd kp, snd lc))
                          (columns_of_key (fst kp) df)) canon.

Definition pretty_columns {S : Type} (df : frame S) : frame S :=
  pretty_of df canonical.

(** No item of [l] comes twice. *)
Fixpoint distinct (l : list string) : bool :=
  match l with
  | [] => true
  | x :: r => negb (mem x r) && distinct r
  end.

(** The message of the [ValueError]. *)
Definition missing_message (missing : list string) : string :=
  "Your Excel is missing required columns: " ++ PyStr.join ", " missing.

(** A sheet with sloppy labels, every column a list of cells. *)
Definition sloppy_sheet : frame (list value) :=
  [("Fraction 1", [VInt 100]); (" QUESTION ", [VStr "Q?"]);
   ("choice_1", [VStr "a"]); ("Choice-2", [VStr "b"]); ("CHOICE 3", [VStr "c"]);
   ("choice4", [VStr "d"]); ("Choice  5", [VStr "e"]); ("fraction_2", [VInt 0]);
   ("FRACTION3", [VInt 0]); ("fraction-4", [VInt 0]); ("Fraction5", [VInt 0]);
   ("Notes", [VStr "kept out"]); ("Shuffle", [VBool true])].

(** What the normalizer makes of it. *)
Definition normalized_sheet : frame (list value) :=
  [("Question", [VStr "Q?"]); ("Shuffle", [VBool true]);
   ("Choice1", [VStr "a"]); ("Fraction1", [VInt 100]);
   ("Choice2", [VStr "b"]); ("Fraction2", [VInt 0]);
   ("Choice3", [VStr "c"]); ("Fraction3", [VInt 0]);
   ("Choice4", [VStr "d"]); ("Fraction4", [VInt 0]);
   ("Choice5", [VStr "e"]); ("Fraction5", [VInt 0])].

(** The characters of the text of a float. *)
Definition repr_char (c : ascii) : bool :=
  PyStr.isdigit c
  || existsb (Ascii.eqb c) (list_ascii_of_string ".e-+infa").

(** The characters of the text of an integer. *)
Definition int_char (c : ascii) : bool := PyStr.isdigit c || Ascii.eqb c "-".

Definition flag_words : list string := (true_words ++ false_words)%list.

(** A character left as it is by the lowering of the ASCII letters. *)
Definition is_lowered (c : ascii) : bool := Ascii.eqb (PyFloat.lower c) c.

(** The characters of the texts [float] reads, in either case: digits,
    signs, the point, the underscore, the exponent marker, the letters of
    the names of infinity and NaN, and the whitespace [float] skips. *)
Definition float_letter (c : ascii) : bool :=
  PyStr.isdigit c
  || existsb (Ascii.eqb c) (list_ascii_of_string "+-._einfatyn")
  || PyFloat.float_space c.

Definition float_char (c : ascii) : bool := float_letter (PyFloat.lower c).

(** The characters of the tags and the entities the translator writes. *)
Definition generated : string :=
  "<strong></strong><em></em><ul></ul><ol></ol><li></li><br/>"
  ++ "&amp;&lt;&gt;&quot;&#x27;".

Definition gen_char (c : ascii) : bool := PyStr.contains c generated.

(** A character of one line of text that XML 1.0 allows. *)
Definition line_char (c : ascii) : bool :=
  negb (is_ctrl c) && negb (is_line_break c).

(** No character that XML 1.0 forbids. *)
Definition xml_clean (s : string) : bool :=
  PyStr.all (fun c => negb (is_ctrl c)) s.

(** Every string of a tree: tags, attribute names and values, texts. *)
Fixpoint strings_of (e : element) : list string :=
  match e with
  | Element tag attrib text children =>
      (tag :: flat_map (fun kv => [fst kv; snd kv]) attrib
       ++ match text with Some t => [t] | None => [] end
       ++ flat_map strings_of children)%list
  end.

(** The last character of [s], or [prev] when [s] is empty: what the
    lookbehind of the italic pattern sees after [s]. *)
Fixpoint last_char (prev : option ascii) (s : string) : option ascii :=
  match s with
  | String c r => last_char (Some c) r
  | EmptyString => prev
  end.

Definition star_before (prev : option ascii) : bool :=
  match prev with
  | Some p => Ascii.eqb p PyStr.star
  | None => false
  end.

(** Every star of [s] has a star next to it, [before] telling whether a
    star comes just before [s]. *)
Fixpoint paired_stars (before : bool) (s : string) : bool :=
  match s with
  | String c r =>
      if Ascii.eqb c PyStr.star
      then (before || starts_with_star r) && paired_stars true r
      else paired_stars false r
  | EmptyString => true
  end.

(** The tags the translator writes. *)
Definition tags : list string :=
  ["<strong>"; "</strong>"; "<em>"; "</em>"; "<ul>"; "</ul>"; "<ol>"; "</ol>";
   "<li>"; "</li>"; "<br/>"].

Definition is_angle (c : ascii) : bool :=
  Ascii.eqb c "<" || Ascii.eqb c ">".

(** A character that no tag holds. *)
Definition outside (c : ascii) : bool :=
  forallb (fun t => negb (PyStr.contains c t)) tags.

(** A text whose angle brackets all belong to tags of the translator: it is
    made of characters that are no angle bracket and of whole tags. *)
Inductive tagged : string -> Prop :=
| tagged_nil : tagged ""
| tagged_char (c : ascii) (s : string) :
    is_angle c = false -> tagged s -> tagged (String c s)
| tagged_tag (t s : string) : In t tags -> tagged s -> tagged (t ++ s).

(** The spellings of a line break: CR LF, CR, the break token, LF. *)
Definition newline_spellings : list string :=
  [String PyStr.cr newline; String PyStr.cr ""; "[br]"; newline].

(** The text the escaping is applied to: control characters removed and
    line breaks unified. *)
Definition unified (t : string) : string :=
  PyStr.replace "[br]" newline
    (PyStr.replace (String PyStr.cr "") newline
       (PyStr.replace (String PyStr.cr newline) newline (ctrl_sub t))).

(** The integers from -100 to 100. *)
Definition percent_range : list Z :=
  map (fun n => (Z.of_nat n - 100)%Z) (seq 0 201).

(** [repr] of a finite float, given its decimal exponent [k]. *)
Definition repr_at (k : Z) (s : bool) (m : positive) (e : Z) : string :=
  let '(c, n) := PyFloat.shortest_from 17 1 m e k in
  PyFloat.sign_text s
  ++ PyFloat.format_repr (PyFloat.rstrip_zeros (PyFloat.digits_of c))
                         (if (c =? 10 ^ n)%Z then (k + 1)%Z else k).

(** The fraction cell [VInt z] comes out as the text of [z] with one
    decimal; the decimal exponent of a float is looked for among 1, 2
    and 3. *)
Definition whole_fraction (z : Z) : bool :=
  let expected := py_str (VInt z) ++ ".0" in
  match clamp (clean_float (VInt z) zero) with
  | S754_finite s m e =>
      let x := PyFloat.magnitude m e in
      let k := if PyFloat.Qlt_bool x 10 then 1%Z
               else if PyFloat.Qlt_bool x 100 then 2%Z else 3%Z in
      Qle_bool (10 ^ (k - 1)) x && PyFloat.Qlt_bool x (10 ^ k)
      && String.eqb (repr_at k s m e) expected
  | f => String.eqb (PyFloat.repr f) expected
  end.

(** How many break markers, each followed by any whitespace, stand in a row
    at the start of [s]. *)
Definition breaks_at (s : string) : nat := fst (br_run (length s) s).

(** At no place of [s] do three break markers or more stand in a row. *)
Fixpoint calm_breaks (s : string) : bool :=
  match s with
  | EmptyString => true
  | String c r => (breaks_at (String c r) <=? 2)%nat && calm_breaks r
  end.

(** Two rows that hold the same cells under the pretty names. *)
Definition same_cells (r1 r2 : row) : Prop :=
  forall p d, In p (map snd canonical) -> row_get_or r1 p d = row_get_or r2 p d.

(** After one character or more of [s], and with no line break before it,
    a star pair: a bold span that begins with [s] can be closed. *)
Fixpoint bold_closes (s : string) : bool :=
  match s with
  | EmptyString => false
  | String c r =>
      negb (Ascii.eqb c PyStr.nl) && (PyStr.startswith "**" r || bold_closes r)
  end.

(** A bold span opens at the start of [s]: a star pair, then a span that
    can be closed. *)
Definition bold_opens (s : string) : bool :=
  match PyStr.strip_prefix "**" s with
  | Some r => bold_closes r
  | None => false
  end.

(** No bold span opens in the text [pre ++ rest] at a position of [pre]. *)
Fixpoint bold_quiet (pre rest : string) : bool :=
  match pre with
  | EmptyString => true
  | String _ p => negb (bold_opens (pre ++ rest)) && bold_quiet p rest
  end.

(** * Properties *)

(** ** Strings *)
Section StringFacts.

Lemma append_assoc (a b c : string) : (a ++ b) ++ c = a ++ (b ++ c).
Proof. induction a as [|x a IH]; simpl; [reflexivity | now rewrite IH]. Qed.

Lemma append_nil_r (a : string) : a ++ "" = a.
Proof. induction a as [|x a IH]; simpl; [reflexivity | now rewrite IH]. Qed.

Lemma length_append (a b : string) :
  length (a ++ b) = (length a + length b)%nat.
Proof. induction a as [|x a IH]; simpl; [reflexivity | now rewrite IH]. Qed.

Lemma all_append (p : ascii -> bool) (a b : string) :
  PyStr.all p (a ++ b) = PyStr.all p a && PyStr.all p b.
Proof.
  induction a as [|x a IH]; simpl; [reflexivity|].
  now rewrite IH, andb_assoc.
Qed.

Lemma all_impl (p q : ascii -> bool) (s : string) :
  (forall c, p c = true -> q c = true) ->
  PyStr.all p s = true -> PyStr.all q s = true.
Proof.
  intros Hpq. induction s as [|x s IH]; simpl; [reflexivity|].
  intros H. apply andb_true_iff in H as [Hx Hs].
  now rewrite (Hpq _ Hx), IH.
Qed.

Lemma ctrl_sub_fixed (s : string) :
  PyStr.all (fun c => negb (is_ctrl c)) s = true -> ctrl_sub s = s.
Proof.
  induction s as [|x s IH]; simpl; [reflexivity|].
  intros H. apply andb_true_iff in H as [Hx Hs].
  apply negb_true_iff in Hx. now rewrite Hx, IH.
Qed.

Lemma ctrl_sub_clean (s : string) :
  PyStr.all (fun c => negb (is_ctrl c)) (ctrl_sub s) = true.
Proof.
  induction s as [|x s IH]; simpl; [reflexivity|].
  destruct (is_ctrl x) eqn:E; simpl; [exact IH | now rewrite E, IH].
Qed.

Lemma ctrl_sub_idem (s : string) : ctrl_sub (ctrl_sub s) = ctrl_sub s.
Proof. apply ctrl_sub_fixed, ctrl_sub_clean. Qed.

Lemma digit_not_ctrl (c : ascii) :
  PyStr.isdigit c = true -> is_ctrl c = false.
Proof.
  destruct c as [[|] [|] [|] [|] [|] [|] [|] [|]]; vm_compute;
    congruence.
Qed.

Lemma uint_all_digits (d : Decimal.uint) :
  PyStr.all PyStr.isdigit (NilEmpty.string_of_uint d) = true.
Proof. induction d; simpl; auto. Qed.

Lemma nilzero_uint_all_digits (d : Decimal.uint) :
  PyStr.all PyStr.isdigit (NilZero.string_of_uint d) = true.
Proof. destruct d; try reflexivity; apply (uint_all_digits (_ d)). Qed.

Lemma digits_clean (s : string) :
  PyStr.all PyStr.isdigit s = true ->
  PyStr.all (fun c => negb (is_ctrl c)) s = true.
Proof.
  apply all_impl. intros c H. now rewrite (digit_not_ctrl _ H).
Qed.

(** The decimal text of an integer has no control character. *)
Lemma int_text_clean (z : Z) :
  ctrl_sub (py_str (VInt z)) = py_str (VInt z).
Proof.
  apply ctrl_sub_fixed. unfold py_str, NilZero.string_of_int.
  destruct (Z.to_int z); simpl; try apply digits_clean;
    apply nilzero_uint_all_digits.
Qed.

End StringFacts.

(** ** The translator *)
Section Translator.

Lemma strip_prefix_append (p s : string) :
  PyStr.strip_prefix p (p ++ s) = Some s.
Proof.
  induction p as [|a p IH]; simpl; [reflexivity|].
  now rewrite Ascii.eqb_refl.
Qed.

Lemma contains_append (c : ascii) (a b : string) :
  PyStr.contains c (a ++ b) = PyStr.contains c a || PyStr.contains c b.
Proof.
  induction a as [|x a IH]; simpl; [reflexivity|].
  now rewrite IH, orb_assoc.
Qed.

Lemma startswith_absent (c : ascii) (p s : string) :
  PyStr.contains c s = false -> PyStr.startswith (String c p) s = false.
Proof.
  destruct s as [|x s]; [reflexivity|]. simpl. intros H.
  apply orb_false_iff in H as [H _]. unfold PyStr.startswith. simpl.
  rewrite Ascii.eqb_sym in H. now rewrite H.
Qed.

Lemma has_substring_absent (c : ascii) (p s : string) :
  PyStr.contains c s = false -> PyStr.has_substring (String c p) s = false.
Proof.
  induction s as [|x s IH]; [reflexivity|]. intros H.
  cbn [PyStr.has_substring]. rewrite (startswith_absent _ _ _ H).
  simpl in H. apply orb_false_iff in H as [_ H]. now apply IH.
Qed.

Lemma replace_absent (old new s : string) :
  PyStr.has_substring old s = false -> PyStr.replace old new s = s.
Proof.
  unfold PyStr.replace. induction s as [|x s IH]; [reflexivity|].
  cbn [PyStr.has_substring PyStr.replace_from]. intros H.
  apply orb_false_iff in H as [H1 H2]. now rewrite H1, IH.
Qed.

(** *** Bold *)

Lemma sub_bold_skip (a b : string) :
  sub_bold_from (length a) (a ++ b) = sub_bold_from 0 b.
Proof.
  induction a as [|x a IH]; simpl; [reflexivity | exact IH].
Qed.

Lemma match_bold_head (x : ascii) (s : string) :
  Ascii.eqb x PyStr.star = false -> match_bold (String x s) = None.
Proof.
  intros H. unfold match_bold. cbn [PyStr.strip_prefix].
  change "*"%char with PyStr.star. now rewrite Ascii.eqb_sym, H.
Qed.

Lemma sub_bold_prefix (pre s : string) :
  PyStr.contains PyStr.star pre = false ->
  sub_bold_from 0 (pre ++ s) = pre ++ sub_bold_from 0 s.
Proof.
  induction pre as [|x pre IH]; [reflexivity|].
  cbn [PyStr.contains append sub_bold_from]. intros H.
  apply orb_false_iff in H as [Hx H].
  now rewrite (match_bold_head _ _ Hx), IH.
Qed.

Lemma sub_bold_at_match (c : ascii) (r inner : string) :
  match_bold (String c r) = Some inner ->
  sub_bold_from 0 (String c r)
  = "<strong>" ++ inner ++ "</strong>" ++ sub_bold_from (length inner + 3) r.
Proof. intros H. cbn [sub_bold_from]. now rewrite H. Qed.

Lemma match_bold_none (s : string) :
  PyStr.startswith "**" s = false -> match_bold s = None.
Proof.
  unfold PyStr.startswith, match_bold.
  now destruct (PyStr.strip_prefix "**" s).
Qed.

Lemma startswith_pair_next (c : ascii) (a rest : string) :
  PyStr.startswith "**" (String c (a ++ String "*" rest))
  = PyStr.startswith "**" (String c (a ++ "*")).
Proof.
  unfold PyStr.startswith.
  destruct a as [|d a]; cbn [append PyStr.strip_prefix];
    destruct (Ascii.eqb "*" c); try reflexivity.
  now destruct (Ascii.eqb "*" d).
Qed.

(** A text with no star pair, and no star at its end, is passed over. *)
Lemma sub_bold_quiet_prefix (pre rest : string) :
  PyStr.has_substring "**" (pre ++ "*") = false ->
  sub_bold_from 0 (pre ++ String "*" rest)
  = pre ++ sub_bold_from 0 (String "*" rest).
Proof.
  induction pre as [|c pre IH]; [reflexivity|].
  cbn [append PyStr.has_substring]. intros H.
  apply orb_false_iff in H as [H1 H2].
  rewrite <- (startswith_pair_next c pre rest) in H1.
  change (sub_bold_from 0 (String c (pre ++ String "*" rest)))
    with (match match_bold (String c (pre ++ String "*" rest)) with
          | Some inner =>
              "<strong>" ++ inner ++ "</strong>"
                ++ sub_bold_from (length inner + 3) (pre ++ String "*" rest)
          | None => String c (sub_bold_from 0 (pre ++ String "*" rest))
          end).
  now rewrite (match_bold_none _ H1), (IH H2).
Qed.

(** The lazy run stops at the first star pair after its first character. *)
Lemma lazy_dots_bold_shortest (c : ascii) (inner post : string) :
  PyStr.has_substring "**" (inner ++ "*") = false ->
  PyStr.contains PyStr.nl (String c inner) = false ->
  lazy_dots_bold (String c (inner ++ "**" ++ post)) = Some (String c inner).
Proof.
  revert c. induction inner as [|d inner IH]; intros c Hs Hn.
  - cbn [PyStr.contains] in Hn. apply orb_false_iff in Hn as [Hn _].
    cbn [append lazy_dots_bold]. now rewrite Hn.
  - cbn [PyStr.contains] in Hn. apply orb_false_iff in Hn as [Hc Hn].
    cbn [append PyStr.has_substring] in Hs.
    apply orb_false_iff in Hs as [Hd Hs].
    change (lazy_dots_bold (String c (String d inner ++ "**" ++ post)))
      with (if Ascii.eqb c PyStr.nl then None
            else if PyStr.startswith "**" (String d (inner ++ "**" ++ post))
                 then Some (String c EmptyString)
                 else option_map (String c)
                        (lazy_dots_bold (String d (inner ++ "**" ++ post)))).
    change (inner ++ "**" ++ post) with (inner ++ String "*" ("*" ++ post)) at 1.
    rewrite startswith_pair_next, Hd, Hc.
    now rewrite (IH d Hs Hn).
Qed.

Lemma sub_bold_span (pre inner post : string) :
  PyStr.has_substring "**" (pre ++ "*") = false ->
  inner <> "" ->
  PyStr.has_substring "**" (inner ++ "*") = false ->
  PyStr.contains PyStr.nl inner = false ->
  sub_bold (pre ++ "**" ++ inner ++ "**" ++ post)
  = pre ++ "<strong>" ++ inner ++ "</strong>" ++ sub_bold post.
Proof.
  intros Hp Hi Hs Hn. unfold sub_bold.
  change ("**" ++ inner ++ "**" ++ post)
    with (String "*" (String "*" (inner ++ "**" ++ post))).
  rewrite (sub_bold_quiet_prefix _ _ Hp). f_equal.
  destruct inner as [|c inner]; [congruence|].
  cbn [append PyStr.has_substring] in Hs.
  apply orb_false_iff in Hs as [_ Hs].
  rewrite (sub_bold_at_match _ _ (String c inner))
    by exact (lazy_dots_bold_shortest _ _ _ Hs Hn).
  do 3 f_equal.
  replace (String "*" (String c inner ++ "**" ++ post))
    with ((String "*" (String c inner ++ "**")) ++ post)
    by (simpl; now rewrite append_assoc).
  replace (length (String c inner) + 3)%nat
    with (length (String "*" (String c inner ++ "**"))).
  - apply sub_bold_skip.
  - cbn [length]. rewrite length_append. simpl. lia.
Qed.

(** **** Where a bold span opens *)

Lemma strip_prefix_pair (s r : string) :
  PyStr.strip_prefix "**" s = Some r <-> s = "**" ++ r.
Proof.
  split.
  - destruct s as [|a [|b s]]; cbn [PyStr.strip_prefix]; try discriminate;
      [destruct (Ascii.eqb_spec "*" a); discriminate|].
    destruct (Ascii.eqb_spec "*" a) as [<-|]; [|discriminate].
    destruct (Ascii.eqb_spec "*" b) as [<-|]; [|discriminate].
    now intros [= ->].
  - now intros ->.
Qed.

Lemma startswith_pair (s : string) :
  PyStr.startswith "**" s = true <-> exists r, s = "**" ++ r.
Proof.
  unfold PyStr.startswith.
  destruct (PyStr.strip_prefix "**" s) as [r|] eqn:E.
  - apply strip_prefix_pair in E. split; [now exists r | reflexivity].
  - split; [discriminate|]. intros [r Hr].
    apply strip_prefix_pair in Hr. congruence.
Qed.

(** What [bold_closes] says. *)
Lemma bold_closes_spec (s : string) :
  bold_closes s = true
  <-> exists inner post,
      s = inner ++ "**" ++ post /\ inner <> ""
      /\ PyStr.contains PyStr.nl inner = false.
Proof.
  induction s as [|c r IH].
  - split; [discriminate|]. intros (inner & post & H & Hi & _).
    destruct inner; [congruence | discriminate H].
  - cbn [bold_closes]. rewrite andb_true_iff, negb_true_iff, orb_true_iff.
    rewrite startswith_pair, IH. split.
    + intros [Hc [[post ->]|(inner & post & -> & Hi & Hn)]].
      * exists (String c ""), post. cbn [PyStr.contains append].
        rewrite Hc. repeat split. discriminate.
      * exists (String c inner), post. cbn [PyStr.contains append].
        rewrite Hc, Hn. repeat split. discriminate.
    + intros (inner & post & H & Hi & Hn).
      destruct inner as [|d inner]; [congruence|].
      cbn [append] in H. injection H as <- ->.
      cbn [PyStr.contains] in Hn. apply orb_false_iff in Hn as [Hd Hn].
      split; [exact Hd|].
      destruct inner as [|x inner]; [left; now exists post | right].
      exists (String x inner), post. repeat split; [discriminate | exact Hn].
Qed.

(** What [bold_opens] says: two stars, a span of one character or more
    without a line break, two stars. *)
Lemma bold_opens_spec (s : string) :
  bold_opens s = true
  <-> exists inner post,
      s = "**" ++ inner ++ "**" ++ post /\ inner <> ""
      /\ PyStr.contains PyStr.nl inner = false.
Proof.
  unfold bold_opens.
  destruct (PyStr.strip_prefix "**" s) as [r|] eqn:E.
  - apply strip_prefix_pair in E. subst s. rewrite bold_closes_spec.
    split; intros (inner & post & H & Hi & Hn); exists inner, post;
      repeat split; auto.
    + now rewrite H.
    + now injection H.
  - split; [discriminate|]. intros (inner & post & H & _).
    apply strip_prefix_pair in H. congruence.
Qed.

Lemma bold_quiet_spec (pre rest : string) :
  bold_quiet pre rest = true
  <-> forall a b, pre = a ++ b -> b <> "" -> bold_opens (b ++ rest) = false.
Proof.
  induction pre as [|c p IH].
  - split; [|reflexivity]. intros _ a b H Hb.
    destruct a; [simpl in H; congruence | discriminate H].
  - cbn [bold_quiet]. rewrite andb_true_iff, negb_true_iff, IH. split.
    + intros [H1 H2] a b H Hb. destruct a as [|x a].
      * simpl in H. now subst b.
      * injection H as _ H. now apply (H2 a b).
    + intros H. split.
      * apply (H "" (String c p)); [reflexivity | discriminate].
      * intros a b Hp Hb. apply (H (String c a) b); [now rewrite Hp | exact Hb].
Qed.

(** The lazy run finds a closing pair exactly when there is one. *)
Lemma lazy_dots_bold_none (s : string) :
  bold_closes s = false -> lazy_dots_bold s = None.
Proof.
  induction s as [|c r IH]; [reflexivity|].
  cbn [bold_closes lazy_dots_bold].
  destruct (Ascii.eqb c PyStr.nl); [reflexivity|].
  cbn [negb andb]. intros H. apply orb_false_iff in H as [H1 H2].
  now rewrite H1, (IH H2).
Qed.

Lemma match_bold_quiet (s : string) :
  bold_opens s = false -> match_bold s = None.
Proof.
  unfold bold_opens, match_bold.
  destruct (PyStr.strip_prefix "**" s); [apply lazy_dots_bold_none | reflexivity].
Qed.

(** The group of a match: the shortest span up to a star pair. *)
Lemma lazy_dots_bold_group (s inner : string) :
  lazy_dots_bold s = Some inner ->
  exists c rest post,
    inner = String c rest /\ s = inner ++ "**" ++ post
    /\ PyStr.contains PyStr.nl inner = false
    /\ PyStr.has_substring "**" (rest ++ "*") = false.
Proof.
  revert inner. induction s as [|c r IH]; intros inner; [discriminate|].
  cbn [lazy_dots_bold].
  destruct (Ascii.eqb c PyStr.nl) eqn:Hc; [discriminate|].
  destruct (PyStr.startswith "**" r) eqn:Hp.
  - intros [= <-]. apply startswith_pair in Hp as [post ->].
    exists c, "", post. cbn [PyStr.contains]. rewrite Hc.
    repeat split.
  - destruct (lazy_dots_bold r) as [i|] eqn:E; [|discriminate].
    intros [= <-].
    destruct (IH i eq_refl) as (d & rest & post & -> & Hr & Hn & Hs).
    exists c, (String d rest), post.
    split; [reflexivity|]. split; [now rewrite Hr|].
    split.
    { change (Ascii.eqb c PyStr.nl || PyStr.contains PyStr.nl (String d rest)
              = false).
      now rewrite Hc, Hn. }
    cbn [append PyStr.has_substring]. rewrite Hs, orb_false_r.
    rewrite Hr in Hp.
    change (String d rest ++ "**" ++ post)
      with (String d (rest ++ String "*" ("*" ++ post))) in Hp.
    now rewrite startswith_pair_next in Hp.
Qed.

Lemma lazy_dots_bold_some (s : string) :
  bold_closes s = true -> exists inner, lazy_dots_bold s = Some inner.
Proof.
  induction s as [|c r IH]; [discriminate|].
  cbn [bold_closes lazy_dots_bold].
  destruct (Ascii.eqb c PyStr.nl); [discriminate|].
  cbn [negb andb].
  destruct (PyStr.startswith "**" r); [now eexists|].
  cbn [orb]. intros H. destruct (IH H) as [i ->]. now eexists.
Qed.

(** A text in which no bold span opens before [rest] is passed over. *)
Lemma sub_bold_quiet (pre rest : string) :
  bold_quiet pre rest = true ->
  sub_bold_from 0 (pre ++ rest) = pre ++ sub_bold_from 0 rest.
Proof.
  induction pre as [|c p IH]; [reflexivity|].
  cbn [bold_quiet]. intros H. apply andb_true_iff in H as [H1 H2].
  apply negb_true_iff, match_bold_quiet in H1.
  change (String c p ++ rest) with (String c (p ++ rest)) in *.
  cbn [sub_bold_from]. rewrite H1, (IH H2). reflexivity.
Qed.

(** The span rule of the bold pass. *)
Lemma sub_bold_first_span (pre : string) (c : ascii) (rest post : string) :
  bold_quiet pre ("**" ++ String c rest ++ "**" ++ post) = true ->
  PyStr.contains PyStr.nl (String c rest) = false ->
  PyStr.has_substring "**" (rest ++ "*") = false ->
  sub_bold (pre ++ "**" ++ String c rest ++ "**" ++ post)
  = pre ++ "<strong>" ++ String c rest ++ "</strong>" ++ sub_bold post.
Proof.
  intros Hq Hn Hs. unfold sub_bold. rewrite (sub_bold_quiet _ _ Hq). f_equal.
  change ("**" ++ String c rest ++ "**" ++ post)
    with (String "*" (String "*" (String c (rest ++ "**" ++ post)))).
  rewrite (sub_bold_at_match _ _ (String c rest))
    by exact (lazy_dots_bold_shortest _ _ _ Hs Hn).
  do 3 f_equal.
  replace (String "*" (String c (rest ++ "**" ++ post)))
    with ((String "*" (String c rest ++ "**")) ++ post)
    by (simpl; now rewrite append_assoc).
  replace (length (String c rest) + 3)%nat
    with (length (String "*" (String c rest ++ "**"))).
  - apply sub_bold_skip.
  - change (String c rest ++ "**") with (String c (rest ++ "**")).
    cbn [length]. rewrite length_append. simpl. lia.
Qed.

Lemma sub_bold_quiet_text (text : string) :
  bold_quiet text "" = true -> sub_bold text = text.
Proof.
  intros H. unfold sub_bold.
  rewrite <- (append_nil_r text) at 1. rewrite (sub_bold_quiet _ _ H).
  apply append_nil_r.
Qed.

(** Every text is quiet or has a first bold span. *)
Lemma bold_first_span (text : string) :
  bold_quiet text "" = true
  \/ exists pre c rest post,
      text = pre ++ "**" ++ String c rest ++ "**" ++ post
      /\ bold_quiet pre ("**" ++ String c rest ++ "**" ++ post) = true
      /\ PyStr.contains PyStr.nl (String c rest) = false
      /\ PyStr.has_substring "**" (rest ++ "*") = false.
Proof.
  induction text as [|x r IH]; [now left|].
  destruct (bold_opens (String x r)) eqn:E.
  - right. unfold bold_opens in E.
    destruct (PyStr.strip_prefix "**" (String x r)) as [r'|] eqn:Hp;
      [|discriminate].
    apply strip_prefix_pair in Hp.
    destruct (lazy_dots_bold_some _ E) as [inner Hi].
    destruct (lazy_dots_bold_group _ _ Hi) as (c & rest & post & -> & Hr & Hn & Hs).
    exists "", c, rest, post. rewrite Hp, Hr. repeat split; assumption.
  - destruct IH as [H|(pre & c & rest & post & Ht & Hq & Hn & Hs)].
    + left. cbn [bold_quiet]. now rewrite append_nil_r, E, H.
    + right. exists (String x pre), c, rest, post.
      repeat split; try assumption; [now rewrite Ht|].
      cbn [bold_quiet].
      change (String x pre ++ "**" ++ String c rest ++ "**" ++ post)
        with (String x (pre ++ "**" ++ String c rest ++ "**" ++ post)).
      now rewrite <- Ht, E, Hq.
Qed.

(** *** The line scan *)

Lemma list_run_length (marker : string -> option string) (lines : list string) :
  (List.length (snd (list_run marker lines)) <= List.length lines)%nat.
Proof.
  induction lines as [|l lines IH]; simpl; [lia|].
  destruct (marker l); simpl; [|lia].
  destruct (list_run marker lines); simpl in *; lia.
Qed.

Lemma list_run_head (marker : string -> option string) (l : string)
      (lines : list string) :
  is_some (marker l) = true ->
  (List.length (snd (list_run marker (l :: lines))) <= List.length lines)%nat.
Proof.
  simpl. destruct (marker l); [intros _|discriminate].
  pose proof (list_run_length marker lines).
  destruct (list_run marker lines); simpl in *; lia.
Qed.

Lemma scan_lines_fuel (n m : nat) (lines : list string) :
  (List.length lines <= n)%nat -> (List.length lines <= m)%nat ->
  scan_lines n lines = scan_lines m lines.
Proof.
  revert m lines. induction n as [|n IH]; intros m lines Hn Hm.
  - destruct lines; [|simpl in Hn; lia]. now destruct m.
  - destruct m as [|m]; [destruct lines; [reflexivity | simpl in Hm; lia]|].
    destruct lines as [|l lines]; [reflexivity|]. simpl in Hn, Hm.
    cbn [scan_lines].
    destruct (is_some (ul_marker l)) eqn:Eu.
    { pose proof (list_run_head _ _ lines Eu) as Hl.
      destruct (list_run ul_marker (l :: lines)) as [items rest'].
      simpl in Hl. f_equal. apply IH; lia. }
    destruct (is_some (ol_marker l)) eqn:Eo.
    { pose proof (list_run_head _ _ lines Eo) as Hl.
      destruct (list_run ol_marker (l :: lines)) as [items rest'].
      simpl in Hl. f_equal. apply IH; lia. }
    f_equal. apply IH; lia.
Qed.

Lemma html_lines_cons (l : string) (lines : list string) :
  html_lines (l :: lines)
  = if is_some (ul_marker l) then
      list_block "ul" (fst (list_run ul_marker (l :: lines)))
        :: html_lines (snd (list_run ul_marker (l :: lines)))
    else if is_some (ol_marker l) then
      list_block "ol" (fst (list_run ol_marker (l :: lines)))
        :: html_lines (snd (list_run ol_marker (l :: lines)))
    else l :: html_lines lines.
Proof.
  unfold html_lines at 1. cbn [List.length scan_lines].
  destruct (is_some (ul_marker l)) eqn:Eu.
  { pose proof (list_run_head _ _ lines Eu) as Hl.
    destruct (list_run ul_marker (l :: lines)) as [items rest'].
    simpl in *. f_equal. apply scan_lines_fuel; lia. }
  destruct (is_some (ol_marker l)) eqn:Eo.
  { pose proof (list_run_head _ _ lines Eo) as Hl.
    destruct (list_run ol_marker (l :: lines)) as [items rest'].
    simpl in *. f_equal. apply scan_lines_fuel; lia. }
  reflexivity.
Qed.



















(** *** The collapse of break runs *)

Lemma lstrip_length (s : string) : (length (PyStr.lstrip s) <= length s)%nat.
Proof.
  induction s as [|c s IH]; simpl; [lia|].
  destruct (PyStr.isspace c); simpl; lia.
Qed.

Lemma strip_prefix_split (p s r : string) :
  PyStr.strip_prefix p s = Some r -> s = p ++ r.
Proof.
  revert s. induction p as [|a p IH]; intros s; simpl.
  - now intros [= ->].
  - destruct s as [|b s]; [discriminate|].
    destruct (Ascii.eqb_spec a b); [|discriminate].
    intros H. subst. now rewrite (IH _ H).
Qed.

Lemma br_run_fuel (n m : nat) (s : string) :
  (length s <= n)%nat -> (length s <= m)%nat -> br_run n s = br_run m s.
Proof.
  revert m s. induction n as [|n IH]; intros m s Hn Hm.
  - destruct s; [|simpl in Hn; lia]. now destruct m.
  - destruct m as [|m]; [destruct s; [reflexivity | simpl in Hm; lia]|].
    cbn [br_run]. destruct (PyStr.strip_prefix br s) as [r|] eqn:E;
      [|reflexivity].
    apply strip_prefix_split in E. subst s.
    rewrite length_append in Hn, Hm. simpl in Hn, Hm.
    pose proof (lstrip_length r).
    rewrite (IH m (PyStr.lstrip r)); [reflexivity | lia | lia].
Qed.

Lemma br_run_none (n : nat) (s : string) :
  PyStr.startswith br s = false -> br_run n s = (0%nat, s).
Proof.
  unfold PyStr.startswith. destruct n; [reflexivity|]. cbn [br_run].
  now destruct (PyStr.strip_prefix br s).
Qed.

Lemma br_run_times (k n : nat) (post : string) :
  (S k <= n)%nat ->
  PyStr.startswith br (PyStr.lstrip post) = false ->
  br_run n (PyStr.times br (S k) ++ post) = (S k, PyStr.lstrip post).
Proof.
  intros Hn Hp. revert n Hn. induction k as [|k IH]; intros n Hn;
    (destruct n as [|n]; [lia|]).
  - cbn [PyStr.times]. rewrite append_nil_r. cbn [br_run].
    rewrite strip_prefix_append. now rewrite (br_run_none _ _ Hp).
  - change (PyStr.times br (S (S k)) ++ post)
      with ((br ++ PyStr.times br (S k)) ++ post).
    rewrite append_assoc. cbn [br_run]. rewrite strip_prefix_append.
    change (PyStr.lstrip (PyStr.times br (S k) ++ post))
      with (PyStr.times br (S k) ++ post).
    rewrite IH by lia. reflexivity.
Qed.

Lemma collapse_skip (a b : string) :
  collapse_from (length a) (a ++ b) = collapse_from 0 b.
Proof. induction a as [|x a IH]; simpl; [reflexivity | exact IH]. Qed.

Lemma lstrip_split (s : string) :
  exists w, s = w ++ PyStr.lstrip s /\ PyStr.all PyStr.isspace w = true.
Proof.
  induction s as [|c s [w [Hw Hs]]]; [now exists ""|]. simpl.
  destruct (PyStr.isspace c) eqn:E.
  - exists (String c w). simpl. now rewrite E, Hs, <- Hw.
  - now exists "".
Qed.

Lemma times_length (s : string) (k : nat) :
  length (PyStr.times s k) = (k * length s)%nat.
Proof. induction k; simpl; [reflexivity|]. rewrite length_append. lia. Qed.

Lemma collapse_at_match (c : ascii) (r rest : string) (k : nat) :
  br_run (length (String c r)) (String c r) = (k, rest) ->
  (3 <= k)%nat ->
  collapse_from 0 (String c r)
  = br ++ br ++ collapse_from (length (String c r) - length rest - 1) r.
Proof.
  intros H Hk. cbn [collapse_from]. rewrite H.
  now replace (3 <=? k)%nat with true by (symmetry; apply Nat.leb_le; lia).
Qed.

Lemma collapse_at_run (k : nat) (post : string) :
  (3 <= k)%nat ->
  PyStr.startswith br (PyStr.lstrip post) = false ->
  collapse_from 0 (PyStr.times br k ++ post)
  = br ++ br ++ collapse_from 0 (PyStr.lstrip post).
Proof.
  intros Hk Hp. destruct k as [|k]; [lia|].
  destruct (lstrip_split post) as [w [Hw _]].
  set (r := ("br/>" ++ PyStr.times br k) ++ post).
  change (PyStr.times br (S k) ++ post) with (String "<" r).
  assert (Hlen : length r = (4 + k * 5 + length w + length (PyStr.lstrip post))%nat).
  { unfold r. rewrite !length_append, times_length. rewrite Hw at 1.
    rewrite length_append. change (length br) with 5%nat.
    change (length "br/>") with 4%nat. lia. }
  rewrite (collapse_at_match _ _ (PyStr.lstrip post) (S k)); [|
    change (String "<" r) with (PyStr.times br (S k) ++ post);
    apply br_run_times; [|exact Hp];
    change (PyStr.times br (S k) ++ post) with (String "<" r);
    cbn [length]; lia | lia].
  do 2 f_equal.
  assert (Hr : r = (("br/>" ++ PyStr.times br k) ++ w) ++ PyStr.lstrip post).
  { unfold r. rewrite (append_assoc _ w), <- Hw. reflexivity. }
  rewrite Hr at 2.
  replace (length (String "<" r) - length (PyStr.lstrip post) - 1)%nat
    with (length (("br/>" ++ PyStr.times br k) ++ w)).
  - apply collapse_skip.
  - cbn [length]. rewrite Hlen, !length_append, times_length.
    change (length br) with 5%nat. change (length "br/>") with 4%nat. lia.
Qed.

Lemma ends_with_break_tail (c : ascii) (s : string) :
  ends_with_break (String c s) = false -> ends_with_break s = false.
Proof. cbn [ends_with_break]. intros H. now apply orb_false_iff in H. Qed.

Lemma ends_with_break_suffix (q p : string) :
  ends_with_break p = true -> ends_with_break (q ++ p) = true.
Proof.
  intros H. induction q as [|c q IH]; [exact H|].
  cbn [append ends_with_break]. rewrite IH. apply orb_true_r.
Qed.

Lemma lstrip_idle (s : string) :
  PyStr.lstrip s = "" -> PyStr.all PyStr.isspace s = true.
Proof.
  induction s as [|c s IH]; [reflexivity|]. simpl.
  destruct (PyStr.isspace c); [exact IH | discriminate].
Qed.

Lemma lstrip_append (s t : string) :
  PyStr.lstrip s <> "" -> PyStr.lstrip (s ++ t) = PyStr.lstrip s ++ t.
Proof.
  induction s as [|c s IH]; [intros H; now elim H|]. simpl.
  destruct (PyStr.isspace c); [exact IH | reflexivity].
Qed.

Lemma strip_prefix_clear (c : ascii) (pat p rest : string) :
  PyStr.contains c pat = false ->
  PyStr.strip_prefix pat p = None ->
  PyStr.strip_prefix pat (p ++ String c rest) = None.
Proof.
  revert p. induction pat as [|a pat IH]; intros p Hc; [discriminate|].
  cbn [PyStr.contains] in Hc. apply orb_false_iff in Hc as [Ha Hc].
  destruct p as [|b p]; cbn [append PyStr.strip_prefix].
  - now rewrite Ha.
  - destruct (Ascii.eqb a b); [apply IH; exact Hc | reflexivity].
Qed.

Lemma strip_prefix_br_straddle (p rest : string) :
  p <> "" ->
  PyStr.strip_prefix br p = None ->
  PyStr.strip_prefix br (p ++ String "<" rest) = None.
Proof.
  destruct p as [|b p]; [congruence|]. intros _.
  change (PyStr.strip_prefix br (String b p))
    with (if Ascii.eqb "<" b then PyStr.strip_prefix "br/>" p else None).
  change (PyStr.strip_prefix br (String b p ++ String "<" rest))
    with (if Ascii.eqb "<" b
          then PyStr.strip_prefix "br/>" (p ++ String "<" rest) else None).
  destruct (Ascii.eqb "<" b); [|reflexivity].
  apply strip_prefix_clear. reflexivity.
Qed.

Lemma strip_prefix_extend (pat p r t : string) :
  PyStr.strip_prefix pat p = Some r ->
  PyStr.strip_prefix pat (p ++ t) = Some (r ++ t).
Proof.
  intros H. apply strip_prefix_split in H. subst p.
  rewrite append_assoc. apply strip_prefix_append.
Qed.

Lemma br_run_append (n : nat) (p rest : string) :
  p <> "" ->
  ends_with_break p = false ->
  br_run n (p ++ String "<" rest)
  = (fst (br_run n p), snd (br_run n p) ++ String "<" rest).
Proof.
  revert p. induction n as [|n IH]; intros p Hp He; [reflexivity|].
  cbn [br_run]. destruct (PyStr.strip_prefix br p) as [r|] eqn:E.
  - rewrite (strip_prefix_extend _ _ _ _ E).
    assert (Hr : PyStr.lstrip r <> "").
    { intros Hr. apply lstrip_idle in Hr.
      destruct p as [|c p]; [congruence|].
      cbn [ends_with_break] in He. rewrite E, Hr in He. discriminate. }
    rewrite (lstrip_append _ _ Hr), IH; [|exact Hr|].
    + now destruct (br_run n (PyStr.lstrip r)).
    + destruct (ends_with_break (PyStr.lstrip r)) eqn:E2; [|reflexivity].
      destruct (lstrip_split r) as [w [Hw _]].
      apply strip_prefix_split in E.
      rewrite E, Hw, <- append_assoc in He.
      now rewrite (ends_with_break_suffix _ _ E2) in He.
  - now rewrite (strip_prefix_br_straddle _ _ Hp E).
Qed.

Lemma collapse_append (pre rest : string) (sk : nat) :
  (sk <= length pre)%nat ->
  ends_with_break pre = false ->
  collapse_from sk (pre ++ String "<" rest)
  = collapse_from sk pre ++ collapse_from 0 (String "<" rest).
Proof.
  revert sk. induction pre as [|c r IH]; intros sk Hsk He.
  - simpl in Hsk. now replace sk with 0%nat by lia.
  - pose proof (ends_with_break_tail _ _ He) as Hr.
    destruct sk as [|sk].
    + change (String c r ++ String "<" rest)
        with (String c (r ++ String "<" rest)).
      cbn [collapse_from].
      change (String c (r ++ String "<" rest))
        with (String c r ++ String "<" rest).
      rewrite (br_run_append _ (String c r) rest) by (auto; discriminate).
      rewrite (br_run_fuel (length (String c r ++ String "<" rest))
                           (length (String c r)) (String c r))
        by (rewrite ?length_append; lia).
      pose proof (br_run_fuel (length (String c r)) (length (String c r))
                              (String c r)) as _.
      destruct (br_run (length (String c r)) (String c r)) as [k rst] eqn:Erun.
      cbn [fst snd].
      destruct (3 <=? k)%nat.
      * rewrite !append_assoc. do 2 f_equal.
        replace (length (String c r ++ String "<" rest)
                 - length (rst ++ String "<" rest) - 1)%nat
          with (length (String c r) - length rst - 1)%nat
          by (rewrite !length_append; lia).
        apply IH; [cbn [length]; lia | exact Hr].
      * cbn [append]. f_equal. apply IH; [lia | exact Hr].
    + cbn [append collapse_from]. apply IH; [simpl in Hsk; lia | exact Hr].
Qed.

(** A run of three or more markers that is not the continuation of an
    earlier one collapses to two; the whitespace after it goes with it. *)
Lemma collapse_breaks_run (pre post : string) (k : nat) :
  (3 <= k)%nat ->
  ends_with_break pre = false ->
  PyStr.startswith br (PyStr.lstrip post) = false ->
  collapse_breaks (pre ++ PyStr.times br k ++ post)
  = collapse_breaks pre ++ br ++ br ++ collapse_breaks (PyStr.lstrip post).
Proof.
  intros Hk He Hp. unfold collapse_breaks.
  destruct k as [|k]; [lia|].
  change (PyStr.times br (S k) ++ post)
    with (String "<" (("br/>" ++ PyStr.times br k) ++ post)).
  rewrite collapse_append by (auto; lia). f_equal.
  change (String "<" (("br/>" ++ PyStr.times br k) ++ post))
    with (PyStr.times br (S k) ++ post).
  now apply collapse_at_run.
Qed.


(** *** Texts the passes leave alone *)

Lemma all_contains (p : ascii -> bool) (c : ascii) (s : string) :
  p c = false -> PyStr.all p s = true -> PyStr.contains c s = false.
Proof.
  intros Hc. induction s as [|x s IH]; [reflexivity|]. simpl. intros H.
  apply andb_true_iff in H as [Hx Hs]. rewrite (IH Hs), orb_false_r.
  destruct (Ascii.eqb_spec x c); [congruence | reflexivity].
Qed.

Lemma sub_em_fixed (prev : option ascii) (s : string) :
  PyStr.contains PyStr.star s = false -> sub_em_from 0 prev s = s.
Proof.
  revert prev. induction s as [|x s IH]; intros prev; [reflexivity|].
  cbn [PyStr.contains sub_em_from match_em]. intros H.
  apply orb_false_iff in H as [Hx H]. now rewrite Hx, (IH _ H).
Qed.

Lemma sub_bold_fixed (s : string) :
  PyStr.contains PyStr.star s = false -> sub_bold s = s.
Proof.
  intros H. unfold sub_bold.
  rewrite <- (append_nil_r s) at 1. rewrite (sub_bold_prefix _ _ H).
  apply append_nil_r.
Qed.

Lemma escape_fixed (s : string) :
  PyStr.all (fun c => negb (is_html_special c) && negb (is_quote c)) s = true ->
  escape s = s.
Proof.
  induction s as [|x s IH]; [reflexivity|]. simpl. intros H.
  apply andb_true_iff in H as [Hx Hs]. rewrite (IH Hs).
  apply andb_true_iff in Hx as [H1 H2].
  unfold is_html_special, is_quote in H1, H2.
  apply negb_true_iff in H1, H2.
  apply orb_false_iff in H1 as [H1 Hgt]. apply orb_false_iff in H1 as [Hamp Hlt].
  apply orb_false_iff in H2 as [Hdq Hsq].
  unfold escape_char. now rewrite Hamp, Hlt, Hgt, Hdq, Hsq.
Qed.

Lemma startswith_br_absent (s : string) :
  PyStr.contains "<" s = false -> PyStr.strip_prefix br s = None.
Proof.
  intros H. pose proof (startswith_absent "<" "br/>" s H) as E.
  unfold PyStr.startswith in E. fold br in E.
  now destruct (PyStr.strip_prefix br s).
Qed.

Lemma collapse_fixed (s : string) :
  PyStr.contains "<" s = false -> collapse_breaks s = s.
Proof.
  unfold collapse_breaks. induction s as [|x s IH]; [reflexivity|]. intros H.
  cbn [collapse_from].
  rewrite br_run_none
    by (unfold PyStr.startswith; now rewrite (startswith_br_absent _ H)).
  cbn [PyStr.contains] in H. apply orb_false_iff in H as [_ H].
  cbn [Nat.leb]. now rewrite (IH H).
Qed.

Lemma ends_with_break_absent (s : string) :
  PyStr.contains "<" s = false -> ends_with_break s = false.
Proof.
  induction s as [|x s IH]; [reflexivity|]. intros H.
  cbn [ends_with_break]. rewrite (startswith_br_absent _ H).
  cbn [PyStr.contains] in H. apply orb_false_iff in H as [_ H].
  now rewrite (IH H).
Qed.

Lemma lstrip_contains (c : ascii) (s : string) :
  PyStr.contains c s = false -> PyStr.contains c (PyStr.lstrip s) = false.
Proof.
  induction s as [|x s IH]; [reflexivity|]. intros H. simpl.
  destruct (PyStr.isspace x); [|exact H].
  simpl in H. apply orb_false_iff in H as [_ H]. now apply IH.
Qed.

Lemma split_nl_single (s : string) :
  PyStr.contains PyStr.nl s = false -> PyStr.split_nl s = [s].
Proof.
  induction s as [|x s IH]; [reflexivity|]. simpl. intros H.
  apply orb_false_iff in H as [Hx H]. now rewrite Hx, (IH H).
Qed.

Lemma split_nl_append (a rest : string) :
  PyStr.contains PyStr.nl a = false ->
  PyStr.split_nl (a ++ String PyStr.nl rest) = a :: PyStr.split_nl rest.
Proof.
  induction a as [|x a IH]; [reflexivity|]. simpl. intros H.
  apply orb_false_iff in H as [Hx H]. now rewrite Hx, (IH H).
Qed.

Lemma split_nl_blank_lines (j : nat) (b : string) :
  PyStr.contains PyStr.nl b = false ->
  PyStr.split_nl (PyStr.times newline j ++ b) = (repeat "" j ++ [b])%list.
Proof.
  intros H. induction j as [|j IH]; [now apply split_nl_single|].
  change (PyStr.times newline (S j) ++ b)
    with ("" ++ String PyStr.nl (PyStr.times newline j ++ b)).
  rewrite split_nl_append by reflexivity. now rewrite IH.
Qed.

Lemma html_lines_plain (ls : list string) :
  forallb plain_line ls = true -> html_lines ls = ls.
Proof.
  induction ls as [|l ls IH]; [reflexivity|]. simpl. intros H.
  apply andb_true_iff in H as [Hl H]. unfold plain_line in Hl.
  apply andb_true_iff in Hl as [Hu Ho]. apply negb_true_iff in Hu, Ho.
  now rewrite html_lines_cons, Hu, Ho, (IH H).
Qed.

Lemma join_blank_lines (a b : string) (j : nat) :
  PyStr.join br (a :: repeat "" j ++ [b]) = a ++ PyStr.times br (S j) ++ b.
Proof.
  revert a. induction j as [|j IH]; intros a.
  - reflexivity.
  - change (PyStr.join br (a :: repeat "" (S j) ++ [b]))
      with (a ++ br ++ PyStr.join br ("" :: repeat "" j ++ [b])).
    rewrite IH. cbn [PyStr.times append]. now rewrite !append_assoc.
Qed.

Lemma startswith_before (c : ascii) (p a rest : string) :
  PyStr.contains c p = false ->
  PyStr.startswith p (a ++ String c rest) = PyStr.startswith p a.
Proof.
  unfold PyStr.startswith. revert a.
  induction p as [|y p IH]; intros a H; [reflexivity|].
  cbn [PyStr.contains] in H. apply orb_false_iff in H as [Hy H].
  destruct a as [|x a]; cbn [append PyStr.strip_prefix].
  - now rewrite Hy.
  - destruct (Ascii.eqb y x); [now apply IH | reflexivity].
Qed.

Lemma has_substring_lines (c y : ascii) (p a rest : string) :
  PyStr.contains c (String y p) = false ->
  PyStr.has_substring (String y p) (a ++ String c rest)
  = PyStr.has_substring (String y p) a || PyStr.has_substring (String y p) rest.
Proof.
  intros H. induction a as [|x a IH].
  - pose proof (startswith_before c (String y p) "" rest H) as E.
    cbn [append] in E. cbn [append PyStr.has_substring].
    now rewrite E, orb_false_r.
  - cbn [append PyStr.has_substring].
    change (String x (a ++ String c rest)) with (String x a ++ String c rest).
    rewrite (startswith_before _ _ _ _ H), IH, orb_assoc. reflexivity.
Qed.

Lemma calm_char (c : ascii) :
  inert_char c || Ascii.eqb c PyStr.nl = true ->
  is_ctrl c = false /\ Ascii.eqb c PyStr.star = false
  /\ Ascii.eqb c PyStr.cr = false
  /\ negb (is_html_special c) && negb (is_quote c) = true.
Proof.
  intros H. apply orb_true_iff in H as [H|H].
  - unfold inert_char in H. repeat (apply andb_true_iff in H as [H ?]).
    apply negb_true_iff in H. 
    match goal with Hb : negb (is_line_break c) = true |- _ =>
      apply negb_true_iff in Hb; unfold is_line_break in Hb;
        apply orb_false_iff in Hb as [_ Hb] end.
    repeat split; auto using negb_true_iff.
    + now apply negb_true_iff.
    + apply andb_true_iff. now split.
  - apply Ascii.eqb_eq in H. subst c. repeat split.
Qed.

(** The passes before the line scan leave a calm text as it is. *)
Lemma passes_fixed (t : string) :
  calm t = true ->
  sub_em
    (sub_bold
       (escape
          (PyStr.replace "[br]" newline
             (PyStr.replace (String PyStr.cr "") newline
                (PyStr.replace (String PyStr.cr newline) newline
                   (ctrl_sub t))))))
  = t.
Proof.
  unfold calm. intros H. apply andb_true_iff in H as [Hc Hb].
  apply negb_true_iff in Hb.
  rewrite ctrl_sub_fixed
    by (revert Hc; apply all_impl; intros c Hx;
        destruct (calm_char c Hx) as [-> _]; reflexivity).
  assert (Hcr : PyStr.contains PyStr.cr t = false).
  { destruct (PyStr.contains PyStr.cr t) eqn:E; [|reflexivity].
    exfalso. revert E. clear Hb. induction t as [|x t IH]; [discriminate|].
    simpl in Hc. apply andb_true_iff in Hc as [Hx Hc]. simpl.
    destruct (calm_char x Hx) as (_ & _ & -> & _). simpl. auto. }
  rewrite (replace_absent (String PyStr.cr newline) newline t)
    by (apply has_substring_absent; exact Hcr).
  rewrite (replace_absent (String PyStr.cr "") newline t)
    by (apply has_substring_absent; exact Hcr).
  rewrite (replace_absent "[br]" newline t) by exact Hb.
  rewrite escape_fixed
    by (revert Hc; apply all_impl; intros c Hx;
        now destruct (calm_char c Hx) as (_ & _ & _ & ->)).
  assert (Hst : PyStr.contains PyStr.star t = false).
  { clear Hb Hcr. induction t as [|x t IH]; [reflexivity|].
    simpl in Hc. apply andb_true_iff in Hc as [Hx Hc]. simpl.
    destruct (calm_char x Hx) as (_ & -> & _). simpl. auto. }
  rewrite (sub_bold_fixed _ Hst). unfold sub_em. now apply sub_em_fixed.
Qed.

Lemma translate_calm (t : string) :
  calm t = true ->
  translate t
  = collapse_breaks (PyStr.join br (html_lines (PyStr.split_nl t))).
Proof.
  intros H. unfold translate, convert_markup_to_html.
  change (strip_control (VStr t)) with (ctrl_sub t).
  fold newline.
  change (String PyStr.cr (String PyStr.nl "")) with (String PyStr.cr newline).
  cbv zeta. now rewrite (passes_fixed t H).
Qed.


Lemma all_ctrl_sub (p : ascii -> bool) (s : string) :
  PyStr.all p s = true -> PyStr.all p (ctrl_sub s) = true.
Proof.
  induction s as [|x s IH]; [reflexivity|]. simpl. intros H.
  apply andb_true_iff in H as [Hx Hs].
  destruct (is_ctrl x); simpl; [|rewrite Hx]; auto.
Qed.

Lemma all_conj (p q : ascii -> bool) (s : string) :
  PyStr.all p s = true -> PyStr.all q s = true ->
  PyStr.all (fun c => p c && q c) s = true.
Proof.
  induction s as [|x s IH]; [reflexivity|]. simpl. intros Hp Hq.
  apply andb_true_iff in Hp as [-> Hp]. apply andb_true_iff in Hq as [-> Hq].
  now rewrite IH.
Qed.

Lemma inert_line_parts (s : string) :
  inert_line s = true ->
  PyStr.all inert_char s = true
  /\ PyStr.has_substring "[br]" s = false
  /\ plain_line s = true.
Proof.
  unfold inert_line, plain_line. intros H.
  apply andb_true_iff in H as [H Ho]. apply andb_true_iff in H as [H Hu].
  apply andb_true_iff in H as [H Hb]. apply negb_true_iff in Hb.
  now rewrite Hu, Ho.
Qed.

Lemma inert_calm (s : string) : inert_line s = true -> calm s = true.
Proof.
  intros H. destruct (inert_line_parts _ H) as (Ha & Hb & _).
  unfold calm. rewrite Hb, andb_true_r. revert Ha. apply all_impl.
  now intros c ->.
Qed.

Lemma translate_inert (t : string) : inert_line t = true -> translate t = t.
Proof.
  intros H. rewrite (translate_calm _ (inert_calm _ H)).
  destruct (inert_line_parts _ H) as (Ha & _ & Hp).
  rewrite split_nl_single by (exact (all_contains inert_char PyStr.nl t eq_refl Ha)).
  rewrite html_lines_plain by (simpl; now rewrite Hp).
  apply collapse_fixed. exact (all_contains inert_char "<" t eq_refl Ha).
Qed.

Lemma translate_ctrl_sub (x : string) : translate (ctrl_sub x) = translate x.
Proof.
  unfold translate, convert_markup_to_html.
  change (strip_control (VStr (ctrl_sub x))) with (ctrl_sub (ctrl_sub x)).
  change (strip_control (VStr x)) with (ctrl_sub x).
  now rewrite ctrl_sub_idem.
Qed.

Lemma calm_break_lines (a b : string) (k : nat) :
  inert_line a = true -> inert_line b = true ->
  calm (a ++ PyStr.times newline (S k) ++ b) = true.
Proof.
  intros Ha Hb.
  destruct (inert_line_parts _ Ha) as (Aa & Ab & _).
  destruct (inert_line_parts _ Hb) as (Ba & Bb & _).
  assert (Hall : forall s, PyStr.all inert_char s = true ->
            PyStr.all (fun c => inert_char c || Ascii.eqb c PyStr.nl) s = true)
    by (intros s; apply all_impl; now intros c ->).
  assert (Hk : forall j, calm (PyStr.times newline j ++ b) = true).
  { induction j as [|j IH].
    - unfold calm. cbn [PyStr.times append]. now rewrite (Hall _ Ba), Bb.
    - unfold calm in *. apply andb_true_iff in IH as [I1 I2].
      change (PyStr.times newline (S j) ++ b)
        with ("" ++ String PyStr.nl (PyStr.times newline j ++ b)).
      rewrite (has_substring_lines PyStr.nl "[" "br]" "" _ eq_refl).
      apply negb_true_iff in I2. rewrite I2.
      cbn [append PyStr.all]. rewrite I1. reflexivity. }
  specialize (Hk k). unfold calm in *. apply andb_true_iff in Hk as [K1 K2].
  change (a ++ PyStr.times newline (S k) ++ b)
    with (a ++ String PyStr.nl (PyStr.times newline k ++ b)).
  rewrite (has_substring_lines PyStr.nl "[" "br]" a _ eq_refl), Ab.
  apply negb_true_iff in K2. rewrite K2.
  rewrite all_append, (Hall _ Aa). cbn [PyStr.all]. now rewrite K1.
Qed.

(** Two inert lines with three or more line breaks between them. *)
Lemma translate_break_run (a b : string) (k : nat) :
  inert_line a = true -> inert_line b = true -> (3 <= k)%nat ->
  translate (a ++ PyStr.times newline k ++ b)
  = a ++ br ++ br ++ PyStr.lstrip b.
Proof.
  intros Ha Hb Hk. destruct k as [|k]; [lia|].
  rewrite (translate_calm _ (calm_break_lines a b k Ha Hb)).
  destruct (inert_line_parts _ Ha) as (Aa & _ & Ap).
  destruct (inert_line_parts _ Hb) as (Ba & _ & Bp).
  pose proof (all_contains inert_char PyStr.nl a eq_refl Aa) as Anl.
  pose proof (all_contains inert_char PyStr.nl b eq_refl Ba) as Bnl.
  pose proof (all_contains inert_char "<" a eq_refl Aa) as Alt.
  pose proof (all_contains inert_char "<" b eq_refl Ba) as Blt.
  change (a ++ PyStr.times newline (S k) ++ b)
    with (a ++ String PyStr.nl (PyStr.times newline k ++ b)).
  rewrite (split_nl_append _ _ Anl), (split_nl_blank_lines _ _ Bnl).
  rewrite html_lines_plain.
  - rewrite join_blank_lines, collapse_breaks_run.
    + rewrite (collapse_fixed _ Alt).
      now rewrite (collapse_fixed _ (lstrip_contains _ _ Blt)).
    + exact Hk.
    + exact (ends_with_break_absent _ Alt).
    + unfold PyStr.startswith.
      now rewrite (startswith_br_absent _ (lstrip_contains _ _ Blt)).
  - cbn [forallb]. rewrite Ap, forallb_app. cbn [forallb].
    rewrite Bp, andb_true_r. cbn [andb].
    clear. induction k; [reflexivity | exact IHk].
Qed.

Lemma lstrip_spaces (ws s : string) :
  PyStr.all PyStr.isspace ws = true -> PyStr.lstrip (ws ++ s) = PyStr.lstrip s.
Proof.
  induction ws as [|c ws IH]; [reflexivity|]. simpl. intros H.
  apply andb_true_iff in H as [Hc H]. now rewrite Hc, IH.
Qed.





End Translator.

(** C3, as stated, fails: the text between two star pairs is not made a
    strong span when a line break lies inside it. *)
Lemma bold_span_with_line_break_stays :
  translate ("**a" ++ newline ++ "b**") = "**a<br/>b**"
  /\ PyStr.has_substring "<strong>" (translate ("**a" ++ newline ++ "b**"))
     = false.
Proof. split; reflexivity. Qed.

(** C3, amended: the whole text is escaped (ampersand, angle brackets, both
    quote characters) before the bold pass, and the italic pass runs on the
    result of the bold pass.  A bold span opens where two stars are followed
    by one character or more without a line break and by two stars again.
    Scanning from the left, the bold pass keeps the text up to the first
    place where a span opens, puts the shortest span that opens there (it
    ends at the first star pair after its first character) into a strong
    span, and goes on after the closing pair; a text in which no span opens
    is left as it is, and every text is of one of these two kinds.  So the
    translation of a bold word is that word in a strong span with no em
    tag, and an italic word comes out in an em span. *)
Theorem escape_then_bold_then_italic :
  (forall text,
      translate text
      = collapse_breaks
          (PyStr.join br
             (html_lines
                (PyStr.split_nl
                   (sub_em
                      (sub_bold
                         (escape
                            (PyStr.replace "[br]" newline
                               (PyStr.replace (String PyStr.cr "") newline
                                  (PyStr.replace (String PyStr.cr newline) newline
                                     (ctrl_sub text)))))))))))
  /\ escape specials = "&amp;&lt;&gt;&quot;&#x27;"
  /\ (forall s,
         bold_opens s = true
         <-> exists inner post,
             s = "**" ++ inner ++ "**" ++ post /\ inner <> ""
             /\ PyStr.contains PyStr.nl inner = false)
  /\ (forall pre rest,
         bold_quiet pre rest = true
         <-> forall a b, pre = a ++ b -> b <> "" ->
                         bold_opens (b ++ rest) = false)
  /\ (forall pre c rest post,
         bold_quiet pre ("**" ++ String c rest ++ "**" ++ post) = true ->
         PyStr.contains PyStr.nl (String c rest) = false ->
         PyStr.has_substring "**" (rest ++ "*") = false ->
         sub_bold (pre ++ "**" ++ String c rest ++ "**" ++ post)
         = pre ++ "<strong>" ++ String c rest ++ "</strong>" ++ sub_bold post)
  /\ (forall text, bold_quiet text "" = true -> sub_bold text = text)
  /\ (forall text,
         bold_quiet text "" = true
         \/ exists pre c rest post,
             text = pre ++ "**" ++ String c rest ++ "**" ++ post
             /\ bold_quiet pre ("**" ++ String c rest ++ "**" ++ post) = true
             /\ PyStr.contains PyStr.nl (String c rest) = false
             /\ PyStr.has_substring "**" (rest ++ "*") = false)
  /\ translate "**bold**" = "<strong>bold</strong>"
  /\ PyStr.has_substring "<em>" (translate "**bold**") = false
  /\ translate "*italic*" = "<em>italic</em>"
  /\ translate "**a**b**" = "<strong>a</strong>b**"
  /\ translate "**<b>**" = "<strong>&lt;b&gt;</strong>"
  /\ translate ("**a" ++ newline ++ "b** and **c**")
     = "**a<br/>b<strong> and </strong>c**"
  /\ translate "****a**" = "<strong>**a</strong>".
Proof.
  split; [reflexivity|]. split; [reflexivity|].
  split; [exact bold_opens_spec|]. split; [exact bold_quiet_spec|].
  split; [exact sub_bold_first_span|]. split; [exact sub_bold_quiet_text|].
  split; [exact bold_first_span|]. repeat split.
Qed.

Lemma escape_then_bold_then_italic_witness :
  bold_quiet ("**a" ++ newline ++ "b") ("**" ++ " and " ++ "**" ++ "c**")
  = true
  /\ sub_bold (("**a" ++ newline ++ "b") ++ "**" ++ " and " ++ "**" ++ "c**")
     = ("**a" ++ newline ++ "b") ++ "<strong>" ++ " and " ++ "</strong>"
         ++ sub_bold "c**".
Proof.
  split; [reflexivity|].
  apply (proj1 (proj2 (proj2 (proj2 (proj2 escape_then_bold_then_italic)))));
    reflexivity.
Defined.



(** C5: once the lines are joined with break markers, a run of three or
    more consecutive markers (one that continues no earlier marker) is
    replaced by exactly two, together with the whitespace after it; so two
    lines separated by three, four or more line breaks come out separated
    by exactly two markers. *)
Theorem break_runs_collapse_to_two :
  (forall pre post k,
      (3 <= k)%nat ->
      ends_with_break pre = false ->
      PyStr.startswith br (PyStr.lstrip post) = false ->
      collapse_breaks (pre ++ PyStr.times br k ++ post)
      = collapse_breaks pre ++ br ++ br ++ collapse_breaks (PyStr.lstrip post))
  /\ (forall a b k,
         inert_line a = true -> inert_line b = true -> (3 <= k)%nat ->
         translate (a ++ PyStr.times newline k ++ b)
         = a ++ "<br/><br/>" ++ PyStr.lstrip b)
  /\ translate ("a" ++ PyStr.times newline 4 ++ "b") = "a<br/><br/>b"
  /\ PyStr.count br (translate ("a" ++ PyStr.times newline 4 ++ "b")) = 2%nat
  /\ translate "a[br][br][br][br][br]b" = "a<br/><br/>b"
  /\ translate ("a" ++ PyStr.times newline 2 ++ "b") = "a<br/><br/>b"
  /\ translate ("a" ++ newline ++ "b") = "a<br/>b".
Proof.
  split; [exact collapse_breaks_run|].
  split; [exact translate_break_run|]. repeat split.
Qed.

Lemma break_runs_collapse_to_two_witness :
  (3 <= 5)%nat
  /\ ends_with_break "<ul><li>x</li></ul>" = false
  /\ PyStr.startswith br (PyStr.lstrip "  <strong>y</strong>") = false
  /\ collapse_breaks
       ("<ul><li>x</li></ul>" ++ PyStr.times br 5 ++ "  <strong>y</strong>")
     = "<ul><li>x</li></ul><br/><br/><strong>y</strong>".
Proof.
  split; [lia|]. split; [reflexivity|]. split; [reflexivity|].
  rewrite (proj1 break_runs_collapse_to_two
                 "<ul><li>x</li></ul>" "  <strong>y</strong>" 5%nat);
    [reflexivity | lia | reflexivity | reflexivity].
Defined.

(** C8, as stated, fails twice: a quote character is escaped to an entity
    whose ampersand is escaped again by the second application, and a break
    token that only appears once the control characters are removed is read
    as a line break. *)
Lemma quoted_text_is_escaped_twice :
  (no_markup "it's" = true /\ no_html_special "it's" = true
   /\ translate "it's" = "it&#x27;s"
   /\ translate (translate "it's") = "it&amp;#x27;s"
   /\ translate (translate "it's") <> translate "it's")
  /\ (no_markup hidden_break = true /\ no_html_special hidden_break = true
      /\ translate hidden_break = "<br/>"
      /\ translate (translate hidden_break) = "&lt;br/&gt;"
      /\ translate (translate hidden_break) <> translate hidden_break).
Proof. repeat split; try reflexivity; vm_compute; discriminate. Qed.

Lemma inert_of_plain (x : string) :
  no_markup (ctrl_sub x) = true -> no_html_special x = true ->
  no_quote x = true -> inert_line (ctrl_sub x) = true.
Proof.
  unfold no_markup, no_html_special, no_quote, inert_line.
  intros Hm Hs Hq.
  apply andb_true_iff in Hm as [Hm Ho]. apply andb_true_iff in Hm as [Hm Hu].
  apply andb_true_iff in Hm as [Hm Hb]. rewrite Hb, Hu, Ho, !andb_true_r.
  pose proof (ctrl_sub_clean x) as Hc.
  apply all_ctrl_sub in Hs, Hq.
  pose proof (all_conj _ _ _ (all_conj _ _ _ (all_conj _ _ _ Hc Hm) Hs) Hq) as H.
  revert H. apply all_impl. intros c H. unfold inert_char.
  rewrite andb_assoc in H. exact H.
Qed.

(** C8, amended: a text that, once its control characters are removed, has
    no markup token (no star, no line break in either spelling, no list
    marker at its start), and that has none of the characters ampersand,
    angle brackets and the two quote characters, is translated to itself
    without its control characters, and translating the result again
    changes nothing. *)
Theorem translate_stable_on_plain_text (x : string) :
  no_markup (ctrl_sub x) = true ->
  no_html_special x = true ->
  no_quote x = true ->
  translate x = ctrl_sub x /\ translate (translate x) = translate x.
Proof.
  intros Hm Hs Hq. pose proof (inert_of_plain x Hm Hs Hq) as Hi.
  assert (E : translate x = ctrl_sub x)
    by (rewrite <- translate_ctrl_sub; now apply translate_inert).
  split; [exact E|]. rewrite E. now apply translate_inert.
Qed.

Lemma translate_stable_on_plain_text_witness :
  no_markup (ctrl_sub "Paris is the capital (1 + 1 = 2).") = true
  /\ no_html_special "Paris is the capital (1 + 1 = 2)." = true
  /\ no_quote "Paris is the capital (1 + 1 = 2)." = true
  /\ translate (translate "Paris is the capital (1 + 1 = 2).")
     = translate "Paris is the capital (1 + 1 = 2).".
Proof.
  split; [reflexivity|]. split; [reflexivity|]. split; [reflexivity|].
  apply (translate_stable_on_plain_text "Paris is the capital (1 + 1 = 2).");
    reflexivity.
Defined.


(** ** The order of floats *)
Section FloatOrder.



Lemma compare_lt_trans (x y z : spec_float) :
  SFcompare x y = Some Lt -> SFcompare y z = Some Lt ->
  SFcompare x z = Some Lt.
Proof.
  float_cases x; float_cases y; float_cases z; intros H1 H2;
    try discriminate; injection H1 as H1; injection H2 as H2; f_equal;
    split_compare.
Qed.




Lemma lt_compare (x y : spec_float) :
  PyFloat.lt x y = true <-> SFcompare x y = Some Lt.
Proof.
  unfold PyFloat.lt, SFltb. destruct (SFcompare x y) as [[| |]|];
    split; congruence.
Qed.




Lemma lt_trans (x y z : spec_float) :
  PyFloat.lt x y = true -> PyFloat.lt y z = true -> PyFloat.lt x z = true.
Proof. rewrite !lt_compare. apply compare_lt_trans. Qed.














End FloatOrder.

(** ** The text of a float *)
Section FloatText.

Local Open Scope Z_scope.

Lemma Qlt_bool_true (a b : Q) : PyFloat.Qlt_bool a b = true -> (a < b)%Q.
Proof.
  unfold PyFloat.Qlt_bool. intros H. apply negb_true_iff in H.
  apply Qnot_le_lt. intros Hle. apply Qle_bool_iff in Hle. congruence.
Qed.

Lemma Qlt_bool_false (a b : Q) : PyFloat.Qlt_bool a b = false -> (b <= a)%Q.
Proof.
  unfold PyFloat.Qlt_bool. intros H. apply negb_false_iff in H.
  now apply Qle_bool_iff.
Qed.

Lemma ten_pow_mono (j k : Z) : j <= k -> (10 ^ j <= 10 ^ k)%Q.
Proof. intros H. apply Qpower_le_compat_l; [exact H | discriminate]. Qed.

(** The exponent found is above every power of ten that [x] reaches. *)
Lemma decimal_exponent_above (fuel : nat) (k0 j : Z) (x : Q) :
  (10 ^ j <= x)%Q -> j + 1 <= k0 + Z.of_nat fuel ->
  j + 1 <= PyFloat.decimal_exponent fuel k0 x.
Proof.
  revert k0. induction fuel as [|n IH]; intros k0 Hx Hf.
  - simpl. lia.
  - cbn [PyFloat.decimal_exponent].
    destruct (PyFloat.Qlt_bool x (10 ^ k0)) eqn:E.
    + apply Qlt_bool_true in E.
      destruct (Z_le_gt_dec k0 j) as [Hle|Hgt]; [|lia].
      exfalso. apply (Qlt_irrefl x).
      eapply Qlt_le_trans; [exact E|].
      eapply Qle_trans; [apply (ten_pow_mono _ _ Hle) | exact Hx].
    + apply IH; [exact Hx | lia].
Qed.

(** It is at most any power of ten that [x] stays below. *)
Lemma decimal_exponent_below (fuel : nat) (k0 u : Z) (x : Q) :
  (x < 10 ^ u)%Q -> k0 <= u ->
  PyFloat.decimal_exponent fuel k0 x <= u.
Proof.
  revert k0. induction fuel as [|n IH]; intros k0 Hx Hk.
  - simpl. lia.
  - cbn [PyFloat.decimal_exponent].
    destruct (PyFloat.Qlt_bool x (10 ^ k0)) eqn:E; [lia|].
    apply Qlt_bool_false in E. apply IH; [exact Hx|].
    destruct (Z.eq_dec k0 u) as [->|]; [|lia].
    exfalso. apply (Qlt_irrefl x). eapply Qlt_le_trans; eauto.
Qed.

(** [x] reaches the power of ten just under the exponent found. *)
Lemma decimal_exponent_reached (fuel : nat) (k0 : Z) (x : Q) :
  (10 ^ (k0 - 1) <= x)%Q ->
  (10 ^ (PyFloat.decimal_exponent fuel k0 x - 1) <= x)%Q.
Proof.
  revert k0. induction fuel as [|n IH]; intros k0 Hx; [exact Hx|].
  cbn [PyFloat.decimal_exponent].
  destruct (PyFloat.Qlt_bool x (10 ^ k0)) eqn:E; [exact Hx|].
  apply Qlt_bool_false in E. apply IH.
  now replace (k0 + 1 - 1) with k0 by lia.
Qed.


Lemma shortest_from_spec (fuel : nat) (n : Z) (m : positive) (e k : Z) :
  let r := PyFloat.shortest_from fuel n m e k in
  n <= snd r <= n + Z.of_nat fuel
  /\ (fst r = Qfloor (PyFloat.magnitude m e * 10 ^ (snd r - k))%Q
      \/ fst r = Qfloor (PyFloat.magnitude m e * 10 ^ (snd r - k))%Q + 1).
Proof.
  revert n. induction fuel as [|f IH]; intros n; cbn zeta.
  - simpl. split; [lia | now left].
  - cbn [PyFloat.shortest_from].
    repeat match goal with
           | |- context [if ?b then _ else _] => destruct b
           end; cbn [fst snd];
      try (split; [lia | (now left) || (now right)]).
    specialize (IH (n + 1)). cbn zeta in IH. destruct IH as [H1 H2].
    split; [lia | exact H2].
Qed.

Lemma scaled_floor_positive (x : Q) (n k : Z) :
  (10 ^ (k - 1) <= x)%Q -> 1 <= n -> 1 <= Qfloor (x * 10 ^ (n - k))%Q.
Proof.
  intros Hx Hn.
  change 1 with (Qfloor (inject_Z 1)) at 1. apply Qfloor_resp_le.
  apply Qle_trans with (10 ^ (n - 1))%Q.
  - apply (Qpower_1_le 10); [discriminate | lia].
  - replace (n - 1) with ((k - 1) + (n - k)) by lia.
    rewrite Qpower_plus by discriminate.
    apply Qmult_le_compat_r; [exact Hx|].
    apply Qpower_0_le. discriminate.
Qed.

(** *** Digit strings *)

Lemma rstrip_zeros_digits (s : string) :
  PyStr.all PyStr.isdigit s = true ->
  PyStr.all PyStr.isdigit (PyFloat.rstrip_zeros s) = true.
Proof.
  induction s as [|c s IH]; [reflexivity|]. simpl. intros H.
  apply andb_true_iff in H as [Hc Hs]. specialize (IH Hs).
  destruct (PyFloat.rstrip_zeros s).
  - destruct (Ascii.eqb c "0"); simpl; [reflexivity | now rewrite Hc].
  - cbn [PyStr.all] in *. now rewrite Hc.
Qed.

Lemma rstrip_zeros_empty (s : string) :
  PyFloat.rstrip_zeros s = "" -> PyStr.all is_zero_digit s = true.
Proof.
  induction s as [|c s IH]; [reflexivity|]. simpl.
  destruct (PyFloat.rstrip_zeros s); [|discriminate].
  unfold is_zero_digit at 1. destruct (Ascii.eqb c "0"); [|discriminate].
  intros _. now apply IH.
Qed.

Lemma all_zero_uint (d : Decimal.uint) :
  PyStr.all is_zero_digit (NilEmpty.string_of_uint d) = true ->
  Pos.of_uint d = 0%N.
Proof. induction d; simpl; try discriminate; auto. Qed.

Lemma digits_of_positive (c : Z) :
  1 <= c ->
  PyStr.all PyStr.isdigit (PyFloat.rstrip_zeros (PyFloat.digits_of c)) = true
  /\ PyFloat.rstrip_zeros (PyFloat.digits_of c) <> "".
Proof.
  intros Hc. unfold PyFloat.digits_of. split.
  - apply rstrip_zeros_digits, nilzero_uint_all_digits.
  - intros H. apply rstrip_zeros_empty in H.
    destruct c as [|p|p]; try lia. cbn [Z.to_N N.to_uint] in H.
    pose proof (DecimalPos.Unsigned.to_uint_nonnil p) as Hn.
    assert (E : NilZero.string_of_uint (Pos.to_uint p)
                = NilEmpty.string_of_uint (Pos.to_uint p))
      by (destruct (Pos.to_uint p); [now elim Hn | reflexivity ..]).
    rewrite E in H. apply all_zero_uint in H.
    rewrite DecimalPos.Unsigned.of_to in H. discriminate.
Qed.


Lemma skip_digits_point (a rest : string) :
  PyStr.all PyStr.isdigit a = true ->
  skip_while PyStr.isdigit (a ++ String "." rest) = String "." rest.
Proof.
  induction a as [|c a IH]; [reflexivity|]. simpl. intros H.
  apply andb_true_iff in H as [Hc Ha]. now rewrite Hc, IH.
Qed.

Lemma unsigned_decimal_parts (ip fp : string) :
  PyStr.all PyStr.isdigit ip = true -> ip <> "" ->
  PyStr.all PyStr.isdigit fp = true -> fp <> "" ->
  unsigned_decimal (ip ++ "." ++ fp) = true.
Proof.
  intros Hi Hin Hf Hfn. destruct ip as [|d ip]; [congruence|].
  destruct fp as [|d' fp]; [congruence|].
  unfold unsigned_decimal.
  change (String d ip ++ "." ++ String d' fp)
    with (String d ip ++ String "." (String d' fp)).
  rewrite (skip_digits_point _ _ Hi).
  cbn [append]. simpl in Hi, Hf.
  apply andb_true_iff in Hi as [-> _]. apply andb_true_iff in Hf as [-> ->].
  reflexivity.
Qed.

Lemma plain_of_unsigned (s : string) :
  unsigned_decimal s = true -> plain_decimal s = true.
Proof.
  destruct s as [|d s]; [discriminate|]. intros H.
  assert (Hd : PyStr.isdigit d = true)
    by (unfold unsigned_decimal in H; now apply andb_true_iff in H as [-> _]).
  revert H. unfold plain_decimal.
  destruct d as [[|] [|] [|] [|] [|] [|] [|] [|]]; try discriminate Hd;
    intros H; exact H.
Qed.

Lemma zeros_digits (n : nat) : PyStr.all PyStr.isdigit (PyFloat.zeros n) = true.
Proof. induction n; simpl; auto. Qed.

Lemma take_all (p : ascii -> bool) (n : nat) (s : string) :
  PyStr.all p s = true -> PyStr.all p (PyStr.take n s) = true.
Proof.
  revert n. induction s as [|c s IH]; intros [|n]; simpl; auto.
  intros H. apply andb_true_iff in H as [-> H]. now apply IH.
Qed.

Lemma drop_all (p : ascii -> bool) (n : nat) (s : string) :
  PyStr.all p s = true -> PyStr.all p (PyStr.drop n s) = true.
Proof.
  revert n. induction s as [|c s IH]; intros [|n]; simpl; auto.
  intros H. apply andb_true_iff in H as [_ H]. now apply IH.
Qed.

Lemma take_nonempty (n : nat) (s : string) :
  (1 <= n)%nat -> s <> "" -> PyStr.take n s <> "".
Proof. destruct n; [lia|]. destruct s; [congruence | discriminate]. Qed.

Lemma drop_nonempty (n : nat) (s : string) :
  (n < length s)%nat -> PyStr.drop n s <> "".
Proof.
  revert n. induction s as [|c s IH]; intros n; simpl; [lia|].
  destruct n; [discriminate|]. intros H. apply IH. lia.
Qed.

Lemma append_nonempty_r (a b : string) : b <> "" -> a ++ b <> "".
Proof. destruct a; [auto | discriminate]. Qed.

Lemma append_nonempty_l (a b : string) : a <> "" -> a ++ b <> "".
Proof. destruct a; [congruence | discriminate]. Qed.

(** The positional layout is a plain decimal. *)
Lemma format_repr_plain (digits : string) (decpt : Z) :
  PyStr.all PyStr.isdigit digits = true -> digits <> "" ->
  -4 < decpt <= 16 ->
  unsigned_decimal (PyFloat.format_repr digits decpt) = true.
Proof.
  intros Hd Hn Hp. unfold PyFloat.format_repr.
  replace ((decpt <=? -4) || (16 <? decpt)) with false
    by (symmetry; apply orb_false_iff; split;
        [apply Z.leb_gt | apply Z.ltb_ge]; lia).
  destruct (decpt <=? 0) eqn:E0.
  - change ("0." ++ PyFloat.zeros (Z.to_nat (- decpt)) ++ digits)
      with ("0" ++ "." ++ (PyFloat.zeros (Z.to_nat (- decpt)) ++ digits)).
    apply unsigned_decimal_parts; [reflexivity | discriminate | |].
    + now rewrite all_append, zeros_digits, Hd.
    + now apply append_nonempty_r.
  - apply Z.leb_gt in E0.
    destruct (Z.of_nat (length digits) <=? decpt) eqn:E1.
    + rewrite <- append_assoc.
      change ".0" with ("." ++ "0").
      apply unsigned_decimal_parts; [| |reflexivity|discriminate].
      * now rewrite all_append, zeros_digits, Hd.
      * now apply append_nonempty_l.
    + apply Z.leb_gt in E1.
      apply unsigned_decimal_parts.
      * now apply take_all.
      * apply take_nonempty; [lia | exact Hn].
      * now apply drop_all.
      * apply drop_nonempty. lia.
Qed.

(** A finite float between 0.0001 and 100 in magnitude is printed as a
    plain decimal. *)
Lemma repr_plain (s : bool) (m : positive) (e : Z) :
  (1 # 10000 <= PyFloat.magnitude m e)%Q ->
  (PyFloat.magnitude m e <= 100)%Q ->
  plain_decimal (PyFloat.repr (S754_finite s m e)) = true.
Proof.
  intros Hlo Hhi. unfold PyFloat.repr, PyFloat.shortest_digits.
  set (x := PyFloat.magnitude m e) in *.
  set (k := PyFloat.decimal_exponent 640 (-324) x).
  assert (Hk1 : -3 <= k).
  { apply (decimal_exponent_above 640 (-324) (-4) x); [exact Hlo | lia]. }
  assert (Hk2 : k <= 3).
  { apply decimal_exponent_below; [|lia].
    apply Qle_lt_trans with 100%Q; [exact Hhi | reflexivity]. }
  assert (Hk3 : (10 ^ (k - 1) <= x)%Q).
  { apply decimal_exponent_reached.
    apply Qle_trans with (1 # 10000)%Q; [|exact Hlo].
    apply (ten_pow_mono (-325) (-4)). lia. }
  pose proof (shortest_from_spec 17 1 m e k) as Hs. cbn zeta in Hs.
  fold x in Hs.
  destruct (PyFloat.shortest_from 17 1 m e k) as [c n]. cbn [fst snd] in Hs.
  destruct Hs as [Hn Hc].
  assert (Hpos : 1 <= c).
  { pose proof (scaled_floor_positive x n k Hk3 (proj1 Hn)). lia. }
  destruct (digits_of_positive c Hpos) as [Hd Hne].
  assert (Hu : unsigned_decimal
                 (PyFloat.format_repr
                    (PyFloat.rstrip_zeros (PyFloat.digits_of c))
                    (if c =? 10 ^ n then k + 1 else k)) = true).
  { apply format_repr_plain; auto. destruct (c =? 10 ^ n); lia. }
  destruct s; [exact Hu | now apply plain_of_unsigned].
Qed.

End FloatText.

(** ** The text of a well-formed float is not empty *)
Section FloatTextHead.

Local Open Scope Z_scope.

Lemma format_repr_head (digits : string) (decpt : Z) :
  PyStr.all PyStr.isdigit digits = true -> digits <> "" ->
  exists d rest,
    PyFloat.format_repr digits decpt = String d rest
    /\ PyStr.isdigit d = true.
Proof.
  intros Hd Hn. destruct digits as [|d ds]; [congruence|].
  simpl in Hd. apply andb_true_iff in Hd as [Hd _].
  unfold PyFloat.format_repr.
  destruct ((decpt <=? -4) || (16 <? decpt)).
  - destruct ds; eexists d, _; (split; [reflexivity | exact Hd]).
  - destruct (decpt <=? 0) eqn:E0.
    + eexists "0"%char, _. split; reflexivity.
    + apply Z.leb_gt in E0.
      destruct (Z.of_nat (length (String d ds)) <=? decpt).
      * eexists d, _. split; [reflexivity | exact Hd].
      * destruct (Z.to_nat decpt) eqn:E; [lia|].
        eexists d, _. split; [reflexivity | exact Hd].
Qed.

Lemma valid_magnitude_floor (s : bool) (m : positive) (e : Z) :
  valid_binary PyFloat.prec PyFloat.emax (S754_finite s m e) = true ->
  (10 ^ (-325) <= PyFloat.magnitude m e)%Q.
Proof.
  unfold valid_binary, bounded, canonical_mantissa, fexp, emin,
    PyFloat.prec, PyFloat.emax.
  intros H. apply andb_true_iff in H as [H _]. apply Z.eqb_eq in H.
  assert (He : -1074 <= e) by lia.
  apply Qle_trans with (inject_Z 1 * 2 ^ (-1074))%Q.
  - apply Qle_bool_iff. vm_compute. reflexivity.
  - unfold PyFloat.magnitude. apply Qmult_le_compat_nonneg.
    + split; [now apply (Qle_bool_iff 0) | rewrite <- Zle_Qle; lia].
    + split; [apply Qpower_0_le; discriminate|].
      apply Qpower_le_compat_l; [exact He | discriminate].
Qed.

Lemma float_text_not_empty (f : spec_float) :
  valid_binary PyFloat.prec PyFloat.emax f = true ->
  strip_control (VFloat f) <> "".
Proof.
  intros Hv. change (strip_control (VFloat f)) with (ctrl_sub (PyFloat.repr f)).
  destruct f as [[|]|[|]| |s m e]; try discriminate.
  unfold PyFloat.repr, PyFloat.shortest_digits.
  set (x := PyFloat.magnitude m e).
  set (k := PyFloat.decimal_exponent 640 (-324) x).
  assert (Hk : (10 ^ (k - 1) <= x)%Q)
    by (apply decimal_exponent_reached; exact (valid_magnitude_floor s m e Hv)).
  pose proof (shortest_from_spec 17 1 m e k) as Hs. cbn zeta in Hs.
  fold x in Hs.
  destruct (PyFloat.shortest_from 17 1 m e k) as [c n]. cbn [fst snd] in Hs.
  destruct Hs as [Hn Hc].
  assert (Hpos : 1 <= c)
    by (pose proof (scaled_floor_positive x n k Hk (proj1 Hn)); lia).
  destruct (digits_of_positive c Hpos) as [Hd Hne].
  destruct (format_repr_head _ (if c =? 10 ^ n then k + 1 else k) Hd Hne)
    as (d & rest & -> & Hdig).
  destruct s; cbn [PyFloat.sign_text append ctrl_sub].
  - discriminate.
  - now rewrite (digit_not_ctrl _ Hdig).
Qed.

End FloatTextHead.

(** ** The document assembler *)
Section Assembler.

Variable category : string.

Lemma fold_append_children (l : list (Z * row)) (root : element) :
  fold_left
    (fun root '(idx, qrow) =>
       append_child root (question_multichoice_xml qrow idx category))
    l root
  = Element (tag_of root) (attrib_of root) (text_of root)
            (children_of root ++ map (question_of category) l).
Proof.
  revert root. induction l as [|[idx qrow] l IH]; intros [t a x cs]; simpl.
  - now rewrite app_nil_r.
  - rewrite IH. simpl. now rewrite <- app_assoc.
Qed.

Lemma iterrows_from_nth (df : list row) (k : Z) (i : nat) (r : row) :
  nth_error df i = Some r ->
  nth_error (iterrows_from k df) i = Some ((k + Z.of_nat i)%Z, r).
Proof.
  revert k i. induction df as [|r0 df IH]; intros k [|i]; simpl; try easy.
  - intros [= ->]. now rewrite Z.add_0_r.
  - intros H. rewrite (IH _ _ H). do 2 f_equal. lia.
Qed.

Lemma iterrows_from_length (df : list row) (k : Z) :
  List.length (iterrows_from k df) = List.length df.
Proof. revert k. induction df; intros k; simpl; auto. Qed.

Lemma iterrows_from_rows (df : list row) (k : Z) :
  map snd (iterrows_from k df) = df.
Proof. revert k. induction df; intros k; simpl; [|rewrite IHdf]; auto. Qed.

Lemma assembled_document (df : list row) :
  excel_to_moodle_xml df category
  = Element "quiz" [] None (category_node category :: map (question_of category) (iterrows df)).
Proof.
  unfold excel_to_moodle_xml. rewrite fold_append_children. simpl.
  unfold category_node, category_text.
  now destruct (String.eqb category "").
Qed.

End Assembler.

(** C6: the document is the quiz root holding first the category node, whose
    text is the course prefix followed by the category name or by Default
    when the name is empty, and then the question node of every row, in the
    order and number of the rows, each mapped at its position. *)
Theorem assembler_category_then_rows_in_order (category : string)
        (df : list row) :
  let doc := excel_to_moodle_xml df category in
  tag_of doc = "quiz"
  /\ nth_error (children_of doc) 0
     = Some (Element "question" [("type", "category")] None
               [Element "category" [] None
                  [leaf "text"
                        (if String.eqb category "" then "$course$/Default"
                         else "$course$/" ++ category)]])
  /\ List.length (children_of doc) = S (List.length df)
  /\ (forall (i : nat) (r : row),
         nth_error df i = Some r ->
         nth_error (children_of doc) (S i)
         = Some (question_multichoice_xml r (Z.of_nat i) category))
  /\ category_text "" = "$course$/Default"
  /\ category_text "Math" = "$course$/Math".
Proof.
  intros doc. unfold doc. rewrite assembled_document. simpl.
  repeat split.
  - rewrite length_map. unfold iterrows. now rewrite iterrows_from_length.
  - intros i r H. unfold iterrows.
    rewrite nth_error_map, (iterrows_from_nth _ 0 _ _ H). reflexivity.
Qed.

Lemma assembler_category_then_rows_in_order_witness :
  nth_error [fraction_row (VInt 100) (VInt 0) (VInt 0) (VInt 0) (VInt 0);
             fraction_row (VInt 0) (VInt 100) (VInt 0) (VInt 0) (VInt 0)] 1
  = Some (fraction_row (VInt 0) (VInt 100) (VInt 0) (VInt 0) (VInt 0))
  /\ nth_error
       (children_of
          (excel_to_moodle_xml
             [fraction_row (VInt 100) (VInt 0) (VInt 0) (VInt 0) (VInt 0);
              fraction_row (VInt 0) (VInt 100) (VInt 0) (VInt 0) (VInt 0)]
             "Math")) 2
     = Some (question_multichoice_xml
               (fraction_row (VInt 0) (VInt 100) (VInt 0) (VInt 0) (VInt 0))
               1 "Math").
Proof.
  split; [reflexivity|].
  apply (assembler_category_then_rows_in_order "Math"
           [fraction_row (VInt 100) (VInt 0) (VInt 0) (VInt 0) (VInt 0);
            fraction_row (VInt 0) (VInt 100) (VInt 0) (VInt 0) (VInt 0)]).
  reflexivity.
Defined.

(** ** The question mapper *)
Section Mapper.

Variables (qrow : row) (index : Z) (category : string).

Lemma question_answers :
  answers (question_multichoice_xml qrow index category)
  = map (answer_node qrow) choice_indices.
Proof. reflexivity. Qed.

Lemma question_single_text :
  findtext "single" (question_multichoice_xml qrow index category)
  = Some (bool_text (is_single (fractions qrow))).
Proof. reflexivity. Qed.

Lemma question_name_text :
  find_inner_text "name" (question_multichoice_xml qrow index category)
  = Some (question_name qrow index).
Proof. reflexivity. Qed.

Lemma answer_fraction_attr (i : Z) :
  fraction_attr (answer_node qrow i)
  = Some (PyFloat.repr (answer_fraction qrow i)).
Proof. reflexivity. Qed.

Lemma nth_answer (i : Z) (a : element) :
  In i choice_indices ->
  nth_error (answers (question_multichoice_xml qrow index category))
            (Z.to_nat (i - 1)) = Some a ->
  a = answer_node qrow i.
Proof.
  rewrite question_answers. unfold choice_indices. simpl In.
  intros [<-|[<-|[<-|[<-|[<-|[]]]]]]; cbn [Z.to_nat Z.sub Z.add Z.opp Z.pos_sub
    Pos.pred_double Pos.to_nat Pos.iter_op Nat.add nth_error map];
    now intros [= <-].
Qed.

End Mapper.

(** C7, as stated, fails: a name field that is present and not blank is not
    always the output name, because the mapper removes control characters
    from it. *)
Lemma name_field_loses_control_characters :
  let qrow := [("Name", VStr bell_name)] in
  row_get qrow "Name" = VStr bell_name
  /\ PyStr.strip bell_name <> ""
  /\ find_inner_text "name" (question_multichoice_xml qrow 3 "Math")
     = Some "AB"
  /\ "AB" <> bell_name.
Proof. repeat split; vm_compute; congruence. Qed.

(** C7, amended: the cells that count as no name are the absent cell, the
    empty text, False, the integer 0, the floats 0.0 and -0.0, and NaN.  For
    such a cell the output name is Q followed by the position plus one, so
    Q4 at position 3; for every other cell it is the text of the cell with
    its control characters removed.  A name text free of control characters
    is emitted as it is. *)
Theorem question_name_rule (qrow : row) (index : Z) (category : string) :
  let v := row_get qrow "Name" in
  let name :=
    find_inner_text "name" (question_multichoice_xml qrow index category) in
  let no_name :=
    v = VNone \/ v = VStr "" \/ v = VBool false \/ v = VInt 0
    \/ (exists s, v = VFloat (S754_zero s)) \/ v = VFloat S754_nan in
  (no_name -> name = Some ("Q" ++ py_str (VInt (index + 1))))
  /\ (~ no_name -> name = Some (ctrl_sub (py_str v)))
  /\ (forall s, v = VStr s -> s <> "" ->
      PyStr.all (fun c => negb (is_ctrl c)) s = true -> name = Some s)
  /\ (no_name -> index = 3%Z -> name = Some "Q4")
  /\ find_inner_text "name" (question_multichoice_xml [("Name", VInt 0)] 3 "Math")
     = Some "Q4"
  /\ find_inner_text "name" (question_multichoice_xml [("Name", VInt 7)] 3 "Math")
     = Some "7".
Proof.
  intros v name no_name. unfold name. rewrite question_name_text.
  unfold question_name. fold v.
  assert (HQ : strip_control (VStr ("Q" ++ py_str (VInt (index + 1))))
               = "Q" ++ py_str (VInt (index + 1))).
  { change (String "Q" (ctrl_sub (py_str (VInt (index + 1))))
            = String "Q" (py_str (VInt (index + 1)))).
    now rewrite (int_text_clean (index + 1)). }
  assert (Hno : no_name -> negb (truthy v) || is_float_nan v = true).
  { intros [H|[H|[H|[H|[[s H]|H]]]]]; rewrite H; reflexivity. }
  assert (Hyes : ~ no_name -> negb (truthy v) || is_float_nan v = false).
  { intros H. destruct (negb (truthy v) || is_float_nan v) eqn:E;
      [exfalso; apply H; unfold no_name | reflexivity].
    destruct v as [|[|]|z|f|s]; cbn [truthy is_float_nan negb orb] in E;
      try discriminate E.
    - now left.
    - do 2 right. now left.
    - do 3 right. left. rewrite orb_false_r in E.
      apply negb_true_iff, negb_false_iff, Z.eqb_eq in E. now subst z.
    - do 4 right. destruct f as [z|[|]| |[|] m e]; try discriminate E.
      + left. now exists z.
      + now right.
    - right. left. rewrite orb_false_r in E.
      apply negb_true_iff, negb_false_iff, String.eqb_eq in E. now subst s. }
  split; [|split; [|split; [|split]]].
  - intros H. now rewrite (Hno H), HQ.
  - intros H. rewrite (Hyes H).
    destruct v; try reflexivity. exfalso. apply H. now left.
  - intros s Hv Hs Hc. rewrite Hv. cbn [truthy is_float_nan].
    destruct (String.eqb_spec s ""); [contradiction|].
    cbn [negb orb strip_control py_str]. now rewrite ctrl_sub_fixed.
  - intros H ->. now rewrite (Hno H).
  - split; reflexivity.
Qed.

Lemma question_name_rule_witness :
  find_inner_text "name"
    (question_multichoice_xml [("Name", VStr "Capital of France")] 3 "Math")
  = Some (ctrl_sub (py_str (row_get [("Name", VStr "Capital of France")] "Name"))).
Proof.
  apply (proj1 (proj2 (question_name_rule
                         [("Name", VStr "Capital of France")] 3 "Math"))).
  intros [H|[H|[H|[H|[[s H]|H]]]]]; discriminate H.
Defined.

(** C9: the single-answer flag is decided from the coerced fractions as they
    are, while each emitted fraction attribute is the clamped one; for the
    fractions 150, 0, 0, 0, 0 the flag is true and the first attribute is
    100.0, and for 150, 100, 0, 0, 0 the flag is still true although the
    clamped values 100, 100 would tie. *)
Theorem single_decided_before_clamping (qrow : row) (index : Z)
        (category : string) :
  let q := question_multichoice_xml qrow index category in
  let coerced :=
    map (fun i => clean_float (row_get qrow (column "Fraction" i)) zero)
        choice_indices in
  findtext "single" q = Some (bool_text (is_single coerced))
  /\ map fraction_attr (answers q)
     = map (fun f => Some (PyFloat.repr (clamp f))) coerced
  /\ (let q1 := question_multichoice_xml
                  (fraction_row (VInt 150) (VInt 0) (VInt 0) (VInt 0) (VInt 0))
                  index category in
      findtext "single" q1 = Some "true"
      /\ map fraction_attr (answers q1)
         = [Some "100.0"; Some "0.0"; Some "0.0"; Some "0.0"; Some "0.0"])
  /\ (let r2 := fraction_row (VInt 150) (VInt 100) (VInt 0) (VInt 0) (VInt 0) in
      findtext "single" (question_multichoice_xml r2 index category)
      = Some "true"
      /\ is_single (map clamp (fractions r2)) = false).
Proof.
  cbv zeta. split; [reflexivity|]. split; [reflexivity|].
  split; split; vm_compute; reflexivity.
Qed.

(** C10: the sanitizer special-cases None only; any other value is turned
    into text and then loses its control characters (the result is not
    empty for a boolean, an integer or a well-formed float), so the NaN of a
    missing cell becomes the text nan, and that text is what the general
    feedback, the choice text and the choice feedback of the question node
    hold. *)
Theorem missing_text_cell_reads_nan (qrow : row) (index : Z)
        (category : string) :
  let q := question_multichoice_xml qrow index category in
  strip_control VNone = ""
  /\ (forall v, v <> VNone -> strip_control v = ctrl_sub (py_str v))
  /\ (forall b, strip_control (VBool b) <> "")
  /\ (forall z, strip_control (VInt z) <> "")
  /\ (forall f, valid_binary PyFloat.prec PyFloat.emax f = true ->
                strip_control (VFloat f) <> "")
  /\ strip_control (VFloat S754_nan) = "nan"
  /\ (row_get qrow "GeneralFeedback" = VFloat S754_nan ->
      find_inner_text "generalfeedback" q = Some "nan")
  /\ (forall i a,
         In i choice_indices ->
         nth_error (answers q) (Z.to_nat (i - 1)) = Some a ->
         (row_get qrow (column "Choice" i) = VFloat S754_nan ->
          findtext "text" a = Some "nan")
         /\ (row_get qrow (column "ChoiceFeedback" i) = VFloat S754_nan ->
             feedback_text a = Some "nan")).
Proof.
  cbv zeta. split; [reflexivity|]. split; [now intros []|].
  split; [now intros []|]. split.
  { intros z. change (strip_control (VInt z)) with (ctrl_sub (py_str (VInt z))).
    rewrite (int_text_clean z). unfold py_str, NilZero.string_of_int.
    destruct (Z.to_int z) as [d|d]; [|discriminate].
    destruct d; discriminate. }
  split; [exact float_text_not_empty|].
  split; [reflexivity|]. split.
  - intros H.
    change (find_inner_text "generalfeedback"
              (question_multichoice_xml qrow index category))
      with (Some (convert_markup_to_html
                    (VStr (strip_control (row_get qrow "GeneralFeedback"))))).
    now rewrite H.
  - intros i a Hi Ha. rewrite (nth_answer _ _ _ _ _ Hi Ha). split; intros H.
    + change (findtext "text" (answer_node qrow i))
        with (Some (convert_markup_to_html
                      (VStr (strip_control (row_get qrow (column "Choice" i)))))).
      now rewrite H.
    + change (feedback_text (answer_node qrow i))
        with (Some (convert_markup_to_html
                      (VStr (strip_control
                               (row_get qrow (column "ChoiceFeedback" i)))))).
      now rewrite H.
Qed.

Lemma missing_text_cell_reads_nan_witness :
  row_get [("GeneralFeedback", VFloat S754_nan)] "GeneralFeedback"
  = VFloat S754_nan
  /\ find_inner_text "generalfeedback"
       (question_multichoice_xml [("GeneralFeedback", VFloat S754_nan)] 0 "Math")
     = Some "nan".
Proof.
  split; [reflexivity|].
  pose proof (missing_text_cell_reads_nan
                [("GeneralFeedback", VFloat S754_nan)] 0 "Math") as H.
  cbv zeta in H. apply H. reflexivity.
Defined.

(** ** The clamp *)
Section Clamp.

Local Open Scope Z_scope.

Lemma digits2_bound (m : positive) : Zpos m < 2 ^ Zpos (digits2_pos m).
Proof.
  induction m as [m IH|m IH|]; cbn [digits2_pos];
    rewrite ?Pos2Z.inj_succ, ?Z.pow_succ_r by lia; lia.
Qed.

Lemma valid_mantissa_bound (s : bool) (m : positive) (e : Z) :
  valid_binary PyFloat.prec PyFloat.emax (S754_finite s m e) = true ->
  Zpos m < 2 ^ 53.
Proof.
  unfold valid_binary, bounded, canonical_mantissa, fexp, emin,
    PyFloat.prec, PyFloat.emax.
  intros H. apply andb_true_iff in H as [H _]. apply Z.eqb_eq in H.
  pose proof (digits2_bound m) as Hb.
  assert (Hd : Zpos (digits2_pos m) <= 53) by lia.
  eapply Z.lt_le_trans; [exact Hb|].
  apply Z.pow_le_mono_r; lia.
Qed.

(** A finite float that compares below 100.0 in magnitude is at most 100. *)
Lemma magnitude_below_hundred (m : positive) (e : Z) :
  Zpos m < 2 ^ 53 ->
  e < -46 \/ e = -46 /\ Zpos m < 7036874417766400 ->
  (PyFloat.magnitude m e <= 100)%Q.
Proof.
  intros Hm [He|[-> Hlt]]; unfold PyFloat.magnitude.
  - apply Qle_trans with (inject_Z (2 ^ 53) * 2 ^ (-47))%Q.
    + apply Qmult_le_compat_nonneg.
      * split; [now apply (Qle_bool_iff 0) | rewrite <- Zle_Qle; lia].
      * split; [apply Qpower_0_le; discriminate|].
        apply Qpower_le_compat_l; [lia | discriminate].
    + apply Qle_bool_iff. reflexivity.
  - apply Qle_trans with (inject_Z 7036874417766400 * 2 ^ (-46))%Q.
    + apply Qmult_le_compat_r; [rewrite <- Zle_Qle; lia|].
      apply Qpower_0_le. discriminate.
    + apply Qle_bool_iff. reflexivity.
Qed.

Lemma ltb_positive (m M : positive) (e E : Z) :
  SFltb (S754_finite false m e) (S754_finite false M E) = true ->
  e < E \/ e = E /\ Zpos m < Zpos M.
Proof.
  unfold SFltb, SFcompare.
  change (Pos.compare_cont Eq m M) with (Pos.compare m M).
  destruct (Z.compare_spec e E); try discriminate; [|lia].
  destruct (Pos.compare_spec m M); try discriminate. lia.
Qed.

Lemma ltb_negative (m M : positive) (e E : Z) :
  SFltb (S754_finite true M E) (S754_finite true m e) = true ->
  e < E \/ e = E /\ Zpos m < Zpos M.
Proof.
  unfold SFltb, SFcompare.
  change (Pos.compare_cont Eq M m) with (Pos.compare M m).
  destruct (Z.compare_spec E e); try discriminate; [|lia].
  destruct (Pos.compare_spec M m); try discriminate. lia.
Qed.

(** The clamped fraction is zero or finite, and at most 100 in magnitude. *)
Lemma clamp_range (f : spec_float) :
  valid_binary PyFloat.prec PyFloat.emax f = true ->
  (abs_value (clamp f) <= 100)%Q
  /\ PyFloat.is_nan (clamp f) = false
  /\ PyFloat.is_inf (clamp f) = false.
Proof.
  intros Hv.
  destruct f as [[|]|[|]| |s m e];
    try (repeat split; apply Qle_bool_iff; reflexivity).
  pose proof (valid_mantissa_bound _ _ _ Hv) as Hm.
  unfold clamp, py_max2, py_min2, PyFloat.gt, PyFloat.lt.
  destruct (SFltb (S754_finite s m e) hundred) eqn:E1.
  - destruct (SFltb minus_hundred (S754_finite s m e)) eqn:E2;
      [|repeat split; apply Qle_bool_iff; reflexivity].
    repeat split. cbn [abs_value].
    apply magnitude_below_hundred; [exact Hm|].
    destruct s.
    + exact (ltb_negative m 7036874417766400 e (-46) E2).
    + exact (ltb_positive m 7036874417766400 e (-46) E1).
  - change (SFltb minus_hundred hundred) with true. cbv iota.
    repeat split; apply Qle_bool_iff; reflexivity.
Qed.






End Clamp.

(** ** Fractions *)

Lemma skip_while_split (p : ascii -> bool) (s : string) :
  exists a, s = a ++ skip_while p s /\ PyStr.all p a = true.
Proof.
  induction s as [|c s [a [Ha Hp]]]; [now exists ""|]. simpl.
  destruct (p c) eqn:E; [|now exists ""].
  exists (String c a). simpl. now rewrite E, Hp, <- Ha.
Qed.

Lemma unsigned_decimal_not_scientific (s : string) :
  unsigned_decimal s = true -> scientific s = false.
Proof.
  unfold unsigned_decimal, scientific. destruct s as [|d s]; [discriminate|].
  intros H. apply andb_true_iff in H as [_ H].
  destruct (skip_while_split PyStr.isdigit (String d s)) as [a [Ha Hp]].
  destruct (skip_while PyStr.isdigit (String d s)) as [|p [|d' r]];
    try discriminate.
  apply andb_true_iff in H as [H Hr]. apply andb_true_iff in H as [Hpt Hd].
  apply Ascii.eqb_eq in Hpt. subst p.
  rewrite Ha, contains_append. cbn [PyStr.contains].
  rewrite (all_contains PyStr.isdigit "e" a eq_refl Hp).
  rewrite (all_contains PyStr.isdigit "e" r eq_refl Hr).
  destruct (Ascii.eqb_spec d' "e") as [->|]; [discriminate Hd | reflexivity].
Qed.

Lemma plain_decimal_not_scientific (s : string) :
  plain_decimal s = true -> scientific s = false.
Proof.
  destruct s as [|c s]; [discriminate|].
  destruct (Ascii.eqb_spec c "-") as [->|Hc].
  - change (plain_decimal (String "-" s)) with (unsigned_decimal s).
    intros H. apply unsigned_decimal_not_scientific in H.
    unfold scientific in *. cbn [PyStr.contains]. exact H.
  - assert (E : plain_decimal (String c s) = unsigned_decimal (String c s)).
    { unfold plain_decimal.
      destruct c as [[|] [|] [|] [|] [|] [|] [|] [|]]; try reflexivity.
      now elim Hc. }
    rewrite E. apply unsigned_decimal_not_scientific.
Qed.

(** C1, as stated, fails: a fraction of 0.00001, which lies in the clamped
    range, is emitted in scientific notation. *)
Lemma tiny_fraction_in_scientific_notation :
  let small := PyFloat.of_decimal false 1 (-5) in
  let qrow := fraction_row (VFloat small) (VInt 100) (VInt 0) (VInt 0) (VInt 0) in
  clean_float (VStr "0.00001") zero = small
  /\ clamp small = small
  /\ (abs_value (clamp small) <= 100)%Q
  /\ map fraction_attr (answers (question_multichoice_xml qrow 0 "Math"))
     = [Some "1e-05"; Some "100.0"; Some "0.0"; Some "0.0"; Some "0.0"]
  /\ scientific "1e-05" = true
  /\ plain_decimal "1e-05" = false.
Proof.
  cbv zeta. split; [vm_compute; reflexivity|]. split; [vm_compute; reflexivity|].
  split; [apply Qle_bool_iff; vm_compute; reflexivity|].
  repeat split; vm_compute; reflexivity.
Qed.

(** C1, amended: for every row and every choice index i in 1..5 the fraction
    attribute of the answer node is the text Python gives the clamped
    fraction; the clamped value of a well-formed float is a number of
    magnitude at most 100; and the text is a plain decimal (an optional minus
    sign, digits, a point, digits), never scientific notation, whenever the
    clamped value is zero or at least 0.0001 in magnitude within the clamped
    range. *)
Theorem fraction_attribute_plain_from_a_ten_thousandth
        (qrow : row) (index : Z) (category : string) (i : Z) (a : element) :
  In i choice_indices ->
  nth_error (answers (question_multichoice_xml qrow index category))
            (Z.to_nat (i - 1)) = Some a ->
  let f := clean_float (row_get qrow (column "Fraction" i)) zero in
  let c := clamp f in
  fraction_attr a = Some (PyFloat.repr c)
  /\ (valid_binary PyFloat.prec PyFloat.emax f = true ->
      (abs_value c <= 100)%Q
      /\ PyFloat.is_nan c = false /\ PyFloat.is_inf c = false)
  /\ ((exists s, c = S754_zero s)
      \/ (1 # 10000 <= abs_value c)%Q /\ (abs_value c <= 100)%Q ->
      plain_decimal (PyFloat.repr c) = true
      /\ scientific (PyFloat.repr c) = false).
Proof.
  intros Hi Ha f c. rewrite (nth_answer _ _ _ _ _ Hi Ha).
  split; [reflexivity|]. split; [apply clamp_range|]. intros H.
  assert (Hp : plain_decimal (PyFloat.repr c) = true).
  { destruct H as [[s Hs]|[Hlo Hhi]].
    - rewrite Hs. now destruct s.
    - destruct c as [| | |s m e]; try (exfalso; revert Hlo; now compute).
      now apply repr_plain. }
  split; [exact Hp | now apply plain_decimal_not_scientific].
Qed.

Lemma fraction_attribute_plain_from_a_ten_thousandth_witness :
  plain_decimal
    (PyFloat.repr
       (clamp (clean_float
                 (row_get (fraction_row (VStr "33.3") (VInt 150) (VInt 0)
                                        (VInt 0) (VInt 0))
                          (column "Fraction" 1)) zero))) = true
  /\ scientific
       (PyFloat.repr
          (clamp (clean_float
                    (row_get (fraction_row (VStr "33.3") (VInt 150) (VInt 0)
                                           (VInt 0) (VInt 0))
                             (column "Fraction" 1)) zero))) = false.
Proof.
  refine (proj2 (proj2 (fraction_attribute_plain_from_a_ten_thousandth
                   (fraction_row (VStr "33.3") (VInt 150) (VInt 0)
                                 (VInt 0) (VInt 0))
                   0 "Math" 1
                   (answer_node (fraction_row (VStr "33.3") (VInt 150) (VInt 0)
                                              (VInt 0) (VInt 0)) 1)
                   _ _)) _).
  - left. reflexivity.
  - reflexivity.
  - right. split; apply Qle_bool_iff; vm_compute; reflexivity.
Defined.




(** ** The column normalizer *)
Section Normalizer.

Lemma lower_char_separator (c : ascii) :
  is_separator (lower_char c) = is_separator c.
Proof. destruct c as [[] [] [] [] [] [] [] []]; reflexivity. Qed.

Lemma lower_char_idem (c : ascii) : lower_char (lower_char c) = lower_char c.
Proof. destruct c as [[] [] [] [] [] [] [] []]; reflexivity. Qed.

Lemma space_is_separator (c : ascii) :
  PyStr.isspace c = true -> is_separator c = true.
Proof. intros H. unfold is_separator. now rewrite H. Qed.

Lemma bare_key_lstrip (s : string) : bare_key (PyStr.lstrip s) = bare_key s.
Proof.
  unfold bare_key.
  induction s as [|c r IH]; simpl; [reflexivity|].
  destruct (PyStr.isspace c) eqn:Hc; [|reflexivity].
  rewrite lower_char_separator, (space_is_separator c Hc). exact IH.
Qed.

Lemma bare_key_rstrip (s : string) : bare_key (PyStr.rstrip s) = bare_key s.
Proof.
  unfold bare_key.
  induction s as [|c r IH]; simpl; [reflexivity|].
  destruct (PyStr.rstrip r) as [|d r'] eqn:Hr.
  - simpl in IH. rewrite <- IH.
    destruct (PyStr.isspace c) eqn:Hc; simpl.
    + now rewrite lower_char_separator, (space_is_separator c Hc).
    + reflexivity.
  - simpl. simpl in IH. now rewrite IH.
Qed.

Lemma normalize_key_bare (s : string) : normalize_key (VStr s) = bare_key s.
Proof.
  unfold normalize_key, PyStr.strip. simpl.
  fold (bare_key (PyStr.rstrip (PyStr.lstrip s))).
  now rewrite bare_key_rstrip, bare_key_lstrip.
Qed.

Lemma bare_key_append (a b : string) :
  bare_key (a ++ b) = bare_key a ++ bare_key b.
Proof.
  unfold bare_key. induction a as [|c r IH]; simpl; [reflexivity|].
  destruct (is_separator (lower_char c)); simpl; now rewrite IH.
Qed.

Lemma bare_key_separators (sep : string) :
  PyStr.all is_separator sep = true -> bare_key sep = "".
Proof.
  unfold bare_key. induction sep as [|c r IH]; simpl; [reflexivity|].
  intros H. apply andb_prop in H. destruct H as [Hc Hr].
  rewrite lower_char_separator, Hc. now apply IH.
Qed.

Lemma bare_key_lower (s : string) : bare_key (str_lower s) = bare_key s.
Proof.
  unfold bare_key. induction s as [|c r IH]; simpl; [reflexivity|].
  rewrite lower_char_idem.
  destruct (is_separator (lower_char c)); simpl; now rewrite IH.
Qed.

Lemma bare_key_idem (s : string) : bare_key (bare_key s) = bare_key s.
Proof.
  unfold bare_key. induction s as [|c r IH]; simpl; [reflexivity|].
  destruct (is_separator (lower_char c)) eqn:Hc; simpl; [exact IH|].
  rewrite lower_char_idem, Hc. simpl. now rewrite IH.
Qed.

Lemma bare_key_shape (s : string) :
  PyStr.all (fun c => negb (is_separator c) && Ascii.eqb (lower_char c) c)
            (bare_key s) = true.
Proof.
  unfold bare_key. induction s as [|c r IH]; simpl; [reflexivity|].
  destruct (is_separator (lower_char c)) eqn:Hc; simpl; [exact IH|].
  now rewrite Hc, lower_char_idem, Ascii.eqb_refl, IH.
Qed.

End Normalizer.

(** X22: for a label whose code points are all below 256 (the texts of the
    model), the key does not depend on its separators or its case:
    separators put anywhere leave it unchanged, the key of a concatenation
    is the concatenation of the keys, a lowered label has the same key, and
    a key is its own key, free of separators and of capital letters. *)
Theorem key_ignores_separators_and_case (a sep b : string) :
  PyStr.all is_separator sep = true ->
  normalize_key (VStr (a ++ sep ++ b))
  = normalize_key (VStr a) ++ normalize_key (VStr b)
  /\ normalize_key (VStr (str_lower a)) = normalize_key (VStr a)
  /\ normalize_key (VStr (normalize_key (VStr a))) = normalize_key (VStr a)
  /\ PyStr.all (fun c => negb (is_separator c) && Ascii.eqb (lower_char c) c)
               (normalize_key (VStr a)) = true.
Proof.
  intros Hsep. rewrite !normalize_key_bare.
  repeat split.
  - now rewrite !bare_key_append, (bare_key_separators sep Hsep).
  - apply bare_key_lower.
  - apply bare_key_idem.
  - apply bare_key_shape.
Qed.

Lemma key_ignores_separators_and_case_witness :
  normalize_key (VStr (" Choice" ++ " _-" ++ "1 ")) = "choice1"
  /\ normalize_key (VStr "choice1") = "choice1".
Proof.
  pose proof (key_ignores_separators_and_case " Choice" " _-" "1 " eq_refl)
    as [H1 [_ [H3 _]]].
  split; [rewrite H1; reflexivity | reflexivity].
Defined.

Section Frames.

Context {S : Type}.

Lemma columns_of_key_rename (k : string) (df : frame S) :
  filter (fun kc => String.eqb (fst kc) k) (rename_columns df)
  = rename_columns (columns_of_key k df).
Proof.
  unfold rename_columns, columns_of_key.
  induction df as [|lc df IH]; simpl; [reflexivity|].
  destruct (String.eqb (normalize_key (VStr (fst lc))) k); simpl;
    now rewrite IH.
Qed.

Lemma select_rename (k : string) (df : frame S) :
  select k (rename_columns df)
  = match columns_of_key k df with
    | [] => Absent
    | [lc] => Column (snd lc)
    | _ => Frame
    end.
Proof.
  unfold select. rewrite columns_of_key_rename.
  destruct (columns_of_key k df) as [|lc [|lc' l]]; reflexivity.
Qed.

Lemma has_key_columns (k : string) (df : frame S) :
  has_key k df = negb (Nat.eqb (List.length (columns_of_key k df)) 0).
Proof.
  unfold has_key, columns_of_key.
  induction df as [|lc df IH]; simpl; [reflexivity|].
  destruct (String.eqb (normalize_key (VStr (fst lc))) k); simpl;
    [reflexivity | exact IH].
Qed.

Lemma build_frame_some (df : frame S) (canon : list (string * string))
      (f : frame S) :
  build_frame (out_of df canon) = Some f ->
  f = pretty_of df canon
  /\ forall kp, In kp canon ->
                (List.length (columns_of_key (fst kp) df) <= 1)%nat.
Proof.
  revert f. induction canon as [|kp canon IH]; simpl; intros f H.
  - inversion H. split; [reflexivity | intros ? []].
  - rewrite select_rename in H.
    destruct (columns_of_key (fst kp) df) as [|lc [|lc' l]] eqn:Hc.
    + destruct (IH f H) as [-> Hall]. split; [reflexivity|].
      intros kp' [<-|Hin]; [rewrite Hc; simpl; lia | now apply Hall].
    + destruct (build_frame (out_of df canon)) as [f'|] eqn:Hb;
        [|discriminate].
      inversion H; subst f. destruct (IH f' eq_refl) as [-> Hall].
      split; [reflexivity|].
      intros kp' [<-|Hin]; [rewrite Hc; simpl; lia | now apply Hall].
    + discriminate.
Qed.

Lemma build_frame_unambiguous (df : frame S) (canon : list (string * string)) :
  (forall kp, In kp canon ->
              (List.length (columns_of_key (fst kp) df) <= 1)%nat) ->
  build_frame (out_of df canon) = Some (pretty_of df canon).
Proof.
  induction canon as [|kp canon IH]; simpl; intros Hall; [reflexivity|].
  rewrite select_rename.
  assert (Hk := Hall kp (or_introl eq_refl)).
  rewrite IH by (intros; apply Hall; now right).
  destruct (columns_of_key (fst kp) df) as [|lc [|lc' l]]; simpl in *;
    [reflexivity | reflexivity | lia].
Qed.

Lemma build_frame_none (df : frame S) (canon : list (string * string)) :
  build_frame (out_of df canon) = None ->
  exists kp, In kp canon
             /\ (2 <= List.length (columns_of_key (fst kp) df))%nat.
Proof.
  induction canon as [|kp canon IH]; simpl; [discriminate|].
  rewrite select_rename.
  destruct (columns_of_key (fst kp) df) as [|lc [|lc' l]] eqn:Hc; intros H.
  - destruct (IH H) as [kp' [Hin Hl]]. exists kp'. auto.
  - destruct (build_frame (out_of df canon)) eqn:Hb; [discriminate|].
    destruct (IH eq_refl) as [kp' [Hin Hl]]. exists kp'. auto.
  - exists kp. split; [now left | rewrite Hc; simpl; lia].
Qed.

Lemma pretty_of_labels (df : frame S) (canon : list (string * string)) :
  (forall kp, In kp canon ->
              (List.length (columns_of_key (fst kp) df) <= 1)%nat) ->
  map fst (pretty_of df canon)
  = map snd (filter (fun kp => has_key (fst kp) df) canon).
Proof.
  induction canon as [|kp canon IH]; simpl; intros Hall; [reflexivity|].
  assert (Hk := Hall kp (or_introl eq_refl)).
  rewrite map_app, IH by (intros; apply Hall; now right).
  rewrite has_key_columns.
  destruct (columns_of_key (fst kp) df) as [|lc [|lc' l]]; simpl in *;
    [reflexivity | reflexivity | lia].
Qed.

Lemma in_pretty_of (df : frame S) (canon : list (string * string))
      (p : string) (col : S) :
  In (p, col) (pretty_of df canon)
  <-> exists k c, In (k, p) canon /\ In (c, col) (columns_of_key k df).
Proof.
  unfold pretty_of. rewrite in_flat_map. split.
  - intros [[k p'] [Hin Hm]]. simpl in Hm. apply in_map_iff in Hm.
    destruct Hm as [[c col'] [Heq Hc]]. simpl in Heq.
    inversion Heq; subst. exists k, c. auto.
  - intros [k [c [Hin Hc]]]. exists (k, p). split; [exact Hin|].
    simpl. apply in_map_iff. exists (c, col). auto.
Qed.

End Frames.

Section Canonical.

(** Every pretty name has its own key, and no key or name comes twice. *)
Lemma canonical_keys :
  Forall (fun kp => normalize_key (VStr (snd kp)) = fst kp) canonical.
Proof. repeat constructor. Qed.

Lemma distinct_nodup (l : list string) : distinct l = true -> NoDup l.
Proof.
  induction l as [|x r IH]; simpl; intros H; constructor.
  - apply andb_prop in H. destruct H as [H _].
    intros Hin. unfold mem in H.
    assert (existsb (String.eqb x) r = true)
      by (apply existsb_exists; exists x; split;
          [exact Hin | apply String.eqb_refl]).
    rewrite H0 in H. discriminate.
  - apply andb_prop in H. now apply IH.
Qed.

Lemma canonical_keys_nodup : NoDup (map fst canonical).
Proof. apply distinct_nodup. reflexivity. Qed.

Lemma canonical_names_nodup : NoDup (map snd canonical).
Proof. apply distinct_nodup. reflexivity. Qed.

Lemma required_canonical (c : string) :
  In c required -> In (normalize_key (VStr c), c) canonical.
Proof.
  intros H. cbv [required choice_indices map app] in H.
  repeat (destruct H as [<-|H]; [vm_compute; tauto|]).
  destruct H.
Qed.

Lemma mem_in (x : string) (l : list string) : mem x l = true <-> In x l.
Proof.
  unfold mem. rewrite existsb_exists. split.
  - intros [y [Hin Hy]]. apply String.eqb_eq in Hy. now subst.
  - intros Hin. exists x. split; [exact Hin | apply String.eqb_refl].
Qed.

Lemma mem_filtered_names (h : string * string -> bool)
      (canon : list (string * string)) (k c : string) :
  NoDup (map snd canon) -> In (k, c) canon ->
  mem c (map snd (filter h canon)) = h (k, c).
Proof.
  induction canon as [|kp canon IH]; simpl; intros Hnd Hin; [destruct Hin|].
  inversion Hnd as [|? ? Hnot Hnd']; subst.
  destruct Hin as [->|Hin].
  - destruct (h (k, c)) eqn:Hh; simpl.
    + unfold mem. simpl. now rewrite String.eqb_refl.
    + destruct (mem c (map snd (filter h canon))) eqn:Hm; [|reflexivity].
      exfalso. apply Hnot. apply mem_in in Hm. apply in_map_iff in Hm.
      destruct Hm as [kp [Hs Hf]]. apply filter_In in Hf.
      simpl. rewrite <- Hs. apply in_map. tauto.
  - assert (Hne : snd kp <> c).
    { intros Heq. apply Hnot. rewrite Heq.
      change c with (snd (k, c)). now apply in_map. }
    destruct (h kp); simpl.
    + unfold mem. simpl.
      destruct (String.eqb c (snd kp)) eqn:He;
        [apply String.eqb_eq in He; congruence|].
      now apply IH.
    + now apply IH.
Qed.

End Canonical.

Section NormalizeColumns.

Context {S : Type}.

Lemma normalize_columns_unfold (df : frame S) :
  normalize_columns df
  = match build_frame (out_of df canonical) with
    | None => FrameError
    | Some new_df =>
        match filter (fun c => negb (mem c (map fst new_df))) required with
        | [] => Returned new_df
        | missing => ValueError (missing_message missing)
        end
    end.
Proof.
  unfold normalize_columns, out_of, missing_message.
  destruct (build_frame _); [|reflexivity].
  destruct (filter _ required); reflexivity.
Qed.

Lemma unambiguous_pairs (df : frame S) :
  (forall k, In k (map fst canonical) ->
             (List.length (columns_of_key k df) <= 1)%nat) ->
  forall kp, In kp canonical ->
             (List.length (columns_of_key (fst kp) df) <= 1)%nat.
Proof. intros H kp Hin. apply H. now apply in_map. Qed.

Lemma missing_filter (df : frame S) :
  (forall k, In k (map fst canonical) ->
             (List.length (columns_of_key k df) <= 1)%nat) ->
  filter (fun c => negb (mem c (map fst (pretty_of df canonical)))) required
  = filter (fun c => negb (has_key (normalize_key (VStr c)) df)) required.
Proof.
  intros Hall. apply filter_ext_in. intros c Hc.
  rewrite pretty_of_labels by now apply unambiguous_pairs.
  rewrite (mem_filtered_names (fun kp => has_key (fst kp) df) canonical
             (normalize_key (VStr c)) c canonical_names_nodup
             (required_canonical c Hc)).
  reflexivity.
Qed.

Lemma closed_form (df : frame S) :
  (forall k, In k (map fst canonical) ->
             (List.length (columns_of_key k df) <= 1)%nat) ->
  normalize_columns df
  = match filter (fun c => negb (has_key (normalize_key (VStr c)) df))
                 required with
    | [] => Returned (pretty_columns df)
    | missing => ValueError (missing_message missing)
    end.
Proof.
  intros Hall. rewrite normalize_columns_unfold.
  rewrite build_frame_unambiguous by now apply unambiguous_pairs.
  rewrite missing_filter by exact Hall. reflexivity.
Qed.

Lemma returned_unambiguous (df df' : frame S) :
  normalize_columns df = Returned df' ->
  df' = pretty_columns df
  /\ (forall k, In k (map fst canonical) ->
                (List.length (columns_of_key k df) <= 1)%nat).
Proof.
  rewrite normalize_columns_unfold.
  destruct (build_frame (out_of df canonical)) as [f|] eqn:Hb; [|discriminate].
  destruct (build_frame_some df canonical f Hb) as [-> Hall].
  destruct (filter _ required); [|discriminate].
  intros H. inversion H. split; [reflexivity|].
  intros k Hk. apply in_map_iff in Hk. destruct Hk as [kp [<- Hin]].
  now apply Hall.
Qed.

Lemma columns_of_key_app (k : string) (a b : frame S) :
  columns_of_key k (a ++ b)%list
  = (columns_of_key k a ++ columns_of_key k b)%list.
Proof. apply filter_app. Qed.

Lemma columns_of_key_named (k p : string) (l : frame S) :
  columns_of_key k (map (fun lc => (p, snd lc)) l)
  = if String.eqb (normalize_key (VStr p)) k
    then map (fun lc => (p, snd lc)) l else [].
Proof.
  unfold columns_of_key.
  induction l as [|lc l IH]; simpl.
  - now destruct (String.eqb _ k).
  - rewrite IH. now destruct (String.eqb _ k).
Qed.

Lemma columns_of_key_pretty_absent (df : frame S)
      (canon : list (string * string)) (k : string) :
  Forall (fun kp => normalize_key (VStr (snd kp)) = fst kp) canon ->
  ~ In k (map fst canon) ->
  columns_of_key k (pretty_of df canon) = [].
Proof.
  induction canon as [|kp canon IH]; simpl; intros Hk Hnot; [reflexivity|].
  inversion Hk as [|? ? Hkp Hk']; subst.
  rewrite columns_of_key_app, columns_of_key_named, Hkp.
  destruct (String.eqb (fst kp) k) eqn:He.
  - apply String.eqb_eq in He. exfalso. apply Hnot. now left.
  - simpl. apply IH; [exact Hk' | intros Hin; apply Hnot; now right].
Qed.

Lemma columns_of_key_pretty (df : frame S) (canon : list (string * string))
      (k p : string) :
  Forall (fun kp => normalize_key (VStr (snd kp)) = fst kp) canon ->
  NoDup (map fst canon) ->
  In (k, p) canon ->
  columns_of_key k (pretty_of df canon)
  = map (fun lc => (p, snd lc)) (columns_of_key k df).
Proof.
  induction canon as [|kp canon IH]; simpl; intros Hk Hnd Hin;
    [destruct Hin|].
  inversion Hk as [|? ? Hkp Hk']; subst.
  inversion Hnd as [|? ? Hnot Hnd']; subst.
  rewrite columns_of_key_app, columns_of_key_named, Hkp.
  destruct Hin as [->|Hin]; simpl.
  - rewrite String.eqb_refl.
    rewrite (columns_of_key_pretty_absent df canon k Hk' Hnot).
    apply app_nil_r.
  - destruct (String.eqb (fst kp) k) eqn:He.
    + apply String.eqb_eq in He. exfalso. apply Hnot. rewrite He.
      change k with (fst (k, p)). now apply in_map.
    + simpl. now apply IH.
Qed.

Lemma flat_map_ext_in {A B : Type} (f g : A -> list B) (l : list A) :
  (forall a, In a l -> f a = g a) -> flat_map f l = flat_map g l.
Proof.
  induction l as [|a l IH]; simpl; intros H; [reflexivity|].
  rewrite (H a (or_introl eq_refl)), IH; [reflexivity|].
  intros; apply H; now right.
Qed.

Lemma pretty_columns_again (df : frame S) :
  pretty_columns (pretty_columns df) = pretty_columns df.
Proof.
  change (pretty_of (pretty_columns df) canonical = pretty_of df canonical).
  unfold pretty_of.
  apply flat_map_ext_in. intros [k p] Hin. simpl.
  unfold pretty_columns.
  rewrite (columns_of_key_pretty df canonical k p canonical_keys
             canonical_keys_nodup Hin).
  rewrite map_map. reflexivity.
Qed.

Lemma pretty_columns_keys (df : frame S) (k : string) :
  In k (map fst canonical) ->
  List.length (columns_of_key k (pretty_columns df))
  = List.length (columns_of_key k df).
Proof.
  intros Hk. apply in_map_iff in Hk. destruct Hk as [[k' p] [Hf Hin]].
  simpl in Hf. subst k'. unfold pretty_columns.
  rewrite (columns_of_key_pretty df canonical k p canonical_keys
             canonical_keys_nodup Hin).
  apply length_map.
Qed.

Lemma filter_filter_implied {A : Type} (f g : A -> bool) (l : list A) :
  (forall x, f x = true -> g x = true) ->
  filter f (filter g l) = filter f l.
Proof.
  intros H. induction l as [|x l IH]; simpl; [reflexivity|].
  destruct (g x) eqn:Hg; simpl.
  - now rewrite IH.
  - destruct (f x) eqn:Hf; [|exact IH].
    apply H in Hf. congruence.
Qed.

Lemma columns_of_key_known (k : string) (df : frame S) :
  In k (map fst canonical) ->
  columns_of_key k (filter known df) = columns_of_key k df.
Proof.
  intros Hk. unfold columns_of_key. apply filter_filter_implied.
  intros lc He. apply String.eqb_eq in He. unfold known.
  apply mem_in. now rewrite He.
Qed.

Lemma filter_permutation {A : Type} (f : A -> bool) (l l' : list A) :
  Permutation l l' -> Permutation (filter f l) (filter f l').
Proof.
  induction 1 as [|x l l' _ IH|x y l|l l' l'' _ IH1 _ IH2]; simpl.
  - constructor.
  - destruct (f x); [now constructor | exact IH].
  - destruct (f x), (f y); try reflexivity; [apply perm_swap].
  - now transitivity (filter f l').
Qed.

Lemma select_permutation (k : string) (df df' : frame S) :
  Permutation (columns_of_key k df) (columns_of_key k df') ->
  select k (rename_columns df) = select k (rename_columns df').
Proof.
  intros HP. rewrite !select_rename.
  assert (Hl := Permutation_length HP).
  destruct (columns_of_key k df) as [|a [|a' l]];
    destruct (columns_of_key k df') as [|b [|b' l']];
    try discriminate; try reflexivity.
  apply Permutation_length_1 in HP. now subst.
Qed.

End NormalizeColumns.

(** X23: without two columns for one key, the normalizer either returns the
    columns under their pretty names in the order of the canonical table, or
    raises with the list of the required columns that no label spells. *)
Theorem normalize_columns_closed_form {S : Type} (df : frame S) :
  (forall k, In k (map fst canonical) ->
             (List.length (columns_of_key k df) <= 1)%nat) ->
  normalize_columns df
  = match filter (fun c => negb (has_key (normalize_key (VStr c)) df))
                 required with
    | [] => Returned (pretty_columns df)
    | missing =>
        ValueError ("Your Excel is missing required columns: "
                      ++ PyStr.join ", " missing)
    end.
Proof. exact (closed_form df). Qed.

Lemma empty_frame_unambiguous {S : Type} :
  forall k, In k (map fst canonical) ->
            (List.length (columns_of_key k (@nil (string * S))) <= 1)%nat.
Proof. intros k _. simpl. lia. Qed.

Lemma normalize_columns_closed_form_witness :
  normalize_columns (@nil (string * list value))
  = ValueError
      ("Your Excel is missing required columns: Question, Choice1, Choice2, "
       ++ "Choice3, Choice4, Choice5, Fraction1, Fraction2, Fraction3, "
       ++ "Fraction4, Fraction5").
Proof.
  exact (normalize_columns_closed_form (@nil (string * list value))
           empty_frame_unambiguous).
Defined.

(** X24: the frame the normalizer returns. *)
Theorem normalized_frame_shape {S : Type} (df df' : frame S) :
  normalize_columns df = Returned df' ->
  map fst df' = map snd (filter (fun kp => has_key (fst kp) df) canonical)
  /\ (forall c, In c required -> In c (map fst df'))
  /\ (forall p col,
        In (p, col) df'
        <-> exists k c, In (k, p) canonical
                        /\ columns_of_key k df = [(c, col)]).
Proof.
  intros H. destruct (returned_unambiguous df df' H) as [-> Hall].
  split; [|split].
  - apply pretty_of_labels. now apply unambiguous_pairs.
  - intros c Hc. rewrite (closed_form df Hall) in H.
    destruct (filter _ required) as [|m ms] eqn:Hf; [|discriminate].
    unfold pretty_columns.
    rewrite pretty_of_labels by now apply unambiguous_pairs.
    apply mem_in.
    rewrite (mem_filtered_names (fun kp => has_key (fst kp) df) canonical
               (normalize_key (VStr c)) c canonical_names_nodup
               (required_canonical c Hc)).
    simpl. destruct (has_key (normalize_key (VStr c)) df) eqn:Hk;
      [reflexivity|].
    assert (Hin : In c (filter (fun c => negb (has_key (normalize_key (VStr c)) df))
                               required))
      by (apply filter_In; split; [exact Hc | now rewrite Hk]).
    rewrite Hf in Hin. destruct Hin.
  - intros p col. unfold pretty_columns. rewrite in_pretty_of.
    split; intros [k [c [Hin Hc]]]; exists k, c; split; try exact Hin.
    + assert (Hl := Hall k (in_map fst _ _ Hin)). simpl in Hl.
      destruct (columns_of_key k df) as [|a [|a' l]]; simpl in *;
        [destruct Hc | | lia].
      destruct Hc as [->|[]]. reflexivity.
    + rewrite Hc. now left.
Qed.

Lemma normalized_frame_shape_witness :
  normalize_columns sloppy_sheet = Returned normalized_sheet
  /\ In "Fraction3" (map fst normalized_sheet)
  /\ (In ("Choice2", [VStr "b"]) normalized_sheet
      <-> exists k c, In (k, "Choice2") canonical
                      /\ columns_of_key k sloppy_sheet = [(c, [VStr "b"])]).
Proof.
  assert (H : normalize_columns sloppy_sheet = Returned normalized_sheet)
    by reflexivity.
  destruct (normalized_frame_shape sloppy_sheet normalized_sheet H)
    as [_ [Hreq Hcol]].
  split; [exact H | split].
  - apply Hreq. vm_compute. tauto.
  - apply Hcol.
Defined.

(** X25: what the normalizer returns, it returns again. *)
Theorem normalize_columns_idempotent {S : Type} (df df' : frame S) :
  normalize_columns df = Returned df' ->
  normalize_columns df' = Returned df'.
Proof.
  intros H. destruct (returned_unambiguous df df' H) as [-> Hall].
  assert (Hall' : forall k, In k (map fst canonical) ->
             (List.length (columns_of_key k (pretty_columns df)) <= 1)%nat).
  { intros k Hk. rewrite pretty_columns_keys by exact Hk. now apply Hall. }
  rewrite (closed_form df Hall) in H.
  rewrite (closed_form _ Hall').
  assert (Hf : filter (fun c => negb (has_key (normalize_key (VStr c))
                                              (pretty_columns df))) required
               = filter (fun c => negb (has_key (normalize_key (VStr c)) df))
                        required).
  { apply filter_ext_in. intros c Hc. rewrite !has_key_columns.
    rewrite pretty_columns_keys; [reflexivity|].
    change (normalize_key (VStr c)) with (fst (normalize_key (VStr c), c)).
    apply in_map. now apply required_canonical. }
  rewrite Hf. destruct (filter _ required); [|discriminate].
  now rewrite pretty_columns_again.
Qed.

Lemma normalize_columns_idempotent_witness :
  normalize_columns sloppy_sheet = Returned normalized_sheet
  /\ normalize_columns normalized_sheet = Returned normalized_sheet.
Proof.
  assert (H : normalize_columns sloppy_sheet = Returned normalized_sheet)
    by reflexivity.
  split; [exact H|].
  exact (normalize_columns_idempotent sloppy_sheet normalized_sheet H).
Defined.

(** X26: the order of the columns and the columns with other labels do not
    matter. *)
Theorem normalize_columns_known_columns {S : Type} (df df' : frame S) :
  Permutation (filter known df) (filter known df') ->
  normalize_columns df = normalize_columns df'.
Proof.
  intros HP.
  assert (Ho : out_of df canonical = out_of df' canonical).
  { unfold out_of. apply map_ext_in. intros kp Hin. f_equal.
    apply select_permutation.
    assert (Hk : In (fst kp) (map fst canonical)) by now apply in_map.
    rewrite <- (columns_of_key_known (fst kp) df Hk).
    rewrite <- (columns_of_key_known (fst kp) df' Hk).
    now apply filter_permutation. }
  rewrite !normalize_columns_unfold. now rewrite Ho.
Qed.

Lemma normalize_columns_known_columns_witness :
  normalize_columns (rev sloppy_sheet) = normalize_columns sloppy_sheet.
Proof.
  apply normalize_columns_known_columns.
  change (filter known (rev sloppy_sheet))
    with (rev (filter known sloppy_sheet)).
  apply Permutation_sym, Permutation_rev.
Defined.

(** ** The field coercers *)
Section Coercers.

Lemma strip_fixed (s : string) :
  PyStr.all (fun c => negb (PyStr.isspace c)) s = true -> PyStr.strip s = s.
Proof.
  intros H. unfold PyStr.strip.
  assert (Hl : PyStr.lstrip s = s).
  { destruct s as [|c r]; [reflexivity|]. simpl in *.
    apply andb_prop in H. destruct H as [Hc _].
    now destruct (PyStr.isspace c). }
  rewrite Hl. clear Hl.
  induction s as [|c r IH]; [reflexivity|]. simpl in *.
  apply andb_prop in H. destruct H as [Hc Hr]. rewrite (IH Hr).
  destruct r; [|reflexivity].
  now destruct (PyStr.isspace c).
Qed.

Lemma lowercase_fixed (s : string) :
  PyStr.all is_lowered s = true -> PyFloat.lowercase s = s.
Proof.
  induction s as [|c r IH]; [reflexivity|]. simpl. intros H.
  apply andb_prop in H. destruct H as [Hc Hr].
  apply Ascii.eqb_eq in Hc. now rewrite Hc, IH.
Qed.

Lemma repr_char_plain (c : ascii) :
  repr_char c = true -> negb (PyStr.isspace c) && is_lowered c = true.
Proof. destruct c as [[] [] [] [] [] [] [] []]; intros H; try discriminate H; reflexivity. Qed.

Lemma int_char_plain (c : ascii) :
  int_char c = true -> negb (PyStr.isspace c) && is_lowered c = true.
Proof. destruct c as [[] [] [] [] [] [] [] []]; intros H; try discriminate H; reflexivity. Qed.

Lemma digit_repr_char (c : ascii) : PyStr.isdigit c = true -> repr_char c = true.
Proof. intros H. unfold repr_char. now rewrite H. Qed.

Lemma plain_text_fixed (p : ascii -> bool) (s : string) :
  (forall c, p c = true -> negb (PyStr.isspace c) && is_lowered c = true) ->
  PyStr.all p s = true ->
  PyFloat.lowercase (PyStr.strip s) = s.
Proof.
  intros Hp Hs.
  rewrite strip_fixed, lowercase_fixed; [reflexivity| |].
  - apply (all_impl p); [|exact Hs].
    intros c Hc. apply Hp in Hc. now apply andb_prop in Hc.
  - apply (all_impl p); [|exact Hs].
    intros c Hc. apply Hp in Hc. now apply andb_prop in Hc.
Qed.

(** *** The text of a float *)

Lemma digits_of_digits (c : Z) :
  PyStr.all PyStr.isdigit (PyFloat.digits_of c) = true.
Proof. apply nilzero_uint_all_digits. Qed.

Lemma exponent_text_chars (ex : Z) :
  PyStr.all repr_char (PyFloat.exponent_text ex) = true.
Proof.
  unfold PyFloat.exponent_text.
  assert (Hd : PyStr.all repr_char (PyFloat.digits_of (Z.abs ex)) = true)
    by (apply (all_impl PyStr.isdigit);
        [exact digit_repr_char | apply digits_of_digits]).
  rewrite !all_append.
  destruct (ex <? 0)%Z, (length (PyFloat.digits_of (Z.abs ex)) <? 2)%nat;
    rewrite ?all_append, Hd; reflexivity.
Qed.

Lemma format_repr_chars (digits : string) (decpt : Z) :
  PyStr.all PyStr.isdigit digits = true ->
  PyStr.all repr_char (PyFloat.format_repr digits decpt) = true.
Proof.
  intros Hd.
  assert (Hr : PyStr.all repr_char digits = true)
    by (apply (all_impl PyStr.isdigit); [exact digit_repr_char | exact Hd]).
  assert (Hz : forall n, PyStr.all repr_char (PyFloat.zeros n) = true)
    by (intros n; apply (all_impl PyStr.isdigit);
        [exact digit_repr_char | apply zeros_digits]).
  unfold PyFloat.format_repr.
  destruct ((decpt <=? -4)%Z || (16 <? decpt)%Z).
  - destruct digits as [|d rest]; [reflexivity|].
    simpl in Hr. apply andb_prop in Hr. destruct Hr as [Hd1 Hrest].
    destruct rest as [|d2 rest].
    + rewrite all_append, exponent_text_chars. simpl. now rewrite Hd1.
    + change (String d ("." ++ String d2 rest))
        with (String d (String "." (String d2 rest))).
      rewrite all_append, exponent_text_chars.
      cbn [PyStr.all]. cbn [PyStr.all] in Hrest.
      rewrite Hd1, Hrest. reflexivity.
  - destruct (decpt <=? 0)%Z.
    + rewrite !all_append, Hz, Hr. reflexivity.
    + destruct (Z.of_nat (length digits) <=? decpt)%Z.
      * rewrite !all_append, Hz, Hr. reflexivity.
      * rewrite !all_append, (take_all _ _ _ Hr), (drop_all _ _ _ Hr).
        reflexivity.
Qed.

Lemma shortest_digits_digits (m : positive) (e : Z) :
  PyStr.all PyStr.isdigit (fst (PyFloat.shortest_digits m e)) = true.
Proof.
  unfold PyFloat.shortest_digits.
  destruct (PyFloat.shortest_from 17 1 m e _) as [c n]. simpl.
  apply rstrip_zeros_digits, digits_of_digits.
Qed.

Lemma repr_chars (f : spec_float) :
  PyStr.all repr_char (PyFloat.repr f) = true.
Proof.
  destruct f as [[|]|[|]| |s m e]; try reflexivity.
  unfold PyFloat.repr.
  pose proof (shortest_digits_digits m e) as Hd.
  destruct (PyFloat.shortest_digits m e) as [digits decpt]. simpl in Hd.
  rewrite all_append, (format_repr_chars digits decpt Hd).
  now destruct s.
Qed.

Lemma take_drop_length (n : nat) (s : string) :
  (length (PyStr.take n s) + length (PyStr.drop n s))%nat = length s.
Proof.
  revert n. induction s as [|c s IH]; intros [|n]; simpl; try reflexivity.
  now rewrite IH.
Qed.

Lemma format_repr_length (digits : string) (decpt : Z) :
  digits <> "" -> (2 <= length (PyFloat.format_repr digits decpt))%nat.
Proof.
  intros Hn. destruct digits as [|d rest]; [congruence|].
  unfold PyFloat.format_repr.
  destruct ((decpt <=? -4)%Z || (16 <? decpt)%Z).
  - destruct rest; [|simpl; lia].
    unfold PyFloat.exponent_text. simpl. lia.
  - destruct (decpt <=? 0)%Z; [simpl; lia|].
    destruct (Z.of_nat (length (String d rest)) <=? decpt)%Z.
    + rewrite !length_append. simpl. lia.
    + rewrite !length_append.
      pose proof (take_drop_length (Z.to_nat decpt) (String d rest)) as H.
      simpl in *. lia.
Qed.

Lemma repr_length (f : spec_float) :
  valid_binary PyFloat.prec PyFloat.emax f = true ->
  (2 <= length (PyFloat.repr f))%nat.
Proof.
  intros Hv.
  destruct f as [[|]|[|]| |s m e]; try (simpl; lia).
  unfold PyFloat.repr, PyFloat.shortest_digits.
  set (x := PyFloat.magnitude m e).
  set (k := PyFloat.decimal_exponent 640 (-324) x).
  assert (Hk : (10 ^ (k - 1) <= x)%Q)
    by (apply decimal_exponent_reached; exact (valid_magnitude_floor s m e Hv)).
  pose proof (shortest_from_spec 17 1 m e k) as Hs. cbn zeta in Hs.
  fold x in Hs.
  destruct (PyFloat.shortest_from 17 1 m e k) as [c n]. cbn [fst snd] in Hs.
  destruct Hs as [Hn Hc].
  assert (Hpos : (1 <= c)%Z)
    by (pose proof (scaled_floor_positive x n k Hk (proj1 Hn)); lia).
  destruct (digits_of_positive c Hpos) as [Hd Hne].
  rewrite length_append.
  pose proof (format_repr_length _ (if (c =? 10 ^ n)%Z then (k + 1)%Z else k) Hne).
  lia.
Qed.

Lemma flag_word_length (p : ascii -> bool) (s : string) :
  (forall c, p c = true -> repr_char c = true \/ int_char c = true) ->
  PyStr.all p s = true -> In s flag_words -> length s = 1%nat.
Proof.
  intros Hp Hs Hin.
  assert (Hq : PyStr.all (fun c => repr_char c || int_char c) s = true).
  { apply (all_impl p); [|exact Hs]. intros c Hc.
    destruct (Hp c Hc) as [-> | ->]; [reflexivity | apply orb_true_r]. }
  clear Hs Hp.
  cbv [flag_words true_words false_words app] in Hin.
  repeat (destruct Hin as [<-|Hin]; [try reflexivity; discriminate Hq|]).
  destruct Hin.
Qed.

Lemma mem_flag_words (s : string) :
  ~ In s flag_words ->
  mem s true_words = false /\ mem s false_words = false.
Proof.
  intros Hn. split.
  - destruct (mem s true_words) eqn:E; [|reflexivity].
    exfalso. apply Hn. unfold flag_words. apply in_or_app. left.
    unfold mem in E. apply existsb_exists in E. destruct E as [w [Hw He]].
    apply String.eqb_eq in He. now subst.
  - destruct (mem s false_words) eqn:E; [|reflexivity].
    exfalso. apply Hn. unfold flag_words. apply in_or_app. right.
    unfold mem in E. apply existsb_exists in E. destruct E as [w [Hw He]].
    apply String.eqb_eq in He. now subst.
Qed.

End Coercers.

(** X12: a float cell never decides a flag: [clean_bool] gives the default. *)
Theorem float_cell_gives_default_flag (f : spec_float) (default : bool) :
  valid_binary PyFloat.prec PyFloat.emax f = true ->
  clean_bool (VFloat f) default = default.
Proof.
  intros Hv. unfold clean_bool.
  destruct (is_float_nan (VFloat f)); [reflexivity|].
  cbn [py_str].
  rewrite (plain_text_fixed repr_char _ repr_char_plain (repr_chars f)).
  destruct (mem_flag_words (PyFloat.repr f)) as [-> ->]; [|reflexivity].
  intros Hin.
  pose proof (flag_word_length repr_char (PyFloat.repr f)
                (fun c H => or_introl H) (repr_chars f) Hin) as Hl.
  pose proof (repr_length f Hv). lia.
Qed.

Lemma float_cell_gives_default_flag_witness :
  clean_bool (VFloat (PyFloat.of_Z 1)) false = false
  /\ clean_bool (VFloat (PyFloat.of_Z 0)) true = true.
Proof.
  split.
  - exact (float_cell_gives_default_flag (PyFloat.of_Z 1) false eq_refl).
  - exact (float_cell_gives_default_flag (PyFloat.of_Z 0) true eq_refl).
Defined.

Section IntegerText.

Lemma int_text_chars (z : Z) : PyStr.all int_char (py_str (VInt z)) = true.
Proof.
  assert (H : forall d, PyStr.all int_char (NilZero.string_of_uint d) = true).
  { intros d. apply (all_impl PyStr.isdigit);
      [|apply nilzero_uint_all_digits].
    intros c Hc. unfold int_char. now rewrite Hc. }
  cbn [py_str]. destruct (Z.to_int z); cbn [NilZero.string_of_int].
  - apply H.
  - cbn [PyStr.all]. now rewrite H.
Qed.

Lemma to_int_not_nil (z : Z) :
  Z.to_int z <> Decimal.Pos Decimal.Nil /\ Z.to_int z <> Decimal.Neg Decimal.Nil.
Proof.
  destruct z as [|p|p]; simpl; split; try discriminate;
    intros H; inversion H as [H1];
    exact (DecimalPos.Unsigned.to_uint_nonnil p H1).
Qed.

Lemma int_text_inj (z z' : Z) :
  py_str (VInt z) = py_str (VInt z') -> z = z'.
Proof.
  cbn [py_str]. intros H. apply DecimalZ.to_int_inj.
  destruct (to_int_not_nil z) as [H1 H2].
  destruct (to_int_not_nil z') as [H1' H2'].
  pose proof (NilZero.isi (Z.to_int z) H1 H2) as E.
  pose proof (NilZero.isi (Z.to_int z') H1' H2') as E'.
  rewrite H in E. rewrite E in E'. now inversion E'.
Qed.

End IntegerText.

(** X13: an integer cell decides a flag when it is 1 or 0, and no other. *)
Theorem int_cell_flag (z : Z) (default : bool) :
  clean_bool (VInt z) default
  = if (z =? 1)%Z then true else if (z =? 0)%Z then false else default.
Proof.
  unfold clean_bool. cbn [is_float_nan].
  rewrite (plain_text_fixed int_char _ int_char_plain (int_text_chars z)).
  destruct (z =? 1)%Z eqn:E1; [apply Z.eqb_eq in E1; now subst|].
  destruct (z =? 0)%Z eqn:E0; [apply Z.eqb_eq in E0; now subst|].
  apply Z.eqb_neq in E1, E0.
  destruct (mem_flag_words (py_str (VInt z))) as [-> ->]; [|reflexivity].
  intros Hin. pose proof (int_text_chars z) as Hc.
  cbv [flag_words true_words false_words app] in Hin.
  repeat (destruct Hin as [Hw|Hin];
          [first [ apply (int_text_inj 1 z) in Hw; congruence
                 | apply (int_text_inj 0 z) in Hw; congruence
                 | rewrite <- Hw in Hc; discriminate Hc ] |]).
  destruct Hin.
Qed.

Section Padding.

Variable p : ascii -> bool.

Lemma lstrip_by_padding (ws s : string) :
  PyStr.all p ws = true ->
  PyFloat.lstrip_by p (ws ++ s) = PyFloat.lstrip_by p s.
Proof.
  induction ws as [|c ws IH]; [reflexivity|]. simpl. intros H.
  apply andb_prop in H. destruct H as [-> H]. now apply IH.
Qed.

Lemma rstrip_by_blank (ws : string) :
  PyStr.all p ws = true -> PyFloat.rstrip_by p ws = "".
Proof.
  induction ws as [|c ws IH]; [reflexivity|]. simpl. intros H.
  apply andb_prop in H. destruct H as [-> H]. now rewrite IH.
Qed.

Lemma rstrip_by_padding (s ws : string) :
  PyStr.all p ws = true ->
  PyFloat.rstrip_by p (s ++ ws) = PyFloat.rstrip_by p s.
Proof.
  intros H. induction s as [|c s IH]; simpl.
  - now apply rstrip_by_blank.
  - now rewrite IH.
Qed.

Lemma strip_by_padding (ws s ws' : string) :
  PyStr.all p ws = true -> PyStr.all p ws' = true ->
  PyFloat.rstrip_by p (PyFloat.lstrip_by p (ws ++ s ++ ws'))
  = PyFloat.rstrip_by p (PyFloat.lstrip_by p s).
Proof.
  intros H H'. rewrite lstrip_by_padding by exact H.
  induction s as [|c s IH]; simpl.
  - assert (E : PyFloat.lstrip_by p ws' = "").
    { clear -H'. induction ws' as [|c ws' IH]; [reflexivity|]. simpl in *.
      apply andb_prop in H'. destruct H' as [-> H']. now apply IH. }
    now rewrite E.
  - destruct (p c); [exact IH|].
    change (String c (s ++ ws')) with (String c s ++ ws').
    now apply rstrip_by_padding.
Qed.

End Padding.

Section Blanks.

Lemma lstrip_by_isspace (s : string) :
  PyFloat.lstrip_by PyStr.isspace s = PyStr.lstrip s.
Proof. induction s as [|c s IH]; simpl; [reflexivity | now rewrite IH]. Qed.

Lemma rstrip_by_isspace (s : string) :
  PyFloat.rstrip_by PyStr.isspace s = PyStr.rstrip s.
Proof. induction s as [|c s IH]; simpl; [reflexivity | now rewrite IH]. Qed.

Lemma strip_padding (ws s ws' : string) :
  PyStr.all PyStr.isspace ws = true -> PyStr.all PyStr.isspace ws' = true ->
  PyStr.strip (ws ++ s ++ ws') = PyStr.strip s.
Proof.
  intros H H'. unfold PyStr.strip.
  rewrite <- !lstrip_by_isspace, <- !rstrip_by_isspace.
  now apply strip_by_padding.
Qed.

Lemma float_space_isspace (c : ascii) :
  PyFloat.float_space c = true -> PyStr.isspace c = true.
Proof. destruct c as [[] [] [] [] [] [] [] []]; intros H; try discriminate H; reflexivity. Qed.

Lemma lower_isspace (c : ascii) :
  PyStr.isspace (PyFloat.lower c) = PyStr.isspace c.
Proof. destruct c as [[] [] [] [] [] [] [] []]; reflexivity. Qed.

Lemma lower_idem (c : ascii) :
  PyFloat.lower (PyFloat.lower c) = PyFloat.lower c.
Proof. destruct c as [[] [] [] [] [] [] [] []]; reflexivity. Qed.

Lemma lowercase_idem (s : string) :
  PyFloat.lowercase (PyFloat.lowercase s) = PyFloat.lowercase s.
Proof.
  induction s as [|c s IH]; simpl; [reflexivity|].
  now rewrite lower_idem, IH.
Qed.

Lemma lstrip_lowercase (s : string) :
  PyStr.lstrip (PyFloat.lowercase s) = PyFloat.lowercase (PyStr.lstrip s).
Proof.
  induction s as [|c s IH]; simpl; [reflexivity|].
  rewrite lower_isspace. now destruct (PyStr.isspace c).
Qed.

Lemma rstrip_lowercase (s : string) :
  PyStr.rstrip (PyFloat.lowercase s) = PyFloat.lowercase (PyStr.rstrip s).
Proof.
  induction s as [|c s IH]; simpl; [reflexivity|].
  rewrite IH, lower_isspace.
  destruct (PyStr.rstrip s); simpl; [|reflexivity].
  now destruct (PyStr.isspace c).
Qed.

Lemma strip_lowercase (s : string) :
  PyStr.strip (PyFloat.lowercase s) = PyFloat.lowercase (PyStr.strip s).
Proof. unfold PyStr.strip. now rewrite lstrip_lowercase, rstrip_lowercase. Qed.

End Blanks.

(** X14: [clean_bool] reads a text without regard to the whitespace around it
    and to the case of its ASCII letters. *)
Theorem flag_text_ignores_blanks_and_case (ws s ws' : string) (default : bool) :
  PyStr.all PyStr.isspace ws = true ->
  PyStr.all PyStr.isspace ws' = true ->
  clean_bool (VStr (ws ++ s ++ ws')) default = clean_bool (VStr s) default
  /\ clean_bool (VStr (PyFloat.lowercase s)) default
     = clean_bool (VStr s) default.
Proof.
  intros H H'. unfold clean_bool. cbn [is_float_nan py_str]. split.
  - now rewrite strip_padding.
  - now rewrite strip_lowercase, lowercase_idem.
Qed.

Lemma flag_text_ignores_blanks_and_case_witness :
  clean_bool (VStr ("  " ++ "YES" ++ " ")) false = true
  /\ clean_bool (VStr "No") true = false.
Proof.
  destruct (flag_text_ignores_blanks_and_case "  " "YES" " " false
              eq_refl eq_refl) as [H1 H2].
  split; [rewrite H1, <- H2; reflexivity | reflexivity].
Defined.

(** X11: [clean_float] reads a text without regard to the whitespace around
    it. *)
Theorem float_text_ignores_blanks (ws s ws' : string) (default : spec_float) :
  PyStr.all PyFloat.float_space ws = true ->
  PyStr.all PyFloat.float_space ws' = true ->
  clean_float (VStr (ws ++ s ++ ws')) default = clean_float (VStr s) default.
Proof.
  intros H H'. unfold clean_float.
  rewrite strip_padding
    by (eapply all_impl; [exact float_space_isspace | eassumption]).
  unfold PyFloat.of_string, PyFloat.float_strip.
  now rewrite strip_by_padding.
Qed.

Lemma float_text_ignores_blanks_witness :
  clean_float (VStr (" " ++ "2.5" ++ "  ")) zero = clean_float (VStr "2.5") zero
  /\ clean_float (VStr ("  " ++ "" ++ " ")) (PyFloat.of_Z 5) = PyFloat.of_Z 5.
Proof.
  split.
  - exact (float_text_ignores_blanks " " "2.5" "  " zero eq_refl eq_refl).
  - rewrite (float_text_ignores_blanks "  " "" " " (PyFloat.of_Z 5)
               eq_refl eq_refl).
    reflexivity.
Defined.

Section FloatAlphabet.

Lemma all_lowercase (s : string) :
  PyStr.all float_char s = PyStr.all float_letter (PyFloat.lowercase s).
Proof. induction s as [|c s IH]; simpl; [reflexivity | now rewrite IH]. Qed.

Lemma lstrip_by_chars (p q : ascii -> bool) (s : string) :
  (forall c, p c = true -> q c = true) ->
  PyStr.all q (PyFloat.lstrip_by p s) = true -> PyStr.all q s = true.
Proof.
  intros Hpq. induction s as [|c s IH]; [reflexivity|]. simpl.
  destruct (p c) eqn:Hc; [|exact (fun H => H)].
  intros H. now rewrite (Hpq c Hc), IH.
Qed.

Lemma rstrip_by_chars (p q : ascii -> bool) (s : string) :
  (forall c, p c = true -> q c = true) ->
  PyStr.all q (PyFloat.rstrip_by p s) = true -> PyStr.all q s = true.
Proof.
  intros Hpq. induction s as [|c s IH]; [reflexivity|]. simpl.
  destruct (PyFloat.rstrip_by p s) as [|d r'].
  - destruct (p c) eqn:Hc; simpl; intros H.
    + now rewrite (Hpq c Hc), IH.
    + apply andb_prop in H. destruct H as [-> _]. now rewrite IH.
  - cbn [PyStr.all]. intros H. apply andb_prop in H. destruct H as [-> H].
    now rewrite IH.
Qed.

Lemma float_space_char (c : ascii) :
  PyFloat.float_space c = true -> float_char c = true.
Proof. destruct c as [[] [] [] [] [] [] [] []]; intros H; try discriminate H; reflexivity. Qed.

Lemma digit_float_char (c : ascii) :
  PyStr.isdigit c = true -> float_char c = true.
Proof. destruct c as [[] [] [] [] [] [] [] []]; intros H; try discriminate H; reflexivity. Qed.

Lemma float_strip_chars (s : string) :
  PyStr.all float_char (PyFloat.float_strip s) = true ->
  PyStr.all float_char s = true.
Proof.
  unfold PyFloat.float_strip. intros H.
  apply (lstrip_by_chars PyFloat.float_space); [exact float_space_char|].
  apply (rstrip_by_chars PyFloat.float_space); [exact float_space_char|].
  exact H.
Qed.

Lemma take_sign_chars (s body : string) (neg : bool) :
  PyFloat.take_sign s = (neg, body) ->
  PyStr.all float_char body = true -> PyStr.all float_char s = true.
Proof.
  destruct s as [|c r]; simpl.
  - intros H. now inversion H.
  - destruct (Ascii.eqb c "-") eqn:E1.
    + apply Ascii.eqb_eq in E1. subst c. intros H. inversion H; subst.
      intros ->. reflexivity.
    + destruct (Ascii.eqb c "+") eqn:E2.
      * apply Ascii.eqb_eq in E2. subst c. intros H. inversion H; subst.
        intros ->. reflexivity.
      * intros H. inversion H; subst. exact (fun H => H).
Qed.

Lemma digits_tail_chars (n : nat) (s ds rest : string) :
  (length s <= n)%nat ->
  PyFloat.digits_tail s = (ds, rest) ->
  PyStr.all float_char rest = true -> PyStr.all float_char s = true.
Proof.
  revert s ds rest. induction n as [|n IH]; intros s ds rest Hl.
  - destruct s; [|simpl in Hl; lia]. simpl. intros H. now inversion H.
  - destruct s as [|c r]; simpl; [intros H; now inversion H|].
    simpl in Hl.
    destruct (PyStr.isdigit c) eqn:Hc.
    + destruct (PyFloat.digits_tail r) as [ds' rest'] eqn:Hr.
      intros H. inversion H; subst. intros Hrest.
      rewrite (digit_float_char c Hc).
      apply (IH r ds' rest); [lia | exact Hr | exact Hrest].
    + destruct (PyFloat.is_underscore c) eqn:Hu;
        [|intros H; inversion H; subst; exact (fun H => H)].
      destruct r as [|d r'];
        [intros H; inversion H; subst; exact (fun H => H)|].
      destruct (PyStr.isdigit d) eqn:Hd;
        [|intros H; inversion H; subst; exact (fun H => H)].
      destruct (PyFloat.digits_tail r') as [ds' rest'] eqn:Hr.
      intros H. inversion H; subst. intros Hrest.
      unfold PyFloat.is_underscore in Hu. apply Ascii.eqb_eq in Hu. subst c.
      cbn [PyStr.all]. rewrite (digit_float_char d Hd).
      simpl in Hl.
      rewrite (IH r' ds' rest); [reflexivity | lia | exact Hr | exact Hrest].
Qed.

Lemma digitpart_chars (s ds rest : string) :
  PyFloat.digitpart s = (ds, rest) ->
  PyStr.all float_char rest = true -> PyStr.all float_char s = true.
Proof.
  destruct s as [|c r]; simpl; [intros H; now inversion H|].
  destruct (PyStr.isdigit c) eqn:Hc;
    [|intros H; inversion H; subst; exact (fun H => H)].
  destruct (PyFloat.digits_tail r) as [ds' rest'] eqn:Hr.
  intros H. inversion H; subst. intros Hrest.
  rewrite (digit_float_char c Hc).
  exact (digits_tail_chars (length r) r ds' rest (le_n _) Hr Hrest).
Qed.

Lemma take_exponent_chars (s : string) (ex : Z) :
  PyFloat.take_exponent s = Some ex -> PyStr.all float_char s = true.
Proof.
  destruct s as [|c r]; simpl; [reflexivity|].
  destruct (Ascii.eqb (PyFloat.lower c) "e") eqn:Hc; [|discriminate].
  destruct (PyFloat.take_sign r) as [neg r1] eqn:Hs.
  destruct (PyFloat.digitpart r1) as [ds rest] eqn:Hd.
  destruct ds; [discriminate|]. destruct rest; [|discriminate].
  intros _.
  assert (Hc' : float_char c = true)
    by (unfold float_char; apply Ascii.eqb_eq in Hc; now rewrite Hc).
  rewrite Hc'. simpl.
  apply (take_sign_chars r r1 neg Hs).
  now apply (digitpart_chars r1 _ "" Hd).
Qed.

Lemma lowercase_word_chars (body w : string) :
  String.eqb (PyFloat.lowercase body) w = true ->
  PyStr.all float_letter w = true -> PyStr.all float_char body = true.
Proof.
  intros H Hw. apply String.eqb_eq in H.
  now rewrite all_lowercase, H.
Qed.

Lemma of_string_chars (s : string) (f : spec_float) :
  PyFloat.of_string s = Some f -> PyStr.all float_char s = true.
Proof.
  unfold PyFloat.of_string.
  destruct (PyFloat.take_sign (PyFloat.float_strip s)) as [neg body] eqn:Hs.
  intros H. apply float_strip_chars. apply (take_sign_chars _ body neg Hs).
  revert H.
  destruct (String.eqb (PyFloat.lowercase body) "inf") eqn:E1;
    [intros _; now apply (lowercase_word_chars body "inf")|].
  destruct (String.eqb (PyFloat.lowercase body) "infinity") eqn:E2;
    [intros _; now apply (lowercase_word_chars body "infinity")|].
  destruct (String.eqb (PyFloat.lowercase body) "nan") eqn:E3;
    [intros _; now apply (lowercase_word_chars body "nan")|].
  cbn [orb].
  destruct (PyFloat.digitpart body) as [ip r1] eqn:Hip.
  destruct r1 as [|c r].
  - destruct (ip ++ "")%string; [discriminate|]. intros _.
    now apply (digitpart_chars body ip "" Hip).
  - destruct (Ascii.eqb c ".") eqn:Hc.
    + destruct (PyFloat.digitpart r) as [fp r2] eqn:Hfp.
      destruct (ip ++ fp)%string; [discriminate|].
      destruct (PyFloat.take_exponent r2) as [ex|] eqn:Hex; [|discriminate].
      intros _. apply (digitpart_chars body ip _ Hip).
      apply Ascii.eqb_eq in Hc. subst c. cbn [PyStr.all].
      change (float_char ".") with true. cbn [andb].
      apply (digitpart_chars r fp r2 Hfp).
      exact (take_exponent_chars r2 ex Hex).
    + destruct (ip ++ "")%string; [discriminate|].
      destruct (PyFloat.take_exponent (String c r)) as [ex|] eqn:Hex;
        [|discriminate].
      intros _. apply (digitpart_chars body ip _ Hip).
      exact (take_exponent_chars _ ex Hex).
Qed.

End FloatAlphabet.

(** X10: a text with a character that no float is written with gives the
    default: a decimal comma or a percent sign is not read. *)
Theorem foreign_character_gives_default (s : string) (default : spec_float) :
  PyStr.all float_char s = false ->
  clean_float (VStr s) default = default.
Proof.
  intros H. unfold clean_float.
  destruct (String.eqb (PyStr.strip s) ""); [reflexivity|].
  destruct (PyFloat.of_string s) as [f|] eqn:E; [|reflexivity].
  apply of_string_chars in E. congruence.
Qed.

Lemma foreign_character_gives_default_witness :
  clean_float (VStr "0,5") zero = zero
  /\ clean_float (VStr "50%") zero = zero.
Proof.
  split.
  - exact (foreign_character_gives_default "0,5" zero eq_refl).
  - exact (foreign_character_gives_default "50%" zero eq_refl).
Defined.

(** ** Fractions that are not numbers *)
Section NotANumber.

Lemma rstrip_idle (t : string) :
  PyStr.rstrip t = "" -> PyStr.all PyStr.isspace t = true.
Proof.
  induction t as [|c t IH]; [reflexivity|]. simpl.
  destruct (PyStr.rstrip t); [|discriminate].
  destruct (PyStr.isspace c); [|discriminate].
  intros _. now apply IH.
Qed.

Lemma strip_idle (s : string) :
  PyStr.strip s = "" -> PyStr.all PyStr.isspace s = true.
Proof.
  unfold PyStr.strip. intros H. apply rstrip_idle in H.
  destruct (lstrip_split s) as [w [E Hw]]. rewrite E.
  now rewrite all_append, Hw, H.
Qed.

Lemma lstrip_by_all (p q : ascii -> bool) (s : string) :
  PyStr.all q s = true -> PyStr.all q (PyFloat.lstrip_by p s) = true.
Proof.
  induction s as [|c s IH]; [reflexivity|]. simpl. intros H.
  destruct (p c); [|exact H].
  apply andb_prop in H. destruct H as [_ H]. now apply IH.
Qed.

Lemma rstrip_by_all (p q : ascii -> bool) (s : string) :
  PyStr.all q s = true -> PyStr.all q (PyFloat.rstrip_by p s) = true.
Proof.
  induction s as [|c s IH]; [reflexivity|]. simpl. intros H.
  apply andb_prop in H. destruct H as [Hc H]. specialize (IH H).
  destruct (PyFloat.rstrip_by p s).
  - destruct (p c); simpl; [reflexivity | now rewrite Hc].
  - cbn [PyStr.all] in *. now rewrite Hc.
Qed.

(** A text that reads [nan], [inf] or [infinity] once the whitespace around
    it is dropped and its letters are lowered. *)
Lemma word_is_not_blank (s w : string) (c : ascii) :
  PyFloat.lowercase (PyFloat.float_strip s) = String c w ->
  PyStr.isspace c = false ->
  String.eqb (PyStr.strip s) "" = false.
Proof.
  intros Hw Hc. apply String.eqb_neq. intros E. apply strip_idle in E.
  assert (H : PyStr.all PyStr.isspace (PyFloat.float_strip s) = true)
    by (unfold PyFloat.float_strip; now apply rstrip_by_all, lstrip_by_all).
  destruct (PyFloat.float_strip s) as [|d r]; [discriminate|].
  simpl in Hw, H. inversion Hw as [[Hd Hr]].
  apply andb_prop in H. destruct H as [H _].
  rewrite <- lower_isspace, Hd in H. congruence.
Qed.

End NotANumber.

Section NotANumberText.

Lemma take_sign_letter (body w : string) (c : ascii) :
  PyFloat.lowercase body = String c w ->
  Ascii.eqb c "-" = false -> Ascii.eqb c "+" = false ->
  PyFloat.take_sign body = (false, body).
Proof.
  destruct body as [|d r]; [discriminate|]. simpl. intros H Hm Hp.
  inversion H as [[Hd Hr]].
  assert (Ascii.eqb d "-" = false /\ Ascii.eqb d "+" = false) as [-> ->];
    [|reflexivity].
  clear -Hd Hm Hp. subst c.
  destruct d as [[] [] [] [] [] [] [] []]; split; try reflexivity;
    discriminate.
Qed.

Lemma of_string_nan (s : string) :
  PyFloat.lowercase (PyFloat.float_strip s) = "nan" ->
  PyFloat.of_string s = Some S754_nan.
Proof.
  intros H. unfold PyFloat.of_string.
  rewrite (take_sign_letter _ "an" "n" H eq_refl eq_refl).
  now rewrite H.
Qed.

Lemma of_string_inf (s : string) :
  PyFloat.lowercase (PyFloat.float_strip s) = "inf"
  \/ PyFloat.lowercase (PyFloat.float_strip s) = "infinity" ->
  PyFloat.of_string s = Some (S754_infinity false).
Proof.
  intros [H|H]; unfold PyFloat.of_string.
  - rewrite (take_sign_letter _ "nf" "i" H eq_refl eq_refl). now rewrite H.
  - rewrite (take_sign_letter _ "nfinity" "i" H eq_refl eq_refl).
    now rewrite H.
Qed.

Lemma clean_float_word (s : string) (default : spec_float) :
  In (PyFloat.lowercase (PyFloat.float_strip s)) ["nan"; "inf"; "infinity"] ->
  clamp (clean_float (VStr s) default) = hundred.
Proof.
  intros Hin. unfold clean_float.
  assert (Hb : String.eqb (PyStr.strip s) "" = false).
  { destruct Hin as [H|[H|[H|[]]]]; symmetry in H;
      eapply word_is_not_blank; try exact H; reflexivity. }
  rewrite Hb.
  destruct Hin as [H|[H|[H|[]]]]; symmetry in H.
  - now rewrite (of_string_nan s H).
  - now rewrite (of_string_inf s (or_introl H)).
  - now rewrite (of_string_inf s (or_intror H)).
Qed.

End NotANumberText.

(** X19: a fraction cell whose text reads nan, inf or infinity is emitted as
    full credit. *)
Theorem fraction_text_nan_is_full_credit (qrow : row) (index : Z)
        (category : string) (i : Z) (a : element) (s : string) :
  In i choice_indices ->
  nth_error (answers (question_multichoice_xml qrow index category))
            (Z.to_nat (i - 1)) = Some a ->
  row_get qrow (column "Fraction" i) = VStr s ->
  In (PyFloat.lowercase (PyFloat.float_strip s)) ["nan"; "inf"; "infinity"] ->
  fraction_attr a = Some "100.0".
Proof.
  intros Hi Ha Hcell Hw.
  rewrite (nth_answer qrow index category i a Hi Ha).
  unfold answer_node, fraction_attr, answer_fraction. cbn [attrib_of attrib_get].
  rewrite Hcell, (clean_float_word s zero Hw).
  reflexivity.
Qed.

Lemma fraction_text_nan_is_full_credit_witness :
  fraction_attr (answer_node (fraction_row (VInt 0) (VStr " NaN ") (VInt 0)
                                           (VInt 0) (VInt 0)) 2)
  = Some "100.0".
Proof.
  apply (fraction_text_nan_is_full_credit
           (fraction_row (VInt 0) (VStr " NaN ") (VInt 0) (VInt 0) (VInt 0))
           0 "" 2 _ " NaN ").
  - simpl. tauto.
  - reflexivity.
  - reflexivity.
  - simpl. tauto.
Defined.

(** ** The default grade *)
Section DefaultGrade.

Lemma zeros_length (n : nat) : length (PyFloat.zeros n) = n.
Proof. induction n; simpl; auto. Qed.

Lemma drop_length (n : nat) (s : string) :
  length (PyStr.drop n s) = (length s - n)%nat.
Proof.
  revert n. induction s as [|c s IH]; intros [|n]; simpl; try reflexivity.
  apply IH.
Qed.

Lemma digits_of_not_empty (n : Z) : PyFloat.digits_of n <> "".
Proof.
  unfold PyFloat.digits_of.
  destruct (N.to_uint (Z.to_N n)); discriminate.
Qed.

Lemma fixed2_shape (n : Z) :
  exists ip fp,
    PyFloat.fixed2 n = ip ++ "." ++ fp
    /\ ip <> ""
    /\ PyStr.all PyStr.isdigit ip = true
    /\ PyStr.all PyStr.isdigit fp = true
    /\ length fp = 2%nat.
Proof.
  unfold PyFloat.fixed2.
  set (d := PyFloat.zeros (3 - length (PyFloat.digits_of n))
            ++ PyFloat.digits_of n).
  assert (Hd : PyStr.all PyStr.isdigit d = true)
    by (unfold d; now rewrite all_append, zeros_digits, digits_of_digits).
  assert (Hl : (3 <= length d)%nat).
  { unfold d. rewrite length_append, zeros_length.
    pose proof (digits_of_not_empty n) as Hn.
    assert (length (PyFloat.digits_of n) <> 0%nat)
      by (destruct (PyFloat.digits_of n); [congruence | discriminate]).
    lia. }
  exists (PyStr.take (length d - 2) d), (PyStr.drop (length d - 2) d).
  split; [reflexivity|]. split; [|split; [|split]].
  - apply take_nonempty; [lia|]. destruct d; [simpl in Hl; lia | discriminate].
  - now apply take_all.
  - now apply drop_all.
  - rewrite drop_length. lia.
Qed.

Lemma format_2f_shape (g : spec_float) :
  PyFloat.is_nan g = false -> PyFloat.is_inf g = false ->
  exists neg ip fp,
    PyFloat.format_2f g = PyFloat.sign_text neg ++ ip ++ "." ++ fp
    /\ ip <> ""
    /\ PyStr.all PyStr.isdigit ip = true
    /\ PyStr.all PyStr.isdigit fp = true
    /\ length fp = 2%nat.
Proof.
  destruct g as [s|s| |s m e]; try discriminate; intros _ _.
  - exists s, "0", "00". repeat split; try reflexivity. discriminate.
  - destruct (fixed2_shape
                (PyFloat.round_half_even (PyFloat.magnitude m e * 100)%Q))
      as (ip & fp & E & H).
    exists s, ip, fp. split; [|exact H].
    unfold PyFloat.format_2f. now rewrite E.
Qed.

End DefaultGrade.

(** X17: the default grade of a question is written with two decimals. *)
Theorem default_grade_two_decimals (qrow : row) (index : Z)
        (category : string) (g : spec_float) :
  g = clean_float (row_get qrow "DefaultGrade") (PyFloat.of_Z 5) ->
  PyFloat.is_nan g = false -> PyFloat.is_inf g = false ->
  exists neg ip fp,
    findtext "defaultgrade" (question_multichoice_xml qrow index category)
    = Some (PyFloat.sign_text neg ++ ip ++ "." ++ fp)
    /\ ip <> ""
    /\ PyStr.all PyStr.isdigit ip = true
    /\ PyStr.all PyStr.isdigit fp = true
    /\ length fp = 2%nat.
Proof.
  intros -> Hn Hi.
  destruct (format_2f_shape _ Hn Hi) as (neg & ip & fp & E & H).
  exists neg, ip, fp. split; [|exact H].
  unfold question_multichoice_xml, findtext, findall, leaf.
  cbn [children_of app filter tag_of String.eqb Ascii.eqb Bool.eqb text_of].
  now rewrite E.
Qed.

Lemma default_grade_two_decimals_witness :
  (exists neg ip fp,
     findtext "defaultgrade" (question_multichoice_xml [] 0 "")
     = Some (PyFloat.sign_text neg ++ ip ++ "." ++ fp)
     /\ ip <> ""
     /\ PyStr.all PyStr.isdigit ip = true
     /\ PyStr.all PyStr.isdigit fp = true
     /\ length fp = 2%nat)
  /\ findtext "defaultgrade" (question_multichoice_xml [] 0 "") = Some "5.00".
Proof.
  split; [|reflexivity].
  exact (default_grade_two_decimals [] 0 "" (PyFloat.of_Z 5)
           eq_refl eq_refl eq_refl).
Defined.

(** ** What the passes of the translator keep *)
Section Kept.

Variable q : ascii -> bool.
Hypothesis generated_kept : forall c, gen_char c = true -> q c = true.

Lemma written_kept (s : string) :
  PyStr.all gen_char s = true -> PyStr.all q s = true.
Proof. apply all_impl. exact generated_kept. Qed.

Lemma lstrip_kept (s : string) :
  PyStr.all q s = true -> PyStr.all q (PyStr.lstrip s) = true.
Proof. rewrite <- lstrip_by_isspace. apply lstrip_by_all. Qed.

Lemma strip_kept (s : string) :
  PyStr.all q s = true -> PyStr.all q (PyStr.strip s) = true.
Proof.
  intros H. unfold PyStr.strip.
  rewrite <- rstrip_by_isspace. now apply rstrip_by_all, lstrip_kept.
Qed.

Lemma strip_prefix_kept (p s r : string) :
  PyStr.strip_prefix p s = Some r ->
  PyStr.all q s = true -> PyStr.all q r = true.
Proof.
  revert s r. induction p as [|a p IH]; intros s r; simpl.
  - intros H. now inversion H.
  - destruct s as [|b s]; [discriminate|].
    destruct (Ascii.eqb a b); [|discriminate].
    intros H Hq. simpl in Hq. apply andb_prop in Hq. destruct Hq as [_ Hq].
    now apply (IH s r).
Qed.

Lemma replace_kept (old new s : string) (skip : nat) :
  PyStr.all q new = true -> PyStr.all q s = true ->
  PyStr.all q (PyStr.replace_from skip old new s) = true.
Proof.
  intros Hn. revert skip. induction s as [|c r IH]; intros skip Hs;
    [reflexivity|].
  simpl in Hs. apply andb_prop in Hs. destruct Hs as [Hc Hr].
  cbn [PyStr.replace_from]. destruct skip as [|k]; [|now apply IH].
  destruct (PyStr.startswith old (String c r)).
  - rewrite all_append, Hn. now apply IH.
  - cbn [PyStr.all]. rewrite Hc. now apply IH.
Qed.

Lemma escape_kept (s : string) :
  PyStr.all q s = true -> PyStr.all q (escape s) = true.
Proof.
  induction s as [|c r IH]; [reflexivity|]. simpl. intros H.
  apply andb_prop in H. destruct H as [Hc Hr].
  rewrite all_append, (IH Hr), andb_true_r.
  unfold escape_char.
  repeat match goal with
         | |- context [if ?b then _ else _] =>
             destruct b; [apply written_kept; reflexivity|]
         end.
  simpl. now rewrite Hc.
Qed.

Lemma lazy_dots_bold_kept (s inner : string) :
  lazy_dots_bold s = Some inner ->
  PyStr.all q s = true -> PyStr.all q inner = true.
Proof.
  revert inner. induction s as [|c r IH]; intros inner; simpl;
    [discriminate|].
  destruct (Ascii.eqb c PyStr.nl); [discriminate|].
  intros H Hq. apply andb_prop in Hq. destruct Hq as [Hc Hr].
  destruct (PyStr.startswith "**" r).
  - inversion H. simpl. now rewrite Hc.
  - destruct (lazy_dots_bold r) as [i|]; [|discriminate].
    inversion H. simpl. rewrite Hc. now apply IH.
Qed.

Lemma match_bold_kept (s inner : string) :
  match_bold s = Some inner ->
  PyStr.all q s = true -> PyStr.all q inner = true.
Proof.
  unfold match_bold.
  destruct (PyStr.strip_prefix "**" s) as [r|] eqn:E; [|discriminate].
  intros H Hq. apply (lazy_dots_bold_kept r inner H).
  exact (strip_prefix_kept "**" s r E Hq).
Qed.

Lemma sub_bold_kept (s : string) (skip : nat) :
  PyStr.all q s = true -> PyStr.all q (sub_bold_from skip s) = true.
Proof.
  revert skip. induction s as [|c r IH]; intros skip Hs; [reflexivity|].
  pose proof Hs as Hs'.
  simpl in Hs. apply andb_prop in Hs. destruct Hs as [Hc Hr].
  cbn [sub_bold_from]. destruct skip as [|k]; [|now apply IH].
  destruct (match_bold (String c r)) as [inner|] eqn:E.
  - rewrite !all_append, (match_bold_kept _ _ E Hs'), (IH _ Hr).
    now rewrite !written_kept.
  - cbn [PyStr.all]. rewrite Hc. now apply IH.
Qed.

Lemma lazy_dots_em_kept (s inner : string) :
  lazy_dots_em s = Some inner ->
  PyStr.all q s = true -> PyStr.all q inner = true.
Proof.
  revert inner. induction s as [|c r IH]; intros inner; cbn [lazy_dots_em];
    [discriminate|].
  destruct (Ascii.eqb c PyStr.nl); [discriminate|].
  intros H Hq. cbn [PyStr.all] in Hq.
  apply andb_prop in Hq. destruct Hq as [Hc Hr].
  destruct r as [|d r']; [discriminate|].
  destruct (negb (Ascii.eqb c PyStr.star) && Ascii.eqb d PyStr.star
            && negb (starts_with_star r')).
  - inversion H. simpl. now rewrite Hc.
  - destruct (lazy_dots_em (String d r')) as [i|]; [|discriminate].
    inversion H. cbn [PyStr.all]. rewrite Hc. now apply IH.
Qed.

Lemma match_em_kept (prev : option ascii) (s inner : string) :
  match_em prev s = Some inner ->
  PyStr.all q s = true -> PyStr.all q inner = true.
Proof.
  unfold match_em. destruct s as [|c r]; [discriminate|].
  destruct (_ && _ && _); [|discriminate].
  intros H Hq. simpl in Hq. apply andb_prop in Hq. destruct Hq as [_ Hr].
  exact (lazy_dots_em_kept r inner H Hr).
Qed.

Lemma sub_em_kept (s : string) (skip : nat) (prev : option ascii) :
  PyStr.all q s = true -> PyStr.all q (sub_em_from skip prev s) = true.
Proof.
  revert skip prev. induction s as [|c r IH]; intros skip prev Hs;
    [reflexivity|].
  pose proof Hs as Hs'.
  simpl in Hs. apply andb_prop in Hs. destruct Hs as [Hc Hr].
  cbn [sub_em_from]. destruct skip as [|k]; [|now apply IH].
  destruct (match_em prev (String c r)) as [inner|] eqn:E.
  - rewrite !all_append, (match_em_kept _ _ _ E Hs'), (IH _ _ Hr).
    now rewrite !written_kept.
  - cbn [PyStr.all]. rewrite Hc. now apply IH.
Qed.

Lemma ul_marker_kept (line body : string) :
  ul_marker line = Some body ->
  PyStr.all q line = true -> PyStr.all q body = true.
Proof.
  unfold ul_marker. intros H Hq. apply lstrip_kept in Hq.
  destruct (PyStr.lstrip line) as [|c [|w r]];
    [discriminate
    | destruct c as [[] [] [] [] [] [] [] []]; discriminate |].
  destruct c as [[] [] [] [] [] [] [] []]; try discriminate.
  destruct (PyStr.isspace w); [|discriminate].
  inversion H. apply lstrip_kept.
  cbn [PyStr.all] in Hq. apply andb_prop in Hq. destruct Hq as [_ Hq].
  apply andb_prop in Hq. now destruct Hq.
Qed.

Lemma skip_digits_kept (s : string) :
  PyStr.all q s = true -> PyStr.all q (skip_digits s) = true.
Proof.
  induction s as [|c r IH]; [reflexivity|]. simpl. intros H.
  destruct (PyStr.isdigit c); [|exact H].
  apply andb_prop in H. destruct H as [_ H]. now apply IH.
Qed.

Lemma ol_marker_kept (line body : string) :
  ol_marker line = Some body ->
  PyStr.all q line = true -> PyStr.all q body = true.
Proof.
  unfold ol_marker. intros H Hq. apply lstrip_kept in Hq.
  destruct (PyStr.lstrip line) as [|d r]; [discriminate|].
  destruct (PyStr.isdigit d); [|discriminate].
  cbn [PyStr.all] in Hq. apply andb_prop in Hq. destruct Hq as [_ Hq].
  apply skip_digits_kept in Hq.
  destruct (skip_digits r) as [|p [|w r']]; try discriminate.
  destruct ((Ascii.eqb p "." || Ascii.eqb p ")") && PyStr.isspace w);
    [|discriminate].
  inversion H. apply lstrip_kept.
  cbn [PyStr.all] in Hq. apply andb_prop in Hq. destruct Hq as [_ Hq].
  apply andb_prop in Hq. now destruct Hq.
Qed.

Lemma list_run_kept (marker : string -> option string) (lines : list string) :
  (forall line body, marker line = Some body ->
                     PyStr.all q line = true -> PyStr.all q body = true) ->
  forallb (PyStr.all q) lines = true ->
  forallb (PyStr.all q) (fst (list_run marker lines)) = true
  /\ forallb (PyStr.all q) (snd (list_run marker lines)) = true.
Proof.
  intros Hm. induction lines as [|l lines IH]; intros H; [now split|].
  pose proof H as H'.
  simpl in H. apply andb_prop in H. destruct H as [Hl Hls].
  cbn [list_run]. destruct (marker l) as [body|] eqn:E; [|now split].
  destruct (IH Hls) as [H1 H2].
  destruct (list_run marker lines) as [items rest']. simpl in *.
  split; [|exact H2].
  rewrite H1, andb_true_r. apply strip_kept. now apply (Hm l).
Qed.

Lemma concat_items_kept (items : list string) :
  forallb (PyStr.all q) items = true ->
  PyStr.all q (PyStr.concat (map li items)) = true.
Proof.
  induction items as [|i items IH]; [reflexivity|].
  cbn [forallb map PyStr.concat]. intros H.
  apply andb_prop in H. destruct H as [Hi His].
  specialize (IH His). unfold li in *. rewrite !all_append, Hi, IH.
  now rewrite !written_kept.
Qed.

Lemma list_block_kept (tag : string) (items : list string) :
  PyStr.all gen_char tag = true ->
  forallb (PyStr.all q) items = true ->
  PyStr.all q (list_block tag items) = true.
Proof.
  intros Ht H. unfold list_block.
  rewrite !all_append, (concat_items_kept items H), (written_kept tag Ht).
  now rewrite !written_kept.
Qed.

Lemma scan_lines_kept (fuel : nat) (lines : list string) :
  forallb (PyStr.all q) lines = true ->
  forallb (PyStr.all q) (scan_lines fuel lines) = true.
Proof.
  revert lines. induction fuel as [|n IH]; intros lines H; [reflexivity|].
  cbn [scan_lines]. destruct lines as [|line rest]; [reflexivity|].
  destruct (is_some (ul_marker line)).
  - destruct (list_run_kept ul_marker (line :: rest) ul_marker_kept H)
      as [H1 H2].
    destruct (list_run ul_marker (line :: rest)) as [items rest'].
    cbn [fst snd] in *. cbn [forallb].
    now rewrite (list_block_kept "ul" items eq_refl H1), (IH rest' H2).
  - destruct (is_some (ol_marker line)).
    + destruct (list_run_kept ol_marker (line :: rest) ol_marker_kept H)
        as [H1 H2].
      destruct (list_run ol_marker (line :: rest)) as [items rest'].
      cbn [fst snd] in *. cbn [forallb].
      now rewrite (list_block_kept "ol" items eq_refl H1), (IH rest' H2).
    + cbn [forallb] in *. apply andb_prop in H. destruct H as [-> H].
      now apply IH.
Qed.

Lemma join_kept (sep : string) (parts : list string) :
  PyStr.all q sep = true ->
  forallb (PyStr.all q) parts = true ->
  PyStr.all q (PyStr.join sep parts) = true.
Proof.
  intros Hs. induction parts as [|p parts IH]; [reflexivity|].
  cbn [forallb PyStr.join]. intros H.
  apply andb_prop in H. destruct H as [Hp Hps].
  destruct parts as [|p' parts']; [exact Hp|].
  now rewrite !all_append, Hp, Hs, (IH Hps).
Qed.

Lemma collapse_kept (s : string) (skip : nat) :
  PyStr.all q s = true -> PyStr.all q (collapse_from skip s) = true.
Proof.
  revert skip. induction s as [|c r IH]; intros skip Hs; [reflexivity|].
  simpl in Hs. apply andb_prop in Hs. destruct Hs as [Hc Hr].
  cbn [collapse_from]. destruct skip as [|k]; [|now apply IH].
  destruct (br_run (length (String c r)) (String c r)) as [k rest].
  destruct (3 <=? k)%nat.
  - rewrite !all_append, (IH _ Hr). now rewrite !written_kept.
  - cbn [PyStr.all]. rewrite Hc. now apply IH.
Qed.

End Kept.

Section OneLine.

Lemma replace_char_gone (c : ascii) (new s : string) :
  PyStr.all (fun x => negb (Ascii.eqb x c)) new = true ->
  PyStr.all (fun x => negb (Ascii.eqb x c))
            (PyStr.replace (String c "") new s) = true.
Proof.
  intros Hn. unfold PyStr.replace.
  induction s as [|a r IH]; [reflexivity|].
  cbn [PyStr.replace_from]. unfold PyStr.startswith.
  cbn [PyStr.strip_prefix length Nat.sub].
  destruct (Ascii.eqb c a) eqn:E.
  - now rewrite all_append, Hn, IH.
  - cbn [PyStr.all]. rewrite IH, andb_true_r.
    rewrite Ascii.eqb_sym. now rewrite E.
Qed.

Lemma split_nl_kept (q : ascii -> bool) (s : string) :
  PyStr.all q s = true ->
  forallb (PyStr.all (fun c => q c && negb (Ascii.eqb c PyStr.nl)))
          (PyStr.split_nl s) = true.
Proof.
  induction s as [|c r IH]; [reflexivity|]. simpl. intros H.
  apply andb_prop in H. destruct H as [Hc Hr]. specialize (IH Hr).
  destruct (Ascii.eqb c PyStr.nl) eqn:E; [exact IH|].
  destruct (PyStr.split_nl r) as [|h t]; simpl in *.
  - now rewrite Hc, E.
  - now rewrite Hc, E.
Qed.

Lemma generated_clean (c : ascii) :
  gen_char c = true ->
  negb (is_ctrl c) && negb (Ascii.eqb c PyStr.cr) = true.
Proof. destruct c as [[] [] [] [] [] [] [] []]; intros H; try discriminate H; reflexivity. Qed.

Lemma generated_line (c : ascii) :
  gen_char c = true ->
  negb (is_ctrl c) && negb (Ascii.eqb c PyStr.cr)
  && negb (Ascii.eqb c PyStr.nl) = true.
Proof. destruct c as [[] [] [] [] [] [] [] []]; intros H; try discriminate H; reflexivity. Qed.

Lemma strip_control_clean (v : value) :
  PyStr.all (fun c => negb (is_ctrl c)) (strip_control v) = true.
Proof. destruct v; try apply ctrl_sub_clean. reflexivity. Qed.

End OneLine.

Lemma translation_chars (v : value) :
  PyStr.all (fun c => negb (is_ctrl c) && negb (Ascii.eqb c PyStr.cr)
                      && negb (Ascii.eqb c PyStr.nl))
            (convert_markup_to_html v) = true.
Proof.
  destruct v as [|b|z|f|s]; [reflexivity| | | |];
    unfold convert_markup_to_html;
    match goal with
    | |- context [strip_control ?v] =>
        pose proof (strip_control_clean v) as H0;
        generalize dependent (strip_control v); intros t0 H0
    end.
  all: set (q1 := fun c => negb (is_ctrl c)) in *.
  all: set (q2 := fun c => negb (is_ctrl c) && negb (Ascii.eqb c PyStr.cr)).
  all: set (q3 := fun c => negb (is_ctrl c) && negb (Ascii.eqb c PyStr.cr)
                          && negb (Ascii.eqb c PyStr.nl)).
  all: assert (H1 : PyStr.all q1
                 (PyStr.replace (String PyStr.cr (String PyStr.nl ""))
                                (String PyStr.nl "") t0) = true)
         by (apply replace_kept; [reflexivity | exact H0]).
  all: assert (H2 : PyStr.all q2
                 (PyStr.replace (String PyStr.cr "") (String PyStr.nl "")
                    (PyStr.replace (String PyStr.cr (String PyStr.nl ""))
                                   (String PyStr.nl "") t0)) = true)
         by (apply all_conj;
             [apply replace_kept; [reflexivity | exact H1]
             | apply replace_char_gone; reflexivity]).
  all: apply (collapse_kept q3 generated_line).
  all: apply (join_kept q3); [reflexivity|].
  all: apply (scan_lines_kept q3 generated_line).
  all: apply (split_nl_kept q2).
  all: apply (sub_em_kept q2 generated_clean).
  all: apply (sub_bold_kept q2 generated_clean).
  all: apply (escape_kept q2 generated_clean).
  all: apply (replace_kept q2); [reflexivity | exact H2].
Qed.

(** X3: the translation is one line of text that XML allows: it holds no
    line feed, no carriage return and no control character. *)
Theorem translation_is_one_clean_line (v : value) :
  PyStr.all line_char (convert_markup_to_html v) = true.
Proof.
  eapply all_impl; [|apply translation_chars].
  intros c Hc. cbv beta in Hc. unfold line_char, is_line_break.
  destruct (is_ctrl c), (Ascii.eqb c PyStr.cr), (Ascii.eqb c PyStr.nl);
    try discriminate Hc; reflexivity.
Qed.

(** X2: stripping the control characters before the translation, as the
    mapper does, changes nothing. *)
Theorem stripping_before_translation (v : value) :
  convert_markup_to_html (VStr (strip_control v)) = convert_markup_to_html v.
Proof.
  destruct v; [reflexivity| | | |];
    unfold convert_markup_to_html; cbn [strip_control py_str];
    now rewrite ctrl_sub_idem.
Qed.

(** ** The characters of the document *)
Section CleanDocument.

Lemma translation_clean (v : value) :
  xml_clean (convert_markup_to_html v) = true.
Proof.
  unfold xml_clean. eapply all_impl; [|apply translation_chars].
  intros c H. cbv beta in H. apply andb_prop in H. destruct H as [H _].
  apply andb_prop in H. now destruct H.
Qed.

Lemma repr_char_clean (c : ascii) : repr_char c = true -> negb (is_ctrl c) = true.
Proof. destruct c as [[] [] [] [] [] [] [] []]; intros H; try discriminate H; reflexivity. Qed.

Lemma float_text_clean (f : spec_float) : xml_clean (PyFloat.repr f) = true.
Proof. apply (all_impl repr_char); [exact repr_char_clean | apply repr_chars]. Qed.

Lemma sign_text_clean (s : bool) : xml_clean (PyFloat.sign_text s) = true.
Proof. now destruct s. Qed.

Lemma grade_text_clean (g : spec_float) : xml_clean (PyFloat.format_2f g) = true.
Proof.
  unfold xml_clean.
  destruct g as [s|s| |s m e]; try (destruct s; reflexivity); [reflexivity|].
  unfold PyFloat.format_2f.
  destruct (fixed2_shape
              (PyFloat.round_half_even (PyFloat.magnitude m e * 100)%Q))
    as (ip & fp & -> & _ & Hi & Hf & _).
  rewrite !all_append, (digits_clean ip Hi), (digits_clean fp Hf).
  now destruct s.
Qed.

Lemma name_clean (qrow : row) (index : Z) :
  xml_clean (question_name qrow index) = true.
Proof. apply strip_control_clean. Qed.

Lemma flag_text_clean (b : bool) : xml_clean (bool_text b) = true.
Proof. now destruct b. Qed.

Lemma answer_clean (qrow : row) (i : Z) :
  forallb xml_clean (strings_of (answer_node qrow i)) = true.
Proof.
  unfold answer_node, leaf.
  cbn [strings_of flat_map app fst snd forallb].
  rewrite !translation_clean, float_text_clean. reflexivity.
Qed.

Lemma forallb_flat_map {A B : Type} (p : B -> bool) (f : A -> list B)
      (l : list A) :
  forallb p (flat_map f l) = forallb (fun a => forallb p (f a)) l.
Proof.
  induction l as [|a l IH]; [reflexivity|]. simpl.
  now rewrite forallb_app, IH.
Qed.

Lemma forallb_mapped {A B : Type} (p : B -> bool) (f : A -> B) (l : list A) :
  forallb p (map f l) = forallb (fun a => p (f a)) l.
Proof. induction l as [|a l IH]; simpl; [reflexivity | now rewrite IH]. Qed.

Lemma question_clean (qrow : row) (index : Z) (category : string) :
  forallb xml_clean (strings_of (question_multichoice_xml qrow index category))
  = true.
Proof.
  unfold question_multichoice_xml, answer_node, leaf, choice_indices.
  cbn [strings_of flat_map app fst snd map forallb].
  rewrite !translation_clean, name_clean, grade_text_clean, !flag_text_clean,
    !float_text_clean.
  reflexivity.
Qed.

End CleanDocument.

(** X1: [strip_control] gives the empty text for None, and for every other
    value the text of the value from which exactly the characters of the
    class (code points 0 to 8, 11, 12 and 14 to 31) are taken out, the other
    characters staying as they are and in their order.  The text of a
    boolean, an integer or a float holds no such character and comes back
    whole; a text without them is kept, the result holds none, a second pass
    changes nothing, and a concatenation is stripped part by part. *)
Theorem strip_control_contract (v : value) :
  strip_control VNone = ""
  /\ (v <> VNone ->
      strip_control v
      = string_of_list_ascii
          (filter (fun c => negb (is_ctrl c))
                  (list_ascii_of_string (py_str v))))
  /\ (forall c,
         is_ctrl c = true
         <-> (N_of_ascii c <= 8 \/ N_of_ascii c = 11 \/ N_of_ascii c = 12
              \/ 14 <= N_of_ascii c <= 31)%N)
  /\ (forall b, strip_control (VBool b) = py_str (VBool b))
  /\ (forall z, strip_control (VInt z) = py_str (VInt z))
  /\ (forall f, strip_control (VFloat f) = py_str (VFloat f))
  /\ xml_clean (strip_control v) = true
  /\ strip_control (VStr (strip_control v)) = strip_control v
  /\ (forall s, xml_clean s = true -> strip_control (VStr s) = s)
  /\ (forall a b, strip_control (VStr (a ++ b))
                  = strip_control (VStr a) ++ strip_control (VStr b))
  /\ strip_control (VStr bell_name) = "AB".
Proof.
  assert (Hfilter : forall s,
             ctrl_sub s
             = string_of_list_ascii
                 (filter (fun c => negb (is_ctrl c)) (list_ascii_of_string s))).
  { induction s as [|c s IH]; [reflexivity|].
    cbn [ctrl_sub list_ascii_of_string filter].
    destruct (is_ctrl c); cbn [negb string_of_list_ascii]; now rewrite IH. }
  split; [reflexivity|].
  split; [intros Hv; destruct v; try apply Hfilter; congruence|].
  split.
  { intros c. unfold is_ctrl, PyStr.code.
    rewrite !orb_true_iff, andb_true_iff, !N.leb_le, !N.eqb_eq. tauto. }
  split; [intros [|]; reflexivity|].
  split; [intros z; apply int_text_clean|].
  split; [intros f; apply ctrl_sub_fixed, float_text_clean|].
  split; [apply strip_control_clean|].
  split; [|split; [|split]].
  - destruct v; cbn [strip_control py_str]; try apply ctrl_sub_idem.
    reflexivity.
  - intros s H. now apply ctrl_sub_fixed.
  - intros a b. cbn [strip_control py_str].
    induction a as [|c a IH]; [reflexivity|]. simpl.
    destruct (is_ctrl c); simpl; now rewrite IH.
  - reflexivity.
Qed.

(** X20: no string of a question node (tag, attribute, text) holds a
    control character that XML 1.0 forbids, whatever the row holds. *)
Theorem question_has_no_forbidden_character (qrow : row) (index : Z)
        (category : string) :
  forallb xml_clean (strings_of (question_multichoice_xml qrow index category))
  = true.
Proof. exact (question_clean qrow index category). Qed.

(** X21: the document holds a forbidden control character exactly when the
    category name holds one: the name is the one text written unstripped. *)
Theorem document_clean_iff_category_clean (df : list row) (category : string) :
  forallb xml_clean (strings_of (excel_to_moodle_xml df category))
  = xml_clean category.
Proof.
  rewrite assembled_document.
  cbn [strings_of flat_map app forallb].
  rewrite forallb_app, forallb_flat_map.
  assert (Hq : forallb (fun e => forallb xml_clean (strings_of e))
                       (map (question_of category) (iterrows df)) = true).
  { rewrite forallb_mapped. apply forallb_forall. intros [idx qrow] _.
    apply question_clean. }
  rewrite Hq, andb_true_r.
  unfold category_node, leaf. cbn [strings_of flat_map app fst snd forallb].
  rewrite !andb_true_r.
  change (xml_clean "quiz") with true. change (xml_clean "question") with true.
  change (xml_clean "type") with true. change (xml_clean "category") with true.
  change (xml_clean "text") with true. cbn [andb].
  destruct (String.eqb category "") eqn:E.
  - apply String.eqb_eq in E. now subst.
  - unfold xml_clean. now rewrite all_append.
Qed.

(** X15: the name, question text and general feedback nodes of a question, and
    the feedback node of every answer, are the nodes [add_text_node] builds;
    it appends its node after the children the parent has. *)
Theorem mapper_nodes_are_text_nodes (qrow : row) (index : Z)
        (category : string) (parent : element) :
  let q := question_multichoice_xml qrow index category in
  let node tag html := snd (add_text_node parent tag (VStr html) "html") in
  nth_error (children_of q) 0 = Some (node "name" (question_name qrow index))
  /\ nth_error (children_of q) 1
     = Some (node "questiontext"
               (convert_markup_to_html
                  (VStr (PyStr.strip
                           (py_str (row_get_or qrow "Question" (VStr ""))))))) 
  /\ nth_error (children_of q) 7
     = Some (node "generalfeedback"
               (convert_markup_to_html
                  (VStr (strip_control (row_get qrow "GeneralFeedback")))))
  /\ (forall i,
        findall "feedback" (answer_node qrow i)
        = [node "feedback"
             (convert_markup_to_html
                (VStr (strip_control
                         (row_get qrow (column "ChoiceFeedback" i)))))])
  /\ (forall tag text format,
        children_of (fst (add_text_node parent tag text format))
        = (children_of parent ++ [snd (add_text_node parent tag text format)])%list
        /\ find_inner_text tag
             (Element "" [] None [snd (add_text_node parent tag VNone format)])
           = Some "").
Proof.
  cbv zeta. repeat split.
  - destruct parent. reflexivity.
  - unfold add_text_node, find_inner_text, findall, findtext, findall, leaf.
    cbn [snd children_of filter tag_of]. rewrite String.eqb_refl.
    reflexivity.
Qed.

(** ** The italic pass *)
Section Italic.

Lemma match_em_star_before (prev : option ascii) (s : string) :
  match_em prev s
  = match s with
    | String c r =>
        if Ascii.eqb c PyStr.star && negb (star_before prev)
           && negb (starts_with_star r)
        then lazy_dots_em r else None
    | EmptyString => None
    end.
Proof. destruct s, prev; reflexivity. Qed.

Lemma sub_em_prefix (pre s : string) (prev : option ascii) :
  PyStr.contains PyStr.star pre = false ->
  sub_em_from 0 prev (pre ++ s) = pre ++ sub_em_from 0 (last_char prev pre) s.
Proof.
  revert prev. induction pre as [|x pre IH]; intros prev H; [reflexivity|].
  cbn [PyStr.contains] in H. apply orb_false_iff in H as [Hx H].
  cbn [append sub_em_from last_char]. rewrite match_em_star_before, Hx.
  cbn [andb]. now rewrite (IH _ H).
Qed.

Lemma sub_em_skip (a b : string) (prev : option ascii) :
  sub_em_from (length a) prev (a ++ b) = sub_em_from 0 (last_char prev a) b.
Proof.
  revert prev. induction a as [|x a IH]; intros prev; [reflexivity|].
  cbn [append length sub_em_from last_char]. apply IH.
Qed.

Lemma last_char_star (prev : option ascii) (pre : string) :
  PyStr.contains PyStr.star pre = false ->
  star_before prev = false -> star_before (last_char prev pre) = false.
Proof.
  revert prev. induction pre as [|x pre IH]; intros prev H Hp; [exact Hp|].
  cbn [PyStr.contains] in H. apply orb_false_iff in H as [Hx H].
  cbn [last_char]. apply IH; [exact H | exact Hx].
Qed.

Lemma last_char_append (prev : option ascii) (a : string) (c : ascii) :
  last_char prev (a ++ String c "") = Some c.
Proof.
  revert prev. induction a as [|x a IH]; intros prev; [reflexivity|].
  cbn [append last_char]. apply IH.
Qed.

Lemma lazy_dots_em_span (inner post : string) :
  inner <> "" ->
  PyStr.contains PyStr.star inner = false ->
  PyStr.contains PyStr.nl inner = false ->
  starts_with_star post = false ->
  lazy_dots_em (inner ++ String PyStr.star post) = Some inner.
Proof.
  intros Hne Hs Hn Hp. induction inner as [|c inner IH]; [congruence|].
  cbn [PyStr.contains] in Hs, Hn.
  apply orb_false_iff in Hs as [Hcs Hs]. apply orb_false_iff in Hn as [Hcn Hn].
  cbn [append lazy_dots_em]. rewrite Hcn.
  destruct inner as [|d inner'].
  - cbn [append]. rewrite Hcs, Ascii.eqb_refl, Hp. reflexivity.
  - cbn [append].
    cbn [PyStr.contains] in Hs. apply orb_false_iff in Hs as [Hds Hs'].
    rewrite Hds, andb_false_r. cbn [andb].
    change (String d (inner' ++ String PyStr.star post))
      with (String d inner' ++ String PyStr.star post).
    rewrite IH; [reflexivity | discriminate | | exact Hn].
    cbn [PyStr.contains]. now rewrite Hds, Hs'.
Qed.

Lemma sub_em_unstarred (prev : option ascii) (post : string) :
  starts_with_star post = false ->
  sub_em_from 0 prev post = sub_em_from 0 None post.
Proof.
  destruct post as [|c r]; [reflexivity|]. cbn [starts_with_star]. intros H.
  cbn [sub_em_from]. rewrite !match_em_star_before, H. reflexivity.
Qed.

Lemma starts_with_star_inner (inner rest : string) :
  inner <> "" -> PyStr.contains PyStr.star inner = false ->
  starts_with_star (inner ++ rest) = false.
Proof.
  destruct inner as [|c inner]; [congruence|]. intros _ H.
  cbn [PyStr.contains] in H. apply orb_false_iff in H as [H _].
  exact H.
Qed.

Lemma sub_em_span (prev : option ascii) (pre inner post : string) :
  star_before prev = false ->
  PyStr.contains PyStr.star pre = false ->
  inner <> "" ->
  PyStr.contains PyStr.star inner = false ->
  PyStr.contains PyStr.nl inner = false ->
  starts_with_star post = false ->
  sub_em_from 0 prev (pre ++ "*" ++ inner ++ "*" ++ post)
  = pre ++ "<em>" ++ inner ++ "</em>" ++ sub_em_from 0 None post.
Proof.
  intros Hprev Hpre Hne Hs Hn Hp.
  rewrite (sub_em_prefix _ _ _ Hpre). f_equal.
  change ("*" ++ inner ++ "*" ++ post)
    with (String PyStr.star (inner ++ String PyStr.star post)).
  cbn [sub_em_from]. rewrite match_em_star_before.
  rewrite (last_char_star prev pre Hpre Hprev).
  rewrite (starts_with_star_inner inner _ Hne Hs).
  change (Ascii.eqb PyStr.star PyStr.star) with true. cbn [andb negb].
  rewrite (lazy_dots_em_span inner post Hne Hs Hn Hp).
  do 3 f_equal.
  replace (length inner + 1)%nat
    with (length (inner ++ String PyStr.star "")) by apply length_append.
  change (inner ++ String PyStr.star post)
    with (inner ++ (String PyStr.star "" ++ post)).
  rewrite <- (append_assoc inner (String PyStr.star "") post).
  rewrite sub_em_skip.
  now apply sub_em_unstarred.
Qed.

Lemma sub_em_paired (prev : option ascii) (s : string) :
  paired_stars (star_before prev) s = true -> sub_em_from 0 prev s = s.
Proof.
  revert prev. induction s as [|c r IH]; intros prev H; [reflexivity|].
  cbn [paired_stars] in H. cbn [sub_em_from]. rewrite match_em_star_before.
  destruct (Ascii.eqb c PyStr.star) eqn:Hc.
  - apply andb_prop in H. destruct H as [H1 H2].
    assert (E : negb (star_before prev) && negb (starts_with_star r) = false)
      by (destruct (star_before prev), (starts_with_star r);
          try reflexivity; discriminate H1).
    cbn [andb]. rewrite E. f_equal. apply IH. cbn [star_before]. now rewrite Hc.
  - cbn [andb]. f_equal. apply IH. cbn [star_before]. now rewrite Hc.
Qed.

End Italic.

(** X7: the italic pass turns a span between two lone stars into an em span
    and goes on after the closing star. *)
Theorem italic_span_between_lone_stars (pre inner post : string) :
  PyStr.contains PyStr.star pre = false ->
  inner <> "" ->
  PyStr.contains PyStr.star inner = false ->
  PyStr.contains PyStr.nl inner = false ->
  starts_with_star post = false ->
  sub_em (pre ++ "*" ++ inner ++ "*" ++ post)
  = pre ++ "<em>" ++ inner ++ "</em>" ++ sub_em post.
Proof.
  intros Hpre Hne Hs Hn Hp. unfold sub_em.
  now apply sub_em_span.
Qed.

Lemma italic_span_between_lone_stars_witness :
  sub_em ("an " ++ "*" ++ "odd" ++ "*" ++ " and an *even* number")
  = "an <em>odd</em> and an <em>even</em> number".
Proof.
  rewrite (italic_span_between_lone_stars "an " "odd" " and an *even* number");
    [reflexivity | reflexivity | discriminate | reflexivity | reflexivity
     | reflexivity].
Defined.

(** X8: the italic pass leaves the stars that come in runs of two or more. *)
Theorem star_runs_are_not_italic (s : string) :
  paired_stars false s = true -> sub_em s = s.
Proof. intros H. unfold sub_em. now apply sub_em_paired. Qed.

Lemma star_runs_are_not_italic_witness :
  sub_em "2 ** 3 *** 4" = "2 ** 3 *** 4".
Proof. exact (star_runs_are_not_italic "2 ** 3 *** 4" eq_refl). Defined.

Section TripleStars.

Lemma has_pair_absent (x : string) :
  PyStr.contains PyStr.star x = false ->
  PyStr.has_substring "**" (x ++ "*") = false.
Proof.
  induction x as [|c x IH]; [reflexivity|]. intros H.
  cbn [PyStr.contains] in H. apply orb_false_iff in H as [Hc H].
  cbn [append PyStr.has_substring]. rewrite (IH H), orb_false_r.
  unfold PyStr.startswith. cbn [PyStr.strip_prefix].
  rewrite Ascii.eqb_sym. change "*"%char with PyStr.star. now rewrite Hc.
Qed.

Lemma has_pair_starred (x : string) :
  x <> "" ->
  PyStr.contains PyStr.star x = false ->
  PyStr.has_substring "**" (("*" ++ x) ++ "*") = false.
Proof.
  intros Hne H.
  change (PyStr.has_substring "**" (("*" ++ x) ++ "*"))
    with (PyStr.startswith "**" (String "*" (x ++ "*"))
          || PyStr.has_substring "**" (x ++ "*")).
  rewrite (has_pair_absent x H), orb_false_r.
  destruct x as [|c x']; [congruence|].
  cbn [PyStr.contains] in H. apply orb_false_iff in H as [Hc _].
  unfold PyStr.startswith. cbn [append PyStr.strip_prefix].
  change (Ascii.eqb "*" "*") with true. cbv iota.
  rewrite Ascii.eqb_sym. change "*"%char with PyStr.star. now rewrite Hc.
Qed.

Lemma has_substring_skip (y : ascii) (p a b : string) :
  PyStr.contains y a = false ->
  PyStr.has_substring (String y p) (a ++ b) = PyStr.has_substring (String y p) b.
Proof.
  induction a as [|x a IH]; [reflexivity|]. intros H.
  cbn [PyStr.contains] in H. apply orb_false_iff in H as [Hx H].
  cbn [append PyStr.has_substring]. rewrite (IH H).
  unfold PyStr.startswith at 1. cbn [PyStr.strip_prefix].
  rewrite Ascii.eqb_sym, Hx. reflexivity.
Qed.

Lemma collapse_quiet (s : string) :
  PyStr.has_substring br s = false -> collapse_breaks s = s.
Proof.
  unfold collapse_breaks. induction s as [|x s IH]; [reflexivity|]. intros H.
  cbn [PyStr.has_substring] in H. apply orb_false_iff in H as [H1 H2].
  cbn [collapse_from]. rewrite (br_run_none _ _ H1).
  cbn [Nat.leb]. now rewrite (IH H2).
Qed.

Lemma inert_or_star (c : ascii) :
  inert_char c || Ascii.eqb c PyStr.star = true ->
  negb (is_ctrl c) = true
  /\ negb (Ascii.eqb c PyStr.cr) = true
  /\ negb (is_html_special c) && negb (is_quote c) = true.
Proof.
  destruct c as [[] [] [] [] [] [] [] []]; intros H; try discriminate H;
    repeat split.
Qed.

Lemma inert_parts (x : string) :
  PyStr.all inert_char x = true ->
  PyStr.contains PyStr.star x = false
  /\ PyStr.contains PyStr.nl x = false
  /\ PyStr.contains "<" x = false.
Proof.
  intros H. repeat split;
    apply (all_contains inert_char _ x); try exact H; reflexivity.
Qed.

Lemma one_line_translation (t r : string) :
  sub_em
    (sub_bold
       (escape
          (PyStr.replace "[br]" newline
             (PyStr.replace (String PyStr.cr "") newline
                (PyStr.replace (String PyStr.cr newline) newline
                   (ctrl_sub t)))))) = r ->
  PyStr.contains PyStr.nl r = false ->
  plain_line r = true ->
  PyStr.has_substring br r = false ->
  translate t = r.
Proof.
  intros Hp Hn Hl Hb. unfold translate, convert_markup_to_html.
  change (strip_control (VStr t)) with (ctrl_sub t).
  fold newline.
  change (String PyStr.cr (String PyStr.nl "")) with (String PyStr.cr newline).
  cbv zeta. rewrite Hp, (split_nl_single r Hn).
  rewrite html_lines_plain by (cbn [forallb]; now rewrite Hl).
  cbn [PyStr.join]. now apply collapse_quiet.
Qed.

End TripleStars.

(** X9: three stars on both sides of a text give a strong span and an em
    span that cross each other. *)
Theorem triple_stars_cross_the_tags (x : string) :
  x <> "" ->
  PyStr.all inert_char x = true ->
  PyStr.has_substring "[br]" x = false ->
  translate ("***" ++ x ++ "***") = "<strong><em>" ++ x ++ "</strong></em>".
Proof.
  intros Hne Hx Hbr.
  destruct (inert_parts x Hx) as (Hstar & Hnl & Hlt).
  assert (HT : PyStr.all (fun c => inert_char c || Ascii.eqb c PyStr.star)
                         ("***" ++ x ++ "***") = true).
  { rewrite !all_append. cbn [PyStr.all andb].
    change (inert_char "*" || Ascii.eqb "*" PyStr.star) with true. cbn [andb].
    rewrite (all_impl inert_char _ x); [reflexivity | | exact Hx].
    intros c ->. reflexivity. }
  assert (Hcr : PyStr.contains PyStr.cr ("***" ++ x ++ "***") = false)
    by (apply (all_contains
                 (fun c => inert_char c || Ascii.eqb c PyStr.star)
                 PyStr.cr _ eq_refl HT)).
  apply one_line_translation.
  - rewrite ctrl_sub_fixed
      by (revert HT; apply all_impl; intros c Hc;
          now destruct (inert_or_star c Hc)).
    rewrite (replace_absent (String PyStr.cr newline))
      by (apply has_substring_absent; exact Hcr).
    rewrite (replace_absent (String PyStr.cr ""))
      by (apply has_substring_absent; exact Hcr).
    rewrite (replace_absent "[br]").
    2:{ change ("***" ++ x ++ "***") with ("**" ++ String "*" (x ++ "***")).
        rewrite (has_substring_lines "*" "[" "br]" "**" (x ++ "***") eq_refl).
        change (x ++ "***") with (x ++ String "*" "**").
        rewrite (has_substring_lines "*" "[" "br]" x "**" eq_refl), Hbr.
        reflexivity. }
    rewrite escape_fixed
      by (revert HT; apply all_impl; intros c Hc;
          now destruct (inert_or_star c Hc) as (_ & _ & ->)).
    change ("***" ++ x ++ "***") with ("" ++ "**" ++ ("*" ++ x) ++ "**" ++ "*").
    rewrite sub_bold_span;
      [ | reflexivity | discriminate
        | now apply has_pair_starred
        | cbn [append PyStr.contains]; now rewrite Hnl ].
    change ("" ++ "<strong>" ++ ("*" ++ x) ++ "</strong>" ++ sub_bold "*")
      with ("<strong>" ++ "*" ++ (x ++ "</strong>" ++ "*")).
    rewrite <- (append_assoc x "</strong>" "*").
    change ((x ++ "</strong>") ++ "*") with ((x ++ "</strong>") ++ "*" ++ "").
    unfold sub_em. rewrite sub_em_span;
      [ | reflexivity | reflexivity | now apply append_nonempty_l
        | rewrite contains_append, Hstar; reflexivity
        | rewrite contains_append, Hnl; reflexivity
        | reflexivity ].
    cbn [append sub_em sub_em_from]. now rewrite !append_assoc.
  - cbn [append PyStr.contains Ascii.eqb Bool.eqb orb].
    change (PyStr.contains PyStr.nl (x ++ "</strong></em>") = false).
    rewrite contains_append, Hnl. reflexivity.
  - reflexivity.
  - change ("<strong><em>" ++ x ++ "</strong></em>")
      with ("<strong><em>" ++ (x ++ "</strong></em>")).
    transitivity (PyStr.has_substring br (x ++ "</strong></em>"));
      [reflexivity|].
    unfold br. rewrite (has_substring_skip "<" "br/>" x _ Hlt). reflexivity.
Qed.

Lemma triple_stars_cross_the_tags_witness :
  translate "***both***" = "<strong><em>both</strong></em>".
Proof.
  apply (triple_stars_cross_the_tags "both");
    [discriminate | reflexivity | reflexivity].
Defined.

(** ** The angle brackets of the translation *)
Section Tagged.

Lemma tagged_app (a b : string) : tagged a -> tagged b -> tagged (a ++ b).
Proof.
  intros Ha Hb. induction Ha as [|c s Hc Hs IH|t s Ht Hs IH].
  - exact Hb.
  - cbn [append]. now apply tagged_char.
  - rewrite append_assoc. now apply tagged_tag.
Qed.

Lemma tagged_plain (s : string) :
  PyStr.all (fun c => negb (is_angle c)) s = true -> tagged s.
Proof.
  induction s as [|c s IH]; [constructor|]. simpl. intros H.
  apply andb_prop in H. destruct H as [Hc Hs].
  apply tagged_char; [now apply negb_true_iff | now apply IH].
Qed.

Lemma tagged_one (t : string) : In t tags -> tagged t.
Proof.
  intros H. rewrite <- (append_nil_r t). apply tagged_tag; [exact H|constructor].
Qed.

Lemma outside_tag (c : ascii) (t : string) :
  outside c = true -> In t tags -> PyStr.contains c t = false.
Proof.
  unfold outside. intros H Ht.
  pose proof (proj1 (forallb_forall _ _) H t Ht) as E.
  now apply negb_true_iff in E.
Qed.

Lemma outside_not_angle (c : ascii) : outside c = true -> is_angle c = false.
Proof. destruct c as [[] [] [] [] [] [] [] []]; intros H; try discriminate H; reflexivity. Qed.

(** A tag at the head of a text that is cut at a character outside the
    tags lies before the cut. *)
Lemma tag_before_cut (c : ascii) (t s a b : string) :
  PyStr.contains c t = false ->
  t ++ s = a ++ String c b ->
  exists a', a = t ++ a' /\ s = a' ++ String c b.
Proof.
  revert a. induction t as [|y t IH]; intros a Hc E.
  - exists a. split; [reflexivity | exact E].
  - cbn [PyStr.contains] in Hc. apply orb_false_iff in Hc as [Hy Hc].
    destruct a as [|x a]; cbn [append] in E; inversion E; subst.
    + rewrite Ascii.eqb_refl in Hy. discriminate.
    + destruct (IH a Hc H1) as [a' [-> ->]]. exists a'. split; reflexivity.
Qed.

Lemma tagged_cut (c : ascii) (a b : string) :
  outside c = true -> tagged (a ++ String c b) -> tagged a /\ tagged b.
Proof.
  intros Hc H. remember (a ++ String c b) as z eqn:E.
  revert a E. induction H as [|x s Hx Hs IH|t s Ht Hs IH]; intros a E.
  - destruct a; discriminate.
  - destruct a as [|y a]; cbn [append] in E; inversion E; subst.
    + split; [constructor | exact Hs].
    + destruct (IH a eq_refl) as [Ha Hb].
      split; [now apply tagged_char | exact Hb].
  - destruct (tag_before_cut c t s a b (outside_tag c t Hc Ht) E)
      as [a' [-> E']].
    destruct (IH a' E') as [Ha Hb].
    split; [now apply tagged_tag | exact Hb].
Qed.

Lemma tagged_tail (c : ascii) (s : string) :
  outside c = true -> tagged (String c s) -> tagged s.
Proof. intros Hc H. exact (proj2 (tagged_cut c "" s Hc H)). Qed.

Lemma marker_char_outside (c : ascii) :
  PyStr.isspace c || PyStr.isdigit c || Ascii.eqb c "-" || Ascii.eqb c "."
  || Ascii.eqb c ")" || Ascii.eqb c PyStr.star || Ascii.eqb c PyStr.nl = true ->
  outside c = true.
Proof. destruct c as [[] [] [] [] [] [] [] []]; intros H; try discriminate H; reflexivity. Qed.

Lemma space_outside (c : ascii) : PyStr.isspace c = true -> outside c = true.
Proof. intros H. apply marker_char_outside. now rewrite H. Qed.

Lemma digit_outside (c : ascii) : PyStr.isdigit c = true -> outside c = true.
Proof. intros H. apply marker_char_outside. rewrite H. now rewrite orb_true_r. Qed.

Lemma tagged_lstrip (s : string) : tagged s -> tagged (PyStr.lstrip s).
Proof.
  induction s as [|c s IH]; [auto|]. intros H. simpl.
  destruct (PyStr.isspace c) eqn:Hc; [|exact H].
  apply IH. exact (tagged_tail c s (space_outside c Hc) H).
Qed.

Lemma rstrip_head (c : ascii) (s : string) :
  PyStr.isspace c = false ->
  PyStr.rstrip (String c s) = String c (PyStr.rstrip s).
Proof. intros H. simpl. rewrite H. now destruct (PyStr.rstrip s). Qed.

Lemma rstrip_tag (t s : string) :
  In t tags -> PyStr.rstrip (t ++ s) = t ++ PyStr.rstrip s.
Proof.
  intros Ht. cbv [tags In] in Ht.
  repeat (destruct Ht as [<-|Ht];
          [cbn [append]; now rewrite !rstrip_head by reflexivity|]).
  destruct Ht.
Qed.

Lemma tagged_rstrip (s : string) : tagged s -> tagged (PyStr.rstrip s).
Proof.
  induction 1 as [|c s Hc Hs IH|t s Ht Hs IH].
  - constructor.
  - simpl. destruct (PyStr.rstrip s) as [|d r].
    + destruct (PyStr.isspace c); [constructor|].
      apply tagged_char; [exact Hc | constructor].
    + now apply tagged_char.
  - rewrite (rstrip_tag t s Ht). now apply tagged_tag.
Qed.

Lemma tagged_strip (s : string) : tagged s -> tagged (PyStr.strip s).
Proof. intros H. unfold PyStr.strip. now apply tagged_rstrip, tagged_lstrip. Qed.

End Tagged.

Section TaggedPasses.

Lemma escape_no_angle (s : string) :
  PyStr.all (fun c => negb (is_angle c)) (escape s) = true.
Proof.
  induction s as [|c s IH]; [reflexivity|]. simpl.
  rewrite all_append, IH, andb_true_r. unfold escape_char.
  destruct (Ascii.eqb c "&"); [reflexivity|].
  destruct (Ascii.eqb c "<") eqn:E1; [reflexivity|].
  destruct (Ascii.eqb c ">") eqn:E2; [reflexivity|].
  destruct (Ascii.eqb c "034"); [reflexivity|].
  destruct (Ascii.eqb c "'"); [reflexivity|].
  simpl. unfold is_angle. now rewrite E1, E2.
Qed.

(** The bold pass, on a text with no angle bracket. *)
Lemma sub_bold_tagged (s : string) (skip : nat) :
  PyStr.all (fun c => negb (is_angle c)) s = true ->
  tagged (sub_bold_from skip s).
Proof.
  revert skip. induction s as [|c r IH]; intros skip Hs; [constructor|].
  pose proof Hs as Hs'.
  simpl in Hs. apply andb_prop in Hs. destruct Hs as [Hc Hr].
  cbn [sub_bold_from]. destruct skip as [|k]; [|now apply IH].
  destruct (match_bold (String c r)) as [inner|] eqn:E.
  - apply (tagged_tag "<strong>"); [simpl; tauto|].
    apply tagged_app.
    + apply tagged_plain.
      exact (match_bold_kept _ (String c r) inner E Hs').
    + apply (tagged_tag "</strong>"); [simpl; tauto|]. now apply IH.
  - apply tagged_char; [now apply negb_true_iff | now apply IH].
Qed.

Lemma lazy_dots_em_split (s inner : string) :
  lazy_dots_em s = Some inner ->
  exists post, s = inner ++ String PyStr.star post.
Proof.
  revert inner. induction s as [|c r IH]; intros inner; cbn [lazy_dots_em];
    [discriminate|].
  destruct (Ascii.eqb c PyStr.nl); [discriminate|].
  destruct r as [|d r']; [discriminate|].
  destruct (negb (Ascii.eqb c PyStr.star) && Ascii.eqb d PyStr.star
            && negb (starts_with_star r')) eqn:E.
  - intros H. inversion H. subst inner.
    apply andb_prop in E. destruct E as [E _].
    apply andb_prop in E. destruct E as [_ E].
    apply Ascii.eqb_eq in E. subst d. exists r'. reflexivity.
  - destruct (lazy_dots_em (String d r')) as [i|] eqn:Hi; [|discriminate].
    intros H. inversion H. subst inner.
    destruct (IH i eq_refl) as [post Hp]. exists post.
    cbn [append]. now rewrite Hp.
Qed.

Lemma tag_no_star (t : string) :
  In t tags -> PyStr.contains PyStr.star t = false.
Proof. apply outside_tag. reflexivity. Qed.

Lemma tag_length (t : string) : In t tags -> (1 <= length t)%nat.
Proof.
  intros Ht. cbv [tags In] in Ht.
  repeat (destruct Ht as [<-|Ht]; [simpl; lia|]). destruct Ht.
Qed.

(** The italic pass, on a text whose angle brackets belong to tags. *)
Lemma sub_em_tagged (n : nat) (s : string) (prev : option ascii) :
  (length s <= n)%nat -> tagged s -> tagged (sub_em_from 0 prev s).
Proof.
  revert s prev. induction n as [|n IH]; intros s prev Hl H.
  - destruct s; [constructor | simpl in Hl; lia].
  - inversion H as [|c s' Hc Hs' E|t s' Ht Hs' E]; subst.
    + constructor.
    + simpl in Hl. cbn [sub_em_from].
      destruct (match_em prev (String c s')) as [inner|] eqn:Em.
      * rewrite match_em_star_before in Em.
        destruct (_ && _ && _); [|discriminate].
        destruct (lazy_dots_em_split s' inner Em) as [post Hp]. subst s'.
        destruct (tagged_cut PyStr.star inner post eq_refl Hs') as [Hi Hpost].
        apply (tagged_tag "<em>"); [simpl; tauto|].
        apply tagged_app; [exact Hi|].
        apply (tagged_tag "</em>"); [simpl; tauto|].
        replace (length inner + 1)%nat
          with (length (inner ++ String PyStr.star ""))
          by apply length_append.
        change (inner ++ String PyStr.star post)
          with (inner ++ (String PyStr.star "" ++ post)).
        rewrite <- (append_assoc inner (String PyStr.star "") post).
        rewrite sub_em_skip. apply IH; [|exact Hpost].
        rewrite !length_append in Hl. simpl in Hl. lia.
      * apply tagged_char; [exact Hc|]. apply IH; [lia | exact Hs'].
    + rewrite (sub_em_prefix t s' prev (tag_no_star t Ht)).
      apply tagged_tag; [exact Ht|]. apply IH; [|exact Hs'].
      rewrite length_append in Hl. pose proof (tag_length t Ht). lia.
Qed.

Lemma split_nl_nonempty (s : string) : PyStr.split_nl s <> [].
Proof.
  induction s as [|c s IH]; [discriminate|]. cbn [PyStr.split_nl].
  destruct (Ascii.eqb c PyStr.nl); [discriminate|].
  destruct (PyStr.split_nl s); discriminate.
Qed.

Lemma split_nl_head (t s : string) :
  PyStr.contains PyStr.nl t = false ->
  PyStr.split_nl (t ++ s)
  = match PyStr.split_nl s with
    | h :: tl => (t ++ h) :: tl
    | [] => [t]
    end.
Proof.
  induction t as [|c t IH]; intros H.
  - cbn [append]. pose proof (split_nl_nonempty s).
    destruct (PyStr.split_nl s); [congruence | reflexivity].
  - cbn [PyStr.contains] in H. apply orb_false_iff in H as [Hc H].
    cbn [append PyStr.split_nl]. rewrite Hc, (IH H).
    now destruct (PyStr.split_nl s).
Qed.

Lemma split_nl_tagged (s : string) :
  tagged s -> Forall tagged (PyStr.split_nl s).
Proof.
  induction 1 as [|c s Hc Hs IH|t s Ht Hs IH].
  - repeat constructor.
  - cbn [PyStr.split_nl]. destruct (Ascii.eqb c PyStr.nl).
    + constructor; [constructor | exact IH].
    + destruct (PyStr.split_nl s) as [|h tl].
      * repeat constructor. exact Hc.
      * inversion IH; subst. constructor; [now apply tagged_char | assumption].
  - rewrite (split_nl_head t s (outside_tag PyStr.nl t eq_refl Ht)).
    destruct (PyStr.split_nl s) as [|h tl].
    + constructor; [now apply tagged_one | constructor].
    + inversion IH; subst. constructor; [now apply tagged_tag | assumption].
Qed.

Lemma ul_marker_tagged (line body : string) :
  ul_marker line = Some body -> tagged line -> tagged body.
Proof.
  unfold ul_marker. intros H Hq. apply tagged_lstrip in Hq.
  destruct (PyStr.lstrip line) as [|c [|w r]];
    [discriminate
    | destruct c as [[] [] [] [] [] [] [] []]; discriminate |].
  destruct c as [[] [] [] [] [] [] [] []]; try discriminate.
  destruct (PyStr.isspace w) eqn:Hw; [|discriminate].
  inversion H. apply tagged_lstrip.
  apply (tagged_tail w r (space_outside w Hw)).
  exact (tagged_tail "-" (String w r) eq_refl Hq).
Qed.

Lemma skip_digits_tagged (s : string) : tagged s -> tagged (skip_digits s).
Proof.
  induction s as [|c s IH]; [auto|]. intros H. simpl.
  destruct (PyStr.isdigit c) eqn:Hc; [|exact H].
  apply IH. exact (tagged_tail c s (digit_outside c Hc) H).
Qed.

Lemma ol_marker_tagged (line body : string) :
  ol_marker line = Some body -> tagged line -> tagged body.
Proof.
  unfold ol_marker. intros H Hq. apply tagged_lstrip in Hq.
  destruct (PyStr.lstrip line) as [|d r]; [discriminate|].
  destruct (PyStr.isdigit d) eqn:Hd; [|discriminate].
  apply (tagged_tail d r (digit_outside d Hd)) in Hq.
  apply skip_digits_tagged in Hq.
  destruct (skip_digits r) as [|p [|w r']]; try discriminate.
  destruct ((Ascii.eqb p "." || Ascii.eqb p ")") && PyStr.isspace w) eqn:E;
    [|discriminate].
  apply andb_prop in E. destruct E as [Ep Ew].
  inversion H. apply tagged_lstrip.
  apply (tagged_tail w r' (space_outside w Ew)).
  apply (tagged_tail p _) in Hq; [exact Hq|].
  apply marker_char_outside.
  apply orb_true_iff in Ep. destruct Ep as [-> | ->];
    now rewrite ?orb_true_r.
Qed.

Lemma list_run_tagged (marker : string -> option string) (lines : list string) :
  (forall line body, marker line = Some body -> tagged line -> tagged body) ->
  Forall tagged lines ->
  Forall tagged (fst (list_run marker lines))
  /\ Forall tagged (snd (list_run marker lines)).
Proof.
  intros Hm. induction lines as [|l lines IH]; intros H; [now split|].
  inversion H as [|? ? Hl Hls]; subst.
  cbn [list_run]. destruct (marker l) as [body|] eqn:E; [|now split].
  destruct (IH Hls) as [H1 H2].
  destruct (list_run marker lines) as [items rest']. simpl in *.
  split; [|exact H2].
  constructor; [|exact H1]. apply tagged_strip. now apply (Hm l).
Qed.

Lemma concat_items_tagged (items : list string) :
  Forall tagged items -> tagged (PyStr.concat (map li items)).
Proof.
  induction 1 as [|i items Hi His IH]; [constructor|].
  cbn [map PyStr.concat]. unfold li at 1.
  rewrite !append_assoc.
  apply (tagged_tag "<li>"); [simpl; tauto|].
  apply tagged_app; [exact Hi|].
  apply (tagged_tag "</li>"); [simpl; tauto | exact IH].
Qed.

Lemma list_block_tagged (tag : string) (items : list string) :
  tag = "ul" \/ tag = "ol" ->
  Forall tagged items -> tagged (list_block tag items).
Proof.
  intros [-> | ->] Hi.
  - change (list_block "ul" items)
      with ("<ul>" ++ (PyStr.concat (map li items) ++ "</ul>")).
    apply tagged_tag; [simpl; tauto|].
    apply tagged_app; [now apply concat_items_tagged|].
    apply tagged_one. simpl; tauto.
  - change (list_block "ol" items)
      with ("<ol>" ++ (PyStr.concat (map li items) ++ "</ol>")).
    apply tagged_tag; [simpl; tauto|].
    apply tagged_app; [now apply concat_items_tagged|].
    apply tagged_one. simpl; tauto.
Qed.

Lemma scan_lines_tagged (fuel : nat) (lines : list string) :
  Forall tagged lines -> Forall tagged (scan_lines fuel lines).
Proof.
  revert lines. induction fuel as [|n IH]; intros lines H; [constructor|].
  cbn [scan_lines]. destruct lines as [|line rest]; [constructor|].
  destruct (is_some (ul_marker line)).
  - destruct (list_run_tagged ul_marker (line :: rest) ul_marker_tagged H)
      as [H1 H2].
    destruct (list_run ul_marker (line :: rest)) as [items rest'].
    cbn [fst snd] in *. constructor; [|now apply IH].
    apply list_block_tagged; [tauto | exact H1].
  - destruct (is_some (ol_marker line)).
    + destruct (list_run_tagged ol_marker (line :: rest) ol_marker_tagged H)
        as [H1 H2].
      destruct (list_run ol_marker (line :: rest)) as [items rest'].
      cbn [fst snd] in *. constructor; [|now apply IH].
      apply list_block_tagged; [tauto | exact H1].
    + inversion H; subst. constructor; [assumption | now apply IH].
Qed.

Lemma join_br_tagged (parts : list string) :
  Forall tagged parts -> tagged (PyStr.join br parts).
Proof.
  induction 1 as [|p parts Hp Hps IH]; [constructor|].
  cbn [PyStr.join]. destruct parts as [|p' parts']; [exact Hp|].
  apply tagged_app; [exact Hp|].
  apply (tagged_tag br); [simpl; tauto | exact IH].
Qed.

End TaggedPasses.

Section TaggedCollapse.

Lemma collapse_no_match (c : ascii) (r rest : string) (k : nat) :
  br_run (length (String c r)) (String c r) = (k, rest) ->
  (3 <=? k)%nat = false ->
  collapse_from 0 (String c r) = String c (collapse_from 0 r).
Proof. intros H Hk. cbn [collapse_from]. now rewrite H, Hk. Qed.

Lemma collapse_step (c : ascii) (r : string) :
  PyStr.strip_prefix br (String c r) = None ->
  collapse_from 0 (String c r) = String c (collapse_from 0 r).
Proof.
  intros H. apply (collapse_no_match c r (String c r) 0); [|reflexivity].
  apply br_run_none. unfold PyStr.startswith. now rewrite H.
Qed.

Lemma collapse_tag (t s : string) :
  In t tags -> t <> br ->
  collapse_from 0 (t ++ s) = t ++ collapse_from 0 s.
Proof.
  intros Ht Hne. cbv [tags In] in Ht.
  repeat (destruct Ht as [<-|Ht];
          [first [ now elim Hne
                 | cbn [append]; now rewrite !collapse_step by reflexivity ]|]).
  destruct Ht.
Qed.

Lemma tagged_after_br (r : string) : tagged (br ++ r) -> tagged r.
Proof.
  intros H. inversion H as [|c s Hc Hs|t s Ht Hs E]; [discriminate Hc|].
  cbv [tags In] in Ht.
  repeat (destruct Ht as [<-|Ht]; [try discriminate E|]);
    [|destruct Ht].
  cbn [append] in E. inversion E. now subst.
Qed.

Lemma br_run_tagged (n : nat) (s rest : string) (k : nat) :
  br_run n s = (k, rest) -> tagged s ->
  tagged rest /\ exists a, s = a ++ rest.
Proof.
  revert s rest k. induction n as [|n IH]; intros s rest k; cbn [br_run].
  - intros H Hs. inversion H; subst. split; [exact Hs | now exists ""].
  - destruct (PyStr.strip_prefix br s) as [r|] eqn:E.
    + destruct (br_run n (PyStr.lstrip r)) as [k' rest'] eqn:Hr.
      intros H Hs. inversion H; subst.
      apply strip_prefix_split in E. subst s.
      apply tagged_after_br in Hs.
      destruct (IH _ _ _ Hr (tagged_lstrip r Hs)) as [Ht [a Ha]].
      split; [exact Ht|].
      destruct (lstrip_split r) as [w [Hw _]].
      exists (br ++ w ++ a). rewrite Hw at 1. rewrite Ha.
      now rewrite !append_assoc.
    + intros H Hs. inversion H; subst. split; [exact Hs | now exists ""].
Qed.

Lemma br_run_consumes (n : nat) (s rest : string) (k : nat) :
  br_run n s = (k, rest) -> (1 <= k)%nat -> (length rest < length s)%nat.
Proof.
  revert s rest k. induction n as [|n IH]; intros s rest k; cbn [br_run].
  - intros H. inversion H; subst. lia.
  - destruct (PyStr.strip_prefix br s) as [r|] eqn:E.
    + destruct (br_run n (PyStr.lstrip r)) as [k' rest'] eqn:Hr.
      intros H _. inversion H; subst.
      apply strip_prefix_split in E. subst s.
      pose proof (lstrip_length r) as Hl.
      assert (length rest <= length (PyStr.lstrip r))%nat.
      { destruct k' as [|k''].
        - destruct n; cbn [br_run] in Hr.
          + inversion Hr; subst. lia.
          + destruct (PyStr.strip_prefix br (PyStr.lstrip r));
              [destruct (br_run n _); discriminate|].
            inversion Hr; subst. lia.
        - pose proof (IH _ _ _ Hr). lia. }
      rewrite length_append. simpl. lia.
    + intros H. inversion H; subst. lia.
Qed.

Lemma collapse_tagged (n : nat) (s : string) :
  (length s <= n)%nat -> tagged s -> tagged (collapse_from 0 s).
Proof.
  revert s. induction n as [|n IH]; intros s Hl H.
  - destruct s; [constructor | simpl in Hl; lia].
  - inversion H as [|c s' Hc Hs' E|t s' Ht Hs' E]; subst.
    + constructor.
    + simpl in Hl. rewrite collapse_step.
      * apply tagged_char; [exact Hc|]. apply IH; [lia | exact Hs'].
      * cbn [br PyStr.strip_prefix]. unfold is_angle in Hc.
        apply orb_false_iff in Hc as [Hc _].
        rewrite Ascii.eqb_sym. now rewrite Hc.
    + assert (Hs'l : (length s' <= n)%nat)
        by (rewrite length_append in Hl; pose proof (tag_length t Ht); lia).
      destruct (String.eqb t br) eqn:Eb.
      * apply String.eqb_eq in Eb. subst t.
        change (br ++ s') with (String "<" ("br/>" ++ s')) in *.
        destruct (br_run (length (String "<" ("br/>" ++ s')))
                         (String "<" ("br/>" ++ s'))) as [k rest] eqn:Hr.
        destruct (3 <=? k)%nat eqn:Hk.
        -- apply Nat.leb_le in Hk.
           rewrite (collapse_at_match _ _ _ _ Hr Hk).
           destruct (br_run_tagged _ _ _ _ Hr H) as [Hrest [a Ha]].
           assert (Hk1 : (1 <= k)%nat) by lia.
           pose proof (br_run_consumes _ _ _ _ Hr Hk1) as Hlt.
           apply (tagged_tag br); [simpl; tauto|].
           apply (tagged_tag br); [simpl; tauto|].
           destruct a as [|x a'].
           ++ change ("" ++ rest) with rest in Ha. rewrite <- Ha in Hlt. lia.
           ++ change (String x a' ++ rest) with (String x (a' ++ rest)) in Ha.
              assert (Ha' : "br/>" ++ s' = a' ++ rest) by (now inversion Ha).
              rewrite Ha'.
              replace (length (String "<" (a' ++ rest)) - length rest - 1)%nat
                with (length a')
                by (cbn [length]; rewrite length_append; lia).
              rewrite collapse_skip. apply IH; [|exact Hrest].
              simpl in Hl. simpl in Hlt. lia.
        -- rewrite (collapse_no_match _ _ _ _ Hr Hk).
           cbn [append]. rewrite !collapse_step by reflexivity.
           apply (tagged_tag br (collapse_from 0 s')); [simpl; tauto|].
           now apply IH.
      * apply String.eqb_neq in Eb. rewrite (collapse_tag t s' Ht Eb).
        apply tagged_tag; [exact Ht | now apply IH].
Qed.

End TaggedCollapse.

(** X4: every angle bracket of a translation belongs to one of the tags the
    translator writes: the text is made of characters that are no angle
    bracket and of whole tags. *)
Theorem translation_brackets_are_tags (v : value) :
  tagged (convert_markup_to_html v).
Proof.
  destruct v as [|b|z|f|s]; [constructor| | | |];
    unfold convert_markup_to_html; cbv zeta; unfold collapse_breaks;
    apply (collapse_tagged _ _ (le_n _));
    apply join_br_tagged, scan_lines_tagged, split_nl_tagged;
    apply (sub_em_tagged _ _ None (le_n _));
    apply sub_bold_tagged, escape_no_angle.
Qed.

(** ** The spellings of a line break *)
Section LineBreaks.

Lemma ctrl_sub_append (a b : string) :
  ctrl_sub (a ++ b) = ctrl_sub a ++ ctrl_sub b.
Proof.
  induction a as [|c a IH]; [reflexivity|]. simpl.
  destruct (is_ctrl c); simpl; now rewrite IH.
Qed.

Lemma contains_ctrl_sub (c : ascii) (s : string) :
  PyStr.contains c s = false -> PyStr.contains c (ctrl_sub s) = false.
Proof.
  induction s as [|x s IH]; [reflexivity|]. simpl. intros H.
  apply orb_false_iff in H as [Hx H].
  destruct (is_ctrl x); simpl; [now apply IH | now rewrite Hx, IH].
Qed.

Lemma startswith_length (p s : string) :
  PyStr.startswith p s = true -> (length p <= length s)%nat.
Proof.
  unfold PyStr.startswith. revert s. induction p as [|y p IH]; intros s;
    [simpl; lia|].
  destruct s as [|x s]; [discriminate|]. cbn [PyStr.strip_prefix length].
  destruct (Ascii.eqb y x); [|discriminate].
  intros H. apply IH in H. lia.
Qed.

Lemma startswith_cons (y x : ascii) (p s : string) :
  PyStr.startswith (String y p) (String x s)
  = Ascii.eqb y x && PyStr.startswith p s.
Proof.
  unfold PyStr.startswith. cbn [PyStr.strip_prefix].
  now destruct (Ascii.eqb y x).
Qed.

Lemma replace_skip (old new a b : string) :
  PyStr.replace_from (length a) old new (a ++ b)
  = PyStr.replace_from 0 old new b.
Proof. induction a as [|x a IH]; [reflexivity | exact IH]. Qed.

(** A cut before a character that the pattern holds at most as its first:
    no occurrence lies across the cut. *)
Lemma replace_cut (y c : ascii) (p new a rest : string) (skip : nat) :
  PyStr.contains c p = false ->
  (skip <= length a)%nat ->
  PyStr.replace_from skip (String y p) new (a ++ String c rest)
  = PyStr.replace_from skip (String y p) new a
    ++ PyStr.replace_from 0 (String y p) new (String c rest).
Proof.
  intros Hc.
  remember (PyStr.replace_from 0 (String y p) new (String c rest)) as tail
    eqn:Et.
  revert skip. induction a as [|x a IH]; intros skip Hl.
  - simpl in Hl. assert (skip = 0%nat) by lia. subst skip tail. reflexivity.
  - cbn [append PyStr.replace_from]. destruct skip as [|k].
    + change (String x (a ++ String c rest))
        with (String x a ++ String c rest).
      cbn [append]. rewrite !startswith_cons.
      rewrite (startswith_before c p a rest Hc).
      destruct (Ascii.eqb y x && PyStr.startswith p a) eqn:E.
      * apply andb_prop in E. destruct E as [_ E].
        apply startswith_length in E.
        rewrite IH by (cbn [length]; lia). now rewrite append_assoc.
      * cbn [append]. now rewrite IH by lia.
    + apply IH. simpl in Hl. lia.
Qed.

Lemma translate_unified (t : string) :
  translate t
  = collapse_breaks
      (PyStr.join br
         (html_lines (PyStr.split_nl (sub_em (sub_bold (escape (unified t))))))).
Proof. reflexivity. Qed.

Lemma replace_quiet (c : ascii) (p new s : string) :
  PyStr.contains c s = false -> PyStr.replace (String c p) new s = s.
Proof. intros H. apply replace_absent. now apply has_substring_absent. Qed.

Lemma unified_spelling (a b x : string) :
  In x newline_spellings ->
  PyStr.contains PyStr.cr a = false ->
  PyStr.contains PyStr.cr b = false ->
  PyStr.startswith newline (ctrl_sub b) = false ->
  unified (a ++ x ++ b)
  = PyStr.replace "[br]" newline (ctrl_sub a)
    ++ newline ++ PyStr.replace "[br]" newline (ctrl_sub b).
Proof.
  intros Hx Ha Hb Hn. unfold unified.
  apply (contains_ctrl_sub PyStr.cr) in Ha, Hb.
  rewrite !ctrl_sub_append.
  set (A := ctrl_sub a) in *. set (B := ctrl_sub b) in *.
  assert (Hnl : PyStr.replace "[br]" newline (A ++ String PyStr.nl B)
                = PyStr.replace "[br]" newline A
                  ++ newline ++ PyStr.replace "[br]" newline B).
  { unfold PyStr.replace.
    rewrite (replace_cut "[" PyStr.nl "br]" newline A B 0 eq_refl (Nat.le_0_l _)).
    reflexivity. }
  assert (Hq : forall s, PyStr.contains PyStr.cr s = false ->
                 PyStr.replace (String PyStr.cr "") newline
                   (PyStr.replace (String PyStr.cr newline) newline s) = s).
  { intros s Hs.
    now rewrite (replace_quiet PyStr.cr newline newline s Hs),
      (replace_quiet PyStr.cr "" newline s Hs). }
  cbv [newline_spellings In] in Hx.
  destruct Hx as [<-|[<-|[<-|[<-|[]]]]].
  - change (ctrl_sub (String PyStr.cr newline)) with (String PyStr.cr newline).
    change (A ++ String PyStr.cr newline ++ B)
      with (A ++ String PyStr.cr (String PyStr.nl B)).
    unfold PyStr.replace at 3.
    rewrite (replace_cut PyStr.cr PyStr.cr newline newline A _ 0 eq_refl
               (Nat.le_0_l _)).
    change (PyStr.replace_from 0 (String PyStr.cr newline) newline
              (String PyStr.cr (String PyStr.nl B)))
      with (newline ++ PyStr.replace (String PyStr.cr newline) newline B).
    fold (PyStr.replace (String PyStr.cr newline) newline A).
    rewrite (replace_quiet PyStr.cr newline newline A Ha).
    rewrite (replace_quiet PyStr.cr newline newline B Hb).
    rewrite (replace_quiet PyStr.cr "" newline (A ++ newline ++ B))
      by (rewrite contains_append; cbn [newline append PyStr.contains];
          now rewrite Ha, Hb).
    exact Hnl.
  - change (ctrl_sub (String PyStr.cr "")) with (String PyStr.cr "").
    change (A ++ String PyStr.cr "" ++ B) with (A ++ String PyStr.cr B).
    unfold PyStr.replace at 3.
    rewrite (replace_cut PyStr.cr PyStr.cr newline newline A _ 0 eq_refl
               (Nat.le_0_l _)).
    fold (PyStr.replace (String PyStr.cr newline) newline A).
    rewrite (replace_quiet PyStr.cr newline newline A Ha).
    cbn [PyStr.replace_from]. rewrite startswith_cons, Hn, andb_false_r.
    fold (PyStr.replace (String PyStr.cr newline) newline B).
    rewrite (replace_quiet PyStr.cr newline newline B Hb).
    unfold PyStr.replace at 2.
    rewrite (replace_cut PyStr.cr PyStr.cr "" newline A _ 0 eq_refl
               (Nat.le_0_l _)).
    change (PyStr.replace_from 0 (String PyStr.cr "") newline
              (String PyStr.cr B))
      with (newline ++ PyStr.replace (String PyStr.cr "") newline B).
    fold (PyStr.replace (String PyStr.cr "") newline A).
    rewrite (replace_quiet PyStr.cr "" newline A Ha).
    rewrite (replace_quiet PyStr.cr "" newline B Hb).
    exact Hnl.
  - change (ctrl_sub "[br]") with "[br]".
    rewrite Hq
      by (rewrite !contains_append, Ha, Hb; reflexivity).
    change (A ++ "[br]" ++ B) with (A ++ String "[" ("br]" ++ B)).
    unfold PyStr.replace.
    rewrite (replace_cut "[" "[" "br]" newline A _ 0 eq_refl (Nat.le_0_l _)).
    reflexivity.
  - change (ctrl_sub newline) with newline.
    change (A ++ newline ++ B) with (A ++ String PyStr.nl B).
    rewrite Hq
      by (rewrite contains_append; cbn [PyStr.contains]; now rewrite Ha, Hb).
    exact Hnl.
Qed.

End LineBreaks.

(** X6: the spellings of a line break (CR LF, a bare CR, the break token and
    LF) translate alike. *)
Theorem line_break_spellings_agree (a b x : string) :
  In x newline_spellings ->
  PyStr.contains PyStr.cr a = false ->
  PyStr.contains PyStr.cr b = false ->
  PyStr.startswith newline (ctrl_sub b) = false ->
  translate (a ++ x ++ b) = translate (a ++ newline ++ b).
Proof.
  intros Hx Ha Hb Hn. rewrite !translate_unified.
  rewrite (unified_spelling a b x Hx Ha Hb Hn).
  rewrite (unified_spelling a b newline) by (simpl; tauto).
  reflexivity.
Qed.

Lemma line_break_spellings_agree_witness :
  translate ("one" ++ String PyStr.cr newline ++ "two")
  = translate ("one" ++ newline ++ "two")
  /\ translate ("one" ++ "[br]" ++ "two") = "one<br/>two".
Proof.
  split.
  - apply line_break_spellings_agree; [simpl; tauto | reflexivity ..].
  - rewrite (line_break_spellings_agree "one" "two" "[br]");
      [reflexivity | simpl; tauto | reflexivity ..].
Defined.

(** ** Whole fractions *)
Section WholeFractions.

Lemma percent_range_checked : forallb whole_fraction percent_range = true.
Proof. vm_compute. reflexivity. Qed.

Lemma in_percent_range (z : Z) : (-100 <= z <= 100)%Z -> In z percent_range.
Proof.
  intros H. unfold percent_range. apply in_map_iff.
  exists (Z.to_nat (z + 100)). split; [lia|].
  apply in_seq. lia.
Qed.

Lemma repr_at_exponent (s : bool) (m : positive) (e : Z) :
  PyFloat.repr (S754_finite s m e)
  = repr_at (PyFloat.decimal_exponent 640 (-324) (PyFloat.magnitude m e)) s m e.
Proof.
  unfold PyFloat.repr, PyFloat.shortest_digits, repr_at.
  now destruct (PyFloat.shortest_from 17 1 m e _).
Qed.

Lemma decimal_exponent_exact (x : Q) (k : Z) :
  (-323 <= k <= 316)%Z ->
  (10 ^ (k - 1) <= x)%Q -> (x < 10 ^ k)%Q ->
  PyFloat.decimal_exponent 640 (-324) x = k.
Proof.
  intros Hk Hlo Hhi.
  pose proof (decimal_exponent_above 640 (-324) (k - 1) x Hlo ltac:(lia)).
  pose proof (decimal_exponent_below 640 (-324) k x Hhi ltac:(lia)).
  lia.
Qed.

Lemma whole_fraction_sound (z : Z) :
  whole_fraction z = true ->
  PyFloat.repr (clamp (clean_float (VInt z) zero)) = py_str (VInt z) ++ ".0".
Proof.
  unfold whole_fraction.
  destruct (clamp (clean_float (VInt z) zero)) as [s|s| |s m e];
    try (intros H; now apply String.eqb_eq in H).
  cbv zeta.
  set (k := if PyFloat.Qlt_bool (PyFloat.magnitude m e) 10 then 1%Z
            else if PyFloat.Qlt_bool (PyFloat.magnitude m e) 100 then 2%Z
                 else 3%Z).
  intros H. apply andb_prop in H. destruct H as [H He].
  apply andb_prop in H. destruct H as [Hlo Hhi].
  apply Qle_bool_iff in Hlo. apply Qlt_bool_true in Hhi.
  apply String.eqb_eq in He.
  rewrite repr_at_exponent, (decimal_exponent_exact _ k); try assumption.
  unfold k. destruct (PyFloat.Qlt_bool _ 10); [lia|].
  destruct (PyFloat.Qlt_bool _ 100); lia.
Qed.

Lemma whole_fraction_text (z : Z) :
  (-100 <= z <= 100)%Z ->
  PyFloat.repr (clamp (clean_float (VInt z) zero)) = py_str (VInt z) ++ ".0".
Proof.
  intros H. apply whole_fraction_sound.
  exact (proj1 (forallb_forall _ _) percent_range_checked z
               (in_percent_range z H)).
Qed.

End WholeFractions.

(** X18: a fraction cell that holds an integer between -100 and 100 is
    emitted as that integer with one decimal. *)
Theorem whole_fraction_gets_one_decimal (qrow : row) (index : Z)
        (category : string) (i : Z) (a : element) (z : Z) :
  In i choice_indices ->
  nth_error (answers (question_multichoice_xml qrow index category))
            (Z.to_nat (i - 1)) = Some a ->
  row_get qrow (column "Fraction" i) = VInt z ->
  (-100 <= z <= 100)%Z ->
  fraction_attr a = Some (py_str (VInt z) ++ ".0").
Proof.
  intros Hi Ha Hcell Hz.
  rewrite (nth_answer qrow index category i a Hi Ha).
  unfold answer_node, fraction_attr, answer_fraction.
  cbn [attrib_of attrib_get String.eqb Ascii.eqb Bool.eqb].
  rewrite Hcell. f_equal. now apply whole_fraction_text.
Qed.

Lemma whole_fraction_gets_one_decimal_witness :
  fraction_attr (answer_node (fraction_row (VInt 100) (VInt (-25)) (VInt 0)
                                           (VInt 0) (VInt 0)) 2)
  = Some "-25.0".
Proof.
  apply (whole_fraction_gets_one_decimal
           (fraction_row (VInt 100) (VInt (-25)) (VInt 0) (VInt 0) (VInt 0))
           0 "" 2 _ (-25)).
  - simpl. tauto.
  - reflexivity.
  - reflexivity.
  - lia.
Defined.

(** ** The breaks of the translation *)
Section Breaks.

Lemma breaks_at_br (y : string) :
  breaks_at (br ++ y) = S (breaks_at (PyStr.lstrip y)).
Proof.
  unfold breaks_at.
  change (length (br ++ y)) with (S (4 + length y)).
  cbn [br_run]. rewrite strip_prefix_append.
  pose proof (lstrip_length y).
  rewrite (br_run_fuel (4 + length y) (length (PyStr.lstrip y)))
    by lia.
  now destruct (br_run _ (PyStr.lstrip y)).
Qed.

Lemma breaks_at_none (s : string) :
  PyStr.startswith br s = false -> breaks_at s = 0%nat.
Proof. intros H. unfold breaks_at. now rewrite br_run_none. Qed.

Lemma breaks_at_some (s : string) :
  PyStr.startswith br s = true ->
  exists y, s = br ++ y /\ breaks_at s = S (breaks_at (PyStr.lstrip y)).
Proof.
  unfold PyStr.startswith.
  destruct (PyStr.strip_prefix br s) as [y|] eqn:E; [|discriminate].
  intros _. apply strip_prefix_split in E. subst s.
  exists y. split; [reflexivity | apply breaks_at_br].
Qed.

Lemma lstrip_lstrip (s : string) :
  PyStr.lstrip (PyStr.lstrip s) = PyStr.lstrip s.
Proof.
  induction s as [|c s IH]; [reflexivity|]. simpl.
  destruct (PyStr.isspace c) eqn:E; [exact IH|]. simpl. now rewrite E.
Qed.

Lemma lstrip_head (c : ascii) (s : string) :
  PyStr.lstrip (String c s) = String c s -> PyStr.isspace c = false.
Proof.
  simpl. destruct (PyStr.isspace c); [|reflexivity].
  intros H. pose proof (lstrip_length s) as Hl. rewrite H in Hl.
  simpl in Hl. lia.
Qed.

Lemma br_run_rest (n : nat) (s rest : string) (k : nat) :
  (length s <= n)%nat ->
  br_run n s = (k, rest) ->
  PyStr.startswith br rest = false
  /\ ((1 <= k)%nat -> PyStr.lstrip rest = rest)
  /\ exists a, s = a ++ rest.
Proof.
  revert s rest k. induction n as [|n IH]; intros s rest k Hl; cbn [br_run].
  - intros H. inversion H; subst. destruct rest; [|simpl in Hl; lia].
    split; [reflexivity|]. split; [reflexivity|]. now exists "".
  - destruct (PyStr.strip_prefix br s) as [r|] eqn:E.
    + destruct (br_run n (PyStr.lstrip r)) as [k' rest'] eqn:Hr.
      intros H. inversion H; subst.
      apply strip_prefix_split in E. subst s.
      rewrite length_append in Hl. simpl in Hl.
      pose proof (lstrip_length r) as Hlr.
      assert (Hn : (length (PyStr.lstrip r) <= n)%nat) by lia.
      destruct (IH _ _ _ Hn Hr) as [H1 [H2 [a Ha]]].
      split; [exact H1|]. split.
      * intros _. destruct k' as [|k''].
        -- destruct n; cbn [br_run] in Hr.
           ++ inversion Hr; subst. apply lstrip_lstrip.
           ++ destruct (PyStr.strip_prefix br (PyStr.lstrip r));
                [destruct (br_run n _); discriminate|].
              inversion Hr; subst. apply lstrip_lstrip.
        -- apply H2. lia.
      * destruct (lstrip_split r) as [w [Hw _]].
        exists (br ++ w ++ a). rewrite Hw at 1. rewrite Ha.
        now rewrite !append_assoc.
    + intros H. inversion H; subst.
      unfold PyStr.startswith. rewrite E.
      split; [reflexivity|]. split; [lia|]. now exists "".
Qed.

Lemma collapse_small (c : ascii) (r : string) :
  (breaks_at (String c r) < 3)%nat ->
  collapse_from 0 (String c r) = String c (collapse_from 0 r).
Proof.
  unfold breaks_at. intros H.
  destruct (br_run (length (String c r)) (String c r)) as [k rest] eqn:Hr.
  apply (collapse_no_match c r rest k Hr). apply Nat.leb_gt. exact H.
Qed.

Lemma collapse_large (c : ascii) (r : string) :
  (3 <= breaks_at (String c r))%nat ->
  exists rest,
    collapse_from 0 (String c r) = br ++ br ++ collapse_from 0 rest
    /\ (length rest < length (String c r))%nat
    /\ PyStr.startswith br rest = false
    /\ PyStr.lstrip rest = rest
    /\ c = "<"%char.
Proof.
  unfold breaks_at. intros H.
  destruct (br_run (length (String c r)) (String c r)) as [k rest] eqn:Hr.
  cbn [fst] in H.
  destruct (br_run_rest _ _ _ _ (le_n _) Hr) as [H1 [H2 [a Ha]]].
  assert (Hk1 : (1 <= k)%nat) by lia.
  pose proof (br_run_consumes _ _ _ _ Hr Hk1) as Hlt.
  exists rest. rewrite (collapse_at_match _ _ _ _ Hr H).
  destruct a as [|x a'].
  - change ("" ++ rest) with rest in Ha. rewrite <- Ha in Hlt. lia.
  - change (String x a' ++ rest) with (String x (a' ++ rest)) in Ha.
    assert (Hx : c = x) by (now inversion Ha).
    assert (Ha' : r = a' ++ rest) by (now inversion Ha).
    split; [|split; [exact Hlt | split; [exact H1 | split; [apply H2; lia|]]]].
    + rewrite Ha'.
      replace (length (String c (a' ++ rest)) - length rest - 1)%nat
        with (length a') by (cbn [length]; rewrite length_append; lia).
      now rewrite collapse_skip.
    + assert (Hs : PyStr.startswith br (String c r) = true).
      { destruct (PyStr.startswith br (String c r)) eqn:E; [reflexivity|].
        rewrite (br_run_none _ _ E) in Hr. inversion Hr. lia. }
      unfold PyStr.startswith in Hs. cbn [br PyStr.strip_prefix] in Hs.
      destruct (Ascii.eqb "<" c) eqn:E; [|discriminate].
      apply Ascii.eqb_eq in E. now subst.
Qed.

Lemma breaks_cases (s : string) :
  (breaks_at s < 3)%nat \/ (3 <= breaks_at s)%nat.
Proof. lia. Qed.

(** A pattern without the opening bracket that starts the result of the
    collapse starts its argument. *)
Lemma collapse_starts (p t : string) :
  PyStr.contains "<" p = false ->
  PyStr.startswith p (collapse_from 0 t) = true ->
  PyStr.startswith p t = true.
Proof.
  revert t. induction p as [|y p IH]; intros t Hp; [reflexivity|].
  cbn [PyStr.contains] in Hp. apply orb_false_iff in Hp as [Hy Hp].
  destruct t as [|c r]; [discriminate|].
  destruct (breaks_cases (String c r)) as [Hk|Hk].
  - rewrite (collapse_small c r Hk), !startswith_cons.
    intros H. apply andb_prop in H. destruct H as [-> H].
    now rewrite (IH r Hp H).
  - destruct (collapse_large c r Hk) as [rest [-> _]].
    cbn [br append]. rewrite startswith_cons, Hy. discriminate.
Qed.

Lemma collapse_starts_br (t : string) :
  PyStr.startswith br (collapse_from 0 t) = true ->
  PyStr.startswith br t = true.
Proof.
  destruct t as [|c r]; [discriminate|].
  destruct (breaks_cases (String c r)) as [Hk|Hk].
  - rewrite (collapse_small c r Hk). unfold br. rewrite !startswith_cons.
    intros H. apply andb_prop in H. destruct H as [-> H].
    now rewrite (collapse_starts "br/>" r eq_refl H).
  - intros _. destruct (PyStr.startswith br (String c r)) eqn:E;
      [reflexivity|].
    rewrite (breaks_at_none _ E) in Hk. lia.
Qed.

Lemma collapse_copy (w x : string) :
  PyStr.contains "<" w = false ->
  collapse_from 0 (w ++ x) = w ++ collapse_from 0 x.
Proof.
  induction w as [|c w IH]; [reflexivity|]. intros H.
  cbn [PyStr.contains] in H. apply orb_false_iff in H as [Hc H].
  cbn [append]. rewrite collapse_step.
  - now rewrite (IH H).
  - cbn [br PyStr.strip_prefix]. rewrite Ascii.eqb_sym. now rewrite Hc.
Qed.

Lemma collapse_br_small (y : string) :
  (breaks_at (br ++ y) < 3)%nat ->
  collapse_from 0 (br ++ y) = br ++ collapse_from 0 y.
Proof.
  intros H. change (br ++ y) with (String "<" ("br/>" ++ y)) in *.
  rewrite (collapse_small _ _ H). cbn [append].
  now rewrite !collapse_step by reflexivity.
Qed.

Lemma lstrip_collapse (t : string) :
  PyStr.lstrip t = t ->
  PyStr.lstrip (collapse_from 0 t) = collapse_from 0 t.
Proof.
  destruct t as [|c r]; [reflexivity|]. intros H.
  apply lstrip_head in H.
  destruct (breaks_cases (String c r)) as [Hk|Hk].
  - rewrite (collapse_small c r Hk). simpl. now rewrite H.
  - destruct (collapse_large c r Hk) as [rest [-> _]]. reflexivity.
Qed.

Lemma space_not_bracket (w : string) :
  PyStr.all PyStr.isspace w = true -> PyStr.contains "<" w = false.
Proof. apply all_contains. reflexivity. Qed.

(** The collapse leaves a run of one or two, and makes two of a longer
    one. *)
Lemma breaks_at_collapse (n : nat) (t : string) :
  (length t <= n)%nat ->
  breaks_at (collapse_from 0 t) = Nat.min (breaks_at t) 2.
Proof.
  revert t. induction n as [|n IH]; intros t Hl.
  - destruct t; [reflexivity | simpl in Hl; lia].
  - destruct t as [|c r]; [reflexivity|].
    destruct (breaks_cases (String c r)) as [Hk|Hk].
    + destruct (PyStr.startswith br (String c r)) eqn:Es.
      * destruct (breaks_at_some _ Es) as [y [Ey Hy]].
        rewrite Ey in *. rewrite Hy in *.
        rewrite (collapse_br_small y) by (rewrite breaks_at_br; lia).
        rewrite breaks_at_br.
        destruct (lstrip_split y) as [w [Hw Hws]].
        rewrite Hw at 1.
        rewrite (collapse_copy w _ (space_not_bracket w Hws)).
        rewrite (lstrip_spaces w _ Hws).
        rewrite (lstrip_collapse _ (lstrip_lstrip y)).
        rewrite IH.
        -- lia.
        -- pose proof (lstrip_length y). rewrite length_append in Hl.
           simpl in Hl. lia.
      * rewrite (breaks_at_none _ Es).
        apply breaks_at_none.
        destruct (PyStr.startswith br (collapse_from 0 (String c r))) eqn:E;
          [|reflexivity].
        apply collapse_starts_br in E. congruence.
    + destruct (collapse_large c r Hk) as [rest (-> & Hlt & Hs & Hls & _)].
      rewrite breaks_at_br.
      change (PyStr.lstrip (br ++ collapse_from 0 rest))
        with (br ++ collapse_from 0 rest).
      rewrite breaks_at_br, (lstrip_collapse rest Hls).
      rewrite breaks_at_none; [lia|].
      destruct (PyStr.startswith br (collapse_from 0 rest)) eqn:E;
        [|reflexivity].
      apply collapse_starts_br in E. congruence.
Qed.

Lemma calm_breaks_br (x : string) :
  calm_breaks (br ++ x)
  = (breaks_at (br ++ x) <=? 2)%nat && calm_breaks x.
Proof.
  change (calm_breaks (br ++ x))
    with ((breaks_at (br ++ x) <=? 2)%nat && calm_breaks ("br/>" ++ x)).
  f_equal.
Qed.

Lemma collapse_calm (n : nat) (t : string) :
  (length t <= n)%nat -> calm_breaks (collapse_from 0 t) = true.
Proof.
  revert t. induction n as [|n IH]; intros t Hl.
  - destruct t; [reflexivity | simpl in Hl; lia].
  - destruct t as [|c r]; [reflexivity|].
    pose proof (breaks_at_collapse _ (String c r) (le_n _)) as Hb.
    destruct (breaks_cases (String c r)) as [Hk|Hk].
    + rewrite (collapse_small c r Hk) in *. cbn [calm_breaks].
      rewrite Hb, IH by (simpl in Hl; lia).
      rewrite andb_true_r. apply Nat.leb_le. lia.
    + destruct (collapse_large c r Hk) as [rest (E & Hlt & Hs & Hls & _)].
      rewrite E in *. rewrite !calm_breaks_br.
      rewrite IH by (simpl in Hl, Hlt; lia).
      rewrite Hb, andb_true_r.
      replace (Nat.min (breaks_at (String c r)) 2 <=? 2)%nat with true
        by (symmetry; apply Nat.leb_le; lia).
      cbn [andb]. rewrite breaks_at_br, (lstrip_collapse rest Hls).
      rewrite breaks_at_none; [reflexivity|].
      destruct (PyStr.startswith br (collapse_from 0 rest)) eqn:E';
        [|reflexivity].
      apply collapse_starts_br in E'. congruence.
Qed.

Lemma collapse_calm_fixed (t : string) :
  calm_breaks t = true -> collapse_from 0 t = t.
Proof.
  induction t as [|c r IH]; [reflexivity|]. cbn [calm_breaks]. intros H.
  apply andb_prop in H. destruct H as [Hk Hr]. apply Nat.leb_le in Hk.
  rewrite collapse_small by lia. now rewrite (IH Hr).
Qed.

End Breaks.

(** X5: nowhere in a translation do three break markers or more stand in a
    row, with or without whitespace between them; the collapse changes a
    text only where they do, so collapsing a translation again changes
    nothing. *)
Theorem translation_has_no_three_breaks (v : value) :
  calm_breaks (convert_markup_to_html v) = true
  /\ collapse_breaks (convert_markup_to_html v) = convert_markup_to_html v
  /\ (forall t, calm_breaks t = true -> collapse_breaks t = t).
Proof.
  assert (H : calm_breaks (convert_markup_to_html v) = true).
  { destruct v; [reflexivity| | | |];
      unfold convert_markup_to_html; cbv zeta; unfold collapse_breaks;
      apply (collapse_calm _ _ (le_n _)). }
  split; [exact H|]. split.
  - now apply collapse_calm_fixed.
  - exact collapse_calm_fixed.
Qed.

(** X16: the question node is made from the cells under the twenty pretty
    names and from the index, and from nothing else: not from any other
    column, and not from the category name. *)
Theorem question_reads_pretty_columns (r1 r2 : row) (index : Z)
        (c1 c2 : string) :
  same_cells r1 r2 ->
  question_multichoice_xml r1 index c1 = question_multichoice_xml r2 index c2.
Proof.
  intros H.
  unfold question_multichoice_xml, question_name, fractions, answer_node,
    answer_fraction, row_get, choice_indices.
  cbn [map].
  repeat match goal with
         | |- context [row_get_or r1 ?p ?d] =>
             rewrite (H p d) by (vm_compute; tauto)
         end.
  reflexivity.
Qed.

Lemma question_reads_pretty_columns_witness :
  question_multichoice_xml
    [("Question", VStr "Q?"); ("Notes", VStr "kept out"); ("Fraction1", VInt 100)]
    0 "Maths"
  = question_multichoice_xml
      [("Fraction1", VInt 100); ("Question", VStr "Q?")] 0 "Physics".
Proof.
  apply question_reads_pretty_columns.
  intros p d Hin. vm_compute in Hin.
  repeat (destruct Hin as [<-|Hin]; [reflexivity|]). destruct Hin.
Defined.
